(** * Deep-Learning-Sandbox: the shared training utilities

    A shallow embedding of [shared_utils/model_initializer.py] and
    [shared_utils/prep_training_data.py], and the properties of the
    model-name resolver, the dataset manager and the training orchestrator
    that follow from it.

    Python objects are attribute dictionaries kept in an object store;
    methods are computations in a state-and-exception monad whose state
    survives a raised exception, as a Python object mutated before a
    [raise] stays mutated.  What the code obtains from outside the
    repository (directory listings, file sizes, memory statistics, numpy's
    random generator, the outcome of a Keras training run) is read from an
    environment record. *)

From Stdlib Require Import ZArith QArith Qround Qminmax String Ascii DecimalString.
From stdpp Require Import base tactics option list gmap strings.

Local Open Scope string_scope.
Local Open Scope list_scope.
Local Open Scope nat_scope.

(** ** Python built-ins on strings *)

Module PyStr.

(** [s.startswith(p)] *)
Definition startswith (s p : string) : bool := String.prefix p s.

(** [c.lower()] on one ASCII character; bytes outside [A-Z] are kept. *)
Definition lower_ascii (c : ascii) : ascii :=
  let n := nat_of_ascii c in
  if (65 <=? n)%nat && (n <=? 90)%nat then ascii_of_nat (n + 32) else c.

(** [s.lower()] for ASCII text. *)
Fixpoint lower (s : string) : string :=
  match s with
  | EmptyString => EmptyString
  | String c s' => String (lower_ascii c) (lower s')
  end.

(** [sub in s] *)
Fixpoint contains (sub s : string) : bool :=
  String.prefix sub s ||
  match s with
  | EmptyString => false
  | String _ s' => contains sub s'
  end.

(** The scan shared by [split] and [replace]: left to right, without
    overlaps.  [skip] counts the characters of the current match that
    remain to be passed over; [cur] is the piece collected since the last
    match. *)
Fixpoint split_scan (sep : string) (skip : nat) (cur s : string) : list string :=
  match s with
  | EmptyString => [cur]
  | String c s' =>
      match skip with
      | S k => split_scan sep k cur s'
      | O =>
          if String.prefix sep s
          then cur :: split_scan sep (String.length sep - 1) EmptyString s'
          else split_scan sep 0 (cur +:+ String c EmptyString) s'
      end
  end.

(** [s.split(sep)]; Python raises [ValueError] on an empty separator,
    which is [None] here. *)
Definition split (s sep : string) : option (list string) :=
  match sep with
  | EmptyString => None
  | _ => Some (split_scan sep 0 EmptyString s)
  end.

(** [new.join(pieces)] *)
Fixpoint join (new : string) (pieces : list string) : string :=
  match pieces with
  | [] => EmptyString
  | [p] => p
  | p :: ps => p +:+ new +:+ join new ps
  end.

(** [s.replace(old, new)] for a non-empty [old]. *)
Definition replace (s old new : string) : string :=
  join new (split_scan old 0 EmptyString s).

(** [str(i)] for a natural number. *)
Definition str (i : nat) : string := NilZero.string_of_uint (Nat.to_uint i).

End PyStr.

(** Negative list indices: [l[-1]] and [l[-2]]. *)
Definition index_m1 {A} (l : list A) : option A := last l.
Definition index_m2 {A} (l : list A) : option A :=
  match reverse l with
  | _ :: x :: _ => Some x
  | _ => None
  end.

(** [max(l, key=len)]: the first element of greatest length. *)
Definition max_key_len (l : list string) : option string :=
  match l with
  | [] => None
  | x :: r =>
      Some (foldl (λ best y, if (String.length best <? String.length y)%nat
                             then y else best) x r)
  end.

(** [s[n:]] *)
Fixpoint drop_chars (n : nat) (s : string) : string :=
  match n, s with
  | S k, String _ s' => drop_chars k s'
  | _, _ => s
  end.

(** [s.endswith(suffix)] *)
Definition endswith (s suffix : string) : bool :=
  (String.length suffix <=? String.length s)%nat &&
  String.eqb (drop_chars (String.length s - String.length suffix) s) suffix.

(** [os.path.join(a, b)] of posixpath. *)
Definition os_path_join (a b : string) : string :=
  if PyStr.startswith b "/" then b
  else if String.eqb a EmptyString || endswith a "/" then a +:+ b
  else a +:+ "/" +:+ b.

(** [str(z)] for an integer and [str(t)] for a tuple of integers. *)
Definition str_Z (z : Z) : string := NilZero.string_of_int (Z.to_int z).

Definition str_tuple (t : list Z) : string :=
  match t with
  | [] => "()"
  | [x] => "(" +:+ str_Z x +:+ ",)"
  | _ => "(" +:+ PyStr.join ", " (str_Z <$> t) +:+ ")"
  end.

(** ** Python numbers

    Floats are read as the rationals they approximate: a quotient of two
    dataset sizes and its rounding are exact in double precision far beyond
    any dataset size (up to 2^52), and the base-two logarithm of a batch
    size is on the right side of every integer up to 2^48. *)

(** Round-half-to-even of [a / b] for [0 < b]. *)
Definition round_half_even_div (a b : Z) : Z :=
  let q := (a / b)%Z in
  match (2 * (a mod b) ?= b)%Z with
  | Lt => q
  | Gt => (q + 1)%Z
  | Eq => if Z.even q then q else (q + 1)%Z
  end.

(** [round(x)] *)
Definition py_round (x : Q) : Z := round_half_even_div (Qnum x) (Zpos (Qden x)).

(** [round(x, 3)] *)
Definition py_round3 (x : Q) : Q := Qmake (py_round (x * 1000)) 1000.

(** [int(x)]: truncation towards zero. *)
Definition py_int (x : Q) : Z :=
  if Qle_bool 0 x then Qfloor x else Qceiling x.

(** [a > b] on floats. *)
Definition Qgtb (a b : Q) : bool := negb (Qle_bool a b).

(** [math.ceil(math.log2(n))] and [math.floor(math.log2(n))] for [1 <= n]. *)
Definition ceil_log2 (n : Z) : Z := Z.log2_up n.
Definition floor_log2 (n : Z) : Z := Z.log2 n.

(** ** Values, exceptions and the object store *)

(** The exceptions the two modules raise, with the message where the code
    gives one; of a message that prints a value of the run, and of the
    messages of the libraries, the fixed part is kept. *)
Inductive exn :=
  | ValueError (msg : string)
  | OSError (msg : string)
  | TypeError (msg : string)
  | AttributeError (attr : string)
  | IndexError
  | KeyError (key : string)
  | ZeroDivisionError
  | UnboundLocalError (var : string)
  | FileNotFoundError (path : string)
  | SameFileError (path : string).

Inductive result (A : Type) :=
  | Ok (a : A)
  | Raise (e : exn).
Arguments Ok {A} a.
Arguments Raise {A} e.

(** A batch of a sample pipeline: the (input path, target path) pairs it
    will decode. *)
Definition batch := list (string * string).

(** The values held in attributes. *)
Inductive pyval :=
  | VNone
  | VBool (b : bool)
  | VInt (z : Z)
  | VFloat (q : Q)
  | VStr (s : string)
  | VStrs (l : list string)               (* a list of paths *)
  | VInts (l : list Z)                    (* a shape tuple *)
  | VRef (o : nat)                        (* a reference to an object *)
  | VTable (rows : list (string * string)) (* a DataFrame of (id, label) rows *)
  | VTfData (batches : list batch)        (* a batched tf.data.Dataset *)
  | VIterator (batches : list batch)      (* a Keras DataFrameIterator *)
  | VModel (weights : option string)      (* a network; the checkpoint content it loaded *)
  | VHistory (dice_coef : list Q)         (* History.history['dice_coef'] *)
  | VOpaque (what : string).              (* an object of the framework *)

(** The mutable world: the objects, the files (path to content), the
    state of numpy's global random generator, encoded as a number, and the
    number of training runs made so far. *)
Record State := mkState {
  heap : gmap nat (gmap string pyval);
  files : gmap string string;
  np_random : N;
  fit_calls : nat
}.

Definition with_heap (h : gmap nat (gmap string pyval)) (σ : State) : State :=
  mkState h (files σ) (np_random σ) (fit_calls σ).
Definition with_files (f : gmap string string) (σ : State) : State :=
  mkState (heap σ) f (np_random σ) (fit_calls σ).
Definition with_np_random (g : N) (σ : State) : State :=
  mkState (heap σ) (files σ) g (fit_calls σ).
Definition with_fit_calls (n : nat) (σ : State) : State :=
  mkState (heap σ) (files σ) (np_random σ) n.

(** What comes from outside the repository. *)
Record Env := mkEnv {
  (* os_utils.list_dir(path, target_type='files') *)
  list_dir : string → list string;
  (* os.path.getsize *)
  getsize : string → Z;
  (* cv2.imread(path, IMREAD_COLOR).shape *)
  imread_shape : string → list Z;
  (* pd.read_csv(path, dtype=str), as (id, label) rows *)
  read_csv : string → list (string * string);
  (* tf.config.list_physical_devices('GPU') is not empty *)
  gpus : bool;
  (* psutil.virtual_memory().available *)
  virtual_memory_available : Q;
  (* the generator state np.random.seed(seed) / RandomState(seed) starts from *)
  seeded : Z → N;
  (* generator.permutation(n): the index permutation drawn and the next state *)
  permutation : N → nat → list nat * N;
  (* sklearn's stratified train_test_split of a label table *)
  stratified_split : Z → list (string * string) → list (string * string) * list (string * string);
  (* ImageDataGenerator.flow_from_dataframe(df, directory, batch_size): its batches *)
  flow_from_dataframe : list (string * string) → string → Z → list batch;
  (* model.fit, resumed from the files present: the files after training
     (checkpoint and CSV log) and the per-epoch dice_coef of the run; the
     first argument counts the earlier calls *)
  keras_fit : nat → gmap string string → gmap string string * list Q
}.

(** ** The method monad: state that survives an exception *)

Definition M (A : Type) : Type := State → State * result A.

Global Instance M_ret : MRet M := λ A a σ, (σ, Ok a).
Global Instance M_bind : MBind M := λ A B f m σ,
  match m σ with
  | (σ', Ok a) => f a σ'
  | (σ', Raise e) => (σ', Raise e)
  end.

Definition raise {A} (e : exn) : M A := λ σ, (σ, Raise e).
Definition get_state : M State := λ σ, (σ, Ok σ).
Definition put_state (σ' : State) : M unit := λ _, (σ', Ok tt).

(** [for x in l: body x] *)
Fixpoint for_each {A} (l : list A) (body : A → M unit) : M unit :=
  match l with
  | [] => mret tt
  | x :: r => body x ;; for_each r body
  end.

(** [getattr], [setattr] and [hasattr] on the object [o]. *)
Definition getattr (o : nat) (a : string) : M pyval := λ σ,
  match heap σ !! o ≫= (.!! a) with
  | Some v => (σ, Ok v)
  | None => (σ, Raise (AttributeError a))
  end.

Definition setattr (o : nat) (a : string) (v : pyval) : M unit := λ σ,
  match heap σ !! o with
  | Some attrs => (with_heap (<[o := <[a := v]> attrs]> (heap σ)) σ, Ok tt)
  | None => (σ, Raise (AttributeError a))
  end.

Definition hasattr (o : nat) (a : string) : M bool := λ σ,
  (σ, Ok (bool_decide (is_Some (heap σ !! o ≫= (.!! a))))).

(** Reading an attribute at the type the code uses it at. *)
Definition as_int (v : pyval) : M Z :=
  match v with VInt z => mret z | _ => raise (TypeError "int expected") end.
Definition as_bool (v : pyval) : M bool :=
  match v with VBool b => mret b | _ => raise (TypeError "bool expected") end.
Definition as_str (v : pyval) : M string :=
  match v with VStr s => mret s | _ => raise (TypeError "str expected") end.
Definition as_strs (v : pyval) : M (list string) :=
  match v with VStrs l => mret l | _ => raise (TypeError "list expected") end.
Definition as_ref (v : pyval) : M nat :=
  match v with VRef o => mret o | _ => raise (TypeError "object expected") end.

(** [x[-1]] on the result of a split, and friends. *)
Definition from_option {A} (e : exn) (o : option A) : M A :=
  match o with Some a => mret a | None => raise e end.

(** An object store holding one object with the given attributes. *)
Definition one_object (o : nat) (attrs : list (string * pyval)) : State :=
  mkState {[ o := list_to_map attrs ]} ∅ 0%N 0.

(** The attribute [a] of [o] in a state, if any. *)
Definition attr_of (σ : State) (o : nat) (a : string) : option pyval :=
  heap σ !! o ≫= (.!! a).

Definition as_history (v : pyval) : M (list Q) :=
  match v with VHistory h => mret h | _ => raise (TypeError "History expected") end.

(** [len(x)] *)
Definition py_len (v : pyval) : M Z :=
  match v with
  | VStrs l => mret (Z.of_nat (length l))
  | VInts l => mret (Z.of_nat (length l))
  | VTable rows => mret (Z.of_nat (length rows))
  | VTfData b => mret (Z.of_nat (length b))
  | VIterator b => mret (Z.of_nat (length b))
  | _ => raise (TypeError "object has no len()")
  end.

(** [for x in l], with the locals the loop updates passed along. *)
Fixpoint for_fold {A L} (l : list A) (body : L → A → M L) (locals : L) : M L :=
  match l with
  | [] => mret locals
  | x :: r => locals' ← body locals x; for_fold r body locals'
  end.

(** *** Files *)

(** [os.path.exists] *)
Definition path_exists (path : string) : M bool := λ σ,
  (σ, Ok (bool_decide (is_Some (files σ !! path)))).

(** Modelled from the spec: [delete] of [shared_utils/os_utils.py], which
    is not among the sources.  The spec has stale checkpoint and history
    files deleted on the fresh path and missing files not be errors: the
    file is removed when present, and nothing happens when it is absent. *)
Definition delete_file (path : string) : M unit := λ σ,
  (with_files (delete path (files σ)) σ, Ok tt).

(** [shutil.copy(src, dst)] between files. *)
Definition shutil_copy (src dst : string) : M unit := λ σ,
  if String.eqb src dst then (σ, Raise (SameFileError src))
  else match files σ !! src with
       | Some content => (with_files (<[dst := content]> (files σ)) σ, Ok tt)
       | None => (σ, Raise (FileNotFoundError src))
       end.

(** ** model_initializer.py: the catalog and the name resolver *)

(** A Python [dict] in insertion order. *)
Definition dict (V : Type) := list (string * V).

Definition dict_keys {V} (d : dict V) : list string := d.*1.

Fixpoint dict_set {V} (d : dict V) (k : string) (v : V) : dict V :=
  match d with
  | [] => [(k, v)]
  | (k', v') :: r => if String.eqb k' k then (k, v) :: r else (k', v') :: dict_set r k v
  end.

Fixpoint dict_get {V} (d : dict V) (k : string) : option V :=
  match d with
  | [] => None
  | (k', v') :: r => if String.eqb k' k then Some v' else dict_get r k
  end.

(** [d.update(other)] *)
Definition dict_update {V} (d other : dict V) : dict V :=
  foldl (λ acc kv, dict_set acc kv.1 kv.2) d other.

Definition valid_models_builtin : dict string :=
  [("efficientnet", "class"); ("efficientnet_v2", "class"); ("densenet", "class");
   ("vgg", "class"); ("inception", "class"); ("inception_resnet", "class");
   ("resnet", "class"); ("resnet_v2", "class"); ("resnet_rs", "class");
   ("regnet", "class"); ("mobilenet", "class"); ("mobilenet_v2", "class");
   ("mobilenet_v3", "class"); ("xception", "class")].

Definition valid_models_custom : dict string := [("unet", "segm")].

Definition valid_model_names_all : dict string :=
  dict_update valid_models_builtin valid_models_custom.

Definition unsupported_base_msg (model_name : string) : string :=
  "Requested base model not supported: " +:+ model_name.

(** [InitializeModel.get_complexity_from_model_name], over the catalog it
    reads ([valid_model_names_all] in the module).  [self.model_name] is
    the requested name in lower case, as [__init__] stores it. *)
Definition get_complexity_from_model_name (catalog : dict string) (self : nat) : M unit :=
  model_name ← getattr self "model_name" ≫= as_str;
  let model_name_base :=
    List.filter (λ name, PyStr.startswith model_name name) (dict_keys catalog) in
  match model_name_base with
  | [] => raise (ValueError (unsupported_base_msg model_name))
  | _ =>
      base ← from_option (ValueError "max() arg is an empty sequence")
                         (max_key_len model_name_base);
      setattr self "model_name_base" (VStr base);;
      pieces ← from_option (ValueError "empty separator") (PyStr.split model_name base);
      complexity ← from_option IndexError (index_m1 pieces);
      setattr self "model_complexity" (VStr complexity);;
      complexity ← getattr self "model_complexity" ≫= as_str;
      setattr self "model_complexity" (VStr (PyStr.replace complexity "small" "Small"));;
      complexity ← getattr self "model_complexity" ≫= as_str;
      setattr self "model_complexity" (VStr (PyStr.replace complexity "large" "Large"))
  end;;
  complexity ← getattr self "model_complexity" ≫= as_str;
  if (12 <? String.length complexity)%nat
  then raise (ValueError "Model complexity spec too long.")
  else mret tt.

(** [InitializeModel.set_model_type] *)
Definition set_model_type (catalog : dict string) (self : nat) : M unit :=
  base ← getattr self "model_name_base" ≫= as_str;
  match dict_get catalog base with
  | None => raise (ValueError ("Unsupported model: " +:+ base))
  | Some kind =>
      if String.eqb kind "class" then setattr self "model_type" (VStr "class")
      else if String.eqb kind "segm" then setattr self "model_type" (VStr "segm")
      else raise (ValueError ("Unsupported model type: " +:+ kind))
  end.

(** ** model_initializer.py: the training orchestrator *)

(** [InitializeModel.set_default_optimization_params] *)
Definition set_default_optimization_params (self : nat) : M unit :=
  setattr self "learning_rate_base" (VFloat (1 # 1000));;
  setattr self "num_epochs" (VInt 40).

(** [dataset.take(n)] of tf.data; a Keras iterator has no such method. *)
Definition tf_take (v : pyval) (n : nat) : M pyval :=
  match v with
  | VTfData b => mret (VTfData (take n b))
  | _ => raise (AttributeError "take")
  end.

(** [InitializeModel.set_run_debug] *)
Definition set_run_debug (self : nat) : M unit :=
  dataset ← getattr self "dataset" ≫= as_ref;
  train ← getattr dataset "train_dataset";
  train16 ← tf_take train 16;
  setattr dataset "train_dataset" train16;;
  train ← getattr dataset "train_dataset";
  valid16 ← tf_take train 16;
  setattr dataset "valid_dataset" valid16;;
  setattr self "num_epochs" (VInt 1).

(** [self.model.load_weights(path)] *)
Definition load_weights (self : nat) (path : string) : M unit :=
  _ ← getattr self "model";
  σ ← get_state;
  content ← from_option (FileNotFoundError path) (files σ !! path);
  setattr self "model" (VModel (Some content)).

(** [InitializeModel.make_callbacks].  The callbacks are Keras objects;
    what is kept of them is the two paths they write to. *)
Definition make_callbacks (self : nat) : M unit :=
  model_path ← getattr self "model_path" ≫= as_str;
  model_name ← getattr self "model_name" ≫= as_str;
  let trained_model_file :=
    os_path_join model_path ("trained_model_" +:+ model_name +:+ ".h5") in
  let csv_path :=
    os_path_join model_path ("training_history_" +:+ model_name +:+ ".csv") in
  train_fresh ← getattr self "train_fresh" ≫= as_bool;
  (if negb train_fresh then
     found ← path_exists trained_model_file;
     (if negb found then setattr self "train_fresh" (VBool true) else mret tt);;
     found ← path_exists csv_path;
     (if negb found then setattr self "train_fresh" (VBool true) else mret tt)
   else mret tt);;
  train_fresh ← getattr self "train_fresh" ≫= as_bool;
  (if train_fresh : bool then
     delete_file trained_model_file;;
     delete_file csv_path
   else load_weights self trained_model_file);;
  setattr self "history_file" (VStr csv_path);;
  setattr self "timing_callback" (VOpaque "TimingCallback");;
  setattr self "callbacks" (VOpaque "callbacks");;
  setattr self "trained_model_file" (VStr trained_model_file).

(** [InitializeModel.set_optimizer], with the default argument: Adam at
    the base learning rate. *)
Definition set_optimizer (self : nat) : M unit :=
  learning_rate ← getattr self "learning_rate_base";
  setattr self "optimizer" learning_rate.

(** [InitializeModel.run_model]: compile and fit, which read the settings
    and the pipelines of the dataset.  What the run leaves in the files
    and the metric history it returns are the environment's. *)
Definition run_model (env : Env) (self : nat) : M pyval :=
  _ ← getattr self "model";
  _ ← getattr self "loss";
  _ ← getattr self "optimizer";
  _ ← getattr self "metrics";
  dataset ← getattr self "dataset" ≫= as_ref;
  _ ← getattr dataset "train_dataset";
  _ ← getattr dataset "train_steps";
  _ ← getattr self "num_epochs";
  _ ← getattr dataset "valid_dataset";
  _ ← getattr dataset "valid_steps";
  _ ← getattr self "callbacks";
  σ ← get_state;
  let trained := keras_fit env (fit_calls σ) (files σ) in
  put_state (with_fit_calls (S (fit_calls σ)) (with_files trained.1 σ));;
  setattr self "history" (VHistory trained.2);;
  getattr self "history".

(** [InitializeModel.make_backup_file] *)
Definition make_backup_file (filename : string) (i : nat) : M string :=
  parts ← from_option (ValueError "empty separator") (PyStr.split filename ".");
  last_part ← from_option IndexError (index_m1 parts);
  let extension := "." +:+ last_part in
  parts ← from_option (ValueError "empty separator") (PyStr.split filename extension);
  stem ← from_option IndexError (index_m2 parts);
  let backup_file_name := stem +:+ "_backup" +:+ PyStr.str i +:+ extension in
  shutil_copy filename backup_file_name;;
  mret backup_file_name.

(** [InitializeModel.get_final_epoch_coeff], for ['dice_coef']. *)
Definition get_final_epoch_coeff (self : nat) : M Q :=
  history ← getattr self "history" ≫= as_history;
  final ← from_option IndexError (index_m1 history);
  mret (py_round3 final).

(** A backup record: [[model_file, history_file, metric]]. *)
Record BackupRecord := mkBackup {
  rec_model_file : string;     (* [0] *)
  rec_history_file : string;   (* [1] *)
  rec_metric : Q               (* [2] *)
}.

(** The loop of [pick_best_model] over the records in insertion order; its
    locals are [(best_acc, best_model)]. *)
Definition pick_step (locals : Q * string) (entry : string * BackupRecord) : Q * string :=
  let '(best_acc, best_model) := locals in
  let accuracy := rec_metric entry.2 in
  if Qgtb best_acc 0 then (accuracy, best_model)
  else if Qgtb accuracy best_acc then (best_acc, entry.1)
  else (best_acc, best_model).

Definition pick_loop (backup_models : dict BackupRecord) : Q * string :=
  foldl pick_step (0%Q, EmptyString) backup_models.

(** [InitializeModel.pick_best_model] *)
Definition pick_best_model (self : nat) (backup_models : dict BackupRecord) : M unit :=
  let best_model := (pick_loop backup_models).2 in
  if String.eqb best_model EmptyString then mret tt
  else
    best ← from_option (KeyError best_model) (dict_get backup_models best_model);
    trained_model_file ← getattr self "trained_model_file" ≫= as_str;
    shutil_copy (rec_model_file best) trained_model_file;;
    history_file ← getattr self "history_file" ≫= as_str;
    shutil_copy (rec_history_file best) history_file.

(** The records [try_bypass_local_minimum] collects. *)
Definition collect_backups (env : Env) (self : nat) (n_times : nat) : M (dict BackupRecord) :=
  trained_model_file ← getattr self "trained_model_file" ≫= as_str;
  history_file ← getattr self "history_file" ≫= as_str;
  coeff ← get_final_epoch_coeff self;
  let backup_models :=
    dict_set [] "jump_iter0" (mkBackup trained_model_file history_file coeff) in
  for_fold (seq 1 n_times) (λ backup_models i,
    trained_model_file ← getattr self "trained_model_file" ≫= as_str;
    backup_file_model ← make_backup_file trained_model_file i;
    history_file ← getattr self "history_file" ≫= as_str;
    backup_file_csv ← make_backup_file history_file i;
    set_optimizer self;;
    _ ← run_model env self;
    coeff ← get_final_epoch_coeff self;
    mret (dict_set backup_models ("jump_iter" +:+ PyStr.str i)
                   (mkBackup backup_file_model backup_file_csv coeff)))
    backup_models.

(** [InitializeModel.try_bypass_local_minimum] *)
Definition try_bypass_local_minimum (env : Env) (self : nat) (n_times : nat) : M unit :=
  backup_models ← collect_backups env self n_times;
  pick_best_model self backup_models.

(** ** prep_training_data.py: the dataset manager *)

Definition count_mismatch_msg : string :=
  "Number of images and labels mismatched. Curate datapoints.".

(** [Dataset.get_image_list].  On an empty listing the message of the
    intended [FileNotFoundError] is built by adding the list to a string,
    which is itself a [TypeError]. *)
Definition get_image_list (env : Env) (path : string) : M (list string) :=
  let images := list_dir env path in
  match images with
  | [] => raise (TypeError "can only concatenate str (not list) to str")
  | _ => mret images
  end.

(** [Dataset.make_image_dirs] *)
Definition make_image_dirs (env : Env) (self : nat) (path_images : string)
  : M (list string * string) :=
  images ← get_image_list env path_images;
  let num_examples := Z.of_nat (length images) in
  known ← hasattr self "num_images";
  (if known : bool then
     expected ← getattr self "num_examples" ≫= as_int;
     if negb (num_examples =? expected)%Z
     then raise (OSError count_mismatch_msg)
     else mret tt
   else mret tt);;
  setattr self "num_examples" (VInt num_examples);;
  mret (images, path_images).

(** [Dataset.get_mean_file_size] *)
Definition get_mean_file_size (env : Env) (self : nat) : M Q :=
  images ← getattr self "images" ≫= as_strs;
  let file_paths := getsize env <$> images in
  match images with
  | [] => raise ZeroDivisionError
  | _ => mret (inject_Z (foldr Z.add 0%Z file_paths) / inject_Z (Z.of_nat (length file_paths)))%Q
  end.

(** [Dataset.set_image_dims_original] *)
Definition set_image_dims_original (env : Env) (self : nat) : M unit :=
  images ← getattr self "images" ≫= as_strs;
  image_path ← from_option IndexError (images !! 0);
  let dims := imread_shape env image_path in
  if (length dims <? 2)%nat || (3 <? length dims)%nat
  then raise (ValueError ("Unsupported image shape of " +:+ str_tuple dims
                          +:+ "in " +:+ image_path))
  else
    match dims with
    | [h; w] => setattr self "image_dims_original" (VInts [h; w; 1%Z])
    | _ => setattr self "image_dims_original" (VInts dims)
    end.

(** [Dataset.set_seed]; the TensorFlow generator it also seeds is used by
    none of the methods here. *)
Definition set_seed (env : Env) (self : nat) (seed : Z) : M unit :=
  setattr self "seed" (VInt seed);;
  σ ← get_state;
  put_state (with_np_random (seeded env seed) σ).

(** [Dataset.__init__] *)
Definition Dataset_init (env : Env) (self : nat) (path_images : string) : M unit :=
  made ← make_image_dirs env self path_images;
  setattr self "images" (VStrs made.1);;
  setattr self "path_images" (VStr made.2);;
  set_image_dims_original env self;;
  dims ← getattr self "image_dims_original";
  setattr self "image_dims_target" dims;;
  setattr self "batch_size" (VInt 16);;
  set_seed env self 42.

(** [Dataset.get_batch_max_batch_size_for_system_memory].  With a GPU
    visible the branch taken never assigns [max_batch_size], and the
    [return] fails. *)
Definition get_batch_max_batch_size_for_system_memory
    (env : Env) (self : nat) (memory_factor : Q) : M Q :=
  if gpus env then raise (UnboundLocalError "max_batch_size")
  else
    let available_memory := (memory_factor * virtual_memory_available env)%Q in
    let available_memory :=
      if Qgtb 50000000000 available_memory then 50000000000%Q else available_memory in
    avg_file_size ← get_mean_file_size env self;
    if Qeq_bool avg_file_size 0 then raise ZeroDivisionError
    else mret (available_memory / avg_file_size)%Q.

Definition exceeds_limit_msg (batch_size : Z) : string :=
  "Error - specified value " +:+ str_Z batch_size +:+ " exceeds limit".

(** [Dataset.calc_nearest_power_of_two]; the limit is printed in the
    message of the source, which is left out here. *)
Definition calc_nearest_power_of_two (batch_size : Z) (limit : Q) : M Z :=
  if (batch_size <=? 0)%Z then raise (ValueError "math domain error")
  else
    let power_of_two := (2 ^ ceil_log2 batch_size)%Z in
    let power_of_two :=
      if Qgtb (inject_Z power_of_two) limit
      then (2 ^ floor_log2 batch_size)%Z else power_of_two in
    if Qgtb (inject_Z power_of_two) limit
    then raise (ValueError (exceeds_limit_msg batch_size))
    else mret power_of_two.

(** [Dataset.__set_batch_size]; its two notices go to the console. *)
Definition set_batch_size_private (env : Env) (self : nat) (batch_size : Z) : M unit :=
  num_examples ← getattr self "num_examples" ≫= as_int;
  let fraction_of_dataset := py_round (inject_Z num_examples / 10) in
  max_batch_size ← get_batch_max_batch_size_for_system_memory env self (8 # 10);
  nearest_power_of_two ← calc_nearest_power_of_two batch_size max_batch_size;
  let new_batch_size :=
    if (num_examples <? nearest_power_of_two)%Z then num_examples
    else nearest_power_of_two in
  setattr self "batch_size" (VInt new_batch_size).

(** [Dataset.calc_train_steps] *)
Definition calc_train_steps (self : nat) : M unit :=
  train_x ← getattr self "train_dataset";
  valid_x ← getattr self "valid_dataset";
  batch_size ← getattr self "batch_size" ≫= as_int;
  len_train ← py_len train_x;
  (if (batch_size =? 0)%Z then raise ZeroDivisionError else mret tt);;
  setattr self "train_steps" (VInt (py_round (inject_Z len_train / inject_Z batch_size)));;
  len_valid ← py_len valid_x;
  setattr self "valid_steps" (VInt (py_round (inject_Z len_valid / inject_Z batch_size)));;
  (if negb (len_train mod batch_size =? 0)%Z then
     train_steps ← getattr self "train_steps" ≫= as_int;
     setattr self "train_steps" (VInt (train_steps + 1))
   else mret tt);;
  (if negb (len_valid mod batch_size =? 0)%Z then
     valid_steps ← getattr self "valid_steps" ≫= as_int;
     setattr self "valid_steps" (VInt (valid_steps + 1))
   else mret tt).

(** [Dataset.set_batch_size] *)
Definition set_batch_size (env : Env) (self : nat) (batch_size : Z) : M unit :=
  set_batch_size_private env self batch_size;;
  calc_train_steps self.

(** [Dataset.set_max_batch_size] *)
Definition set_max_batch_size (env : Env) (self : nat) : M unit :=
  num_examples ← getattr self "num_examples" ≫= as_int;
  set_batch_size env self num_examples.

(** [dataset.batch(n)]: consecutive groups of [n], the last one shorter. *)
Fixpoint batch_scan {A} (n : nat) (cur : list A) (l : list A) : list (list A) :=
  match l with
  | [] => match cur with [] => [] | _ => [cur] end
  | x :: r =>
      let cur' := (cur ++ [x])%list in
      if (length cur' =? n)%nat then cur' :: batch_scan n [] r
      else batch_scan n cur' r
  end.

(** [Dataset.tf_dataset]: the slices pair the two lists, which must be
    of one length; decoding happens when a batch is drawn. *)
Definition tf_dataset (self : nat) (train_x train_y : list string) : M pyval :=
  (if negb (length train_x =? length train_y)%nat
   then raise (ValueError "Dimensions are not compatible") else mret tt);;
  batch_size ← getattr self "batch_size" ≫= as_int;
  (if (batch_size <=? 0)%Z
   then raise (ValueError "batch_size must be positive") else mret tt);;
  mret (VTfData (batch_scan (Z.to_nat batch_size) [] (zip train_x train_y))).

(** [arr[indices]] *)
Definition take_indices {A} (arr : list A) (indices : list nat) : M (list A) :=
  from_option IndexError (mapM (λ i, arr !! i) indices).

(** sklearn's [train_test_split(arr, test_size=size, random_state=seed)]
    with an integer [test_size]: a permutation of the indices is drawn from
    a generator of its own seeded with [seed]; the first [size] indices are
    the test part and the rest the train part. *)
Definition train_test_split {A} (env : Env) (arr : list A) (test_size : Z) (seed : Z)
  : M (list A * list A) :=
  let n_samples := length arr in
  if (Z.of_nat n_samples <=? test_size)%Z || (test_size <=? 0)%Z
  then raise (ValueError "test_size should be positive and smaller than the number of samples")
  else
    let n_test := Z.to_nat test_size in
    let n_train := n_samples - n_test in
    let indices := (permutation env (seeded env seed) n_samples).1 in
    train ← take_indices arr (take n_train (drop n_test indices));
    test ← take_indices arr (take n_test indices);
    mret (train, test).

(** sklearn's [shuffle(x, y)] without a [random_state]: one permutation,
    drawn from numpy's global generator, applied to both. *)
Definition shuffle (env : Env) (x y : list string) : M (list string * list string) :=
  (if negb (length x =? length y)%nat
   then raise (ValueError "Found input variables with inconsistent numbers of samples")
   else mret tt);;
  σ ← get_state;
  let drawn := permutation env (np_random σ) (length x) in
  put_state (with_np_random drawn.2 σ);;
  x' ← take_indices x drawn.1;
  y' ← take_indices y drawn.1;
  mret (x', y').

(** The three parts [load_data] returns, each as (inputs, targets). *)
Record Splits := mkSplits {
  train_part : list string * list string;
  valid_part : list string * list string;
  test_part : list string * list string
}.

(** [ImgMaskDataset.load_data] *)
Definition load_data (env : Env) (self : nat) (images masks : list string) (split : Q)
  : M Splits :=
  let size := py_int (inject_Z (Z.of_nat (length images)) * split) in
  seed ← getattr self "seed" ≫= as_int;
  x ← train_test_split env images size seed;
  y ← train_test_split env masks size seed;
  x' ← train_test_split env x.1 size seed;
  y' ← train_test_split env y.1 size seed;
  mret (mkSplits (x'.1, y'.1) (x.2, y.2) (x'.2, y'.2)).

(** [ImgMaskDataset.prep_data_img_labels] *)
Definition prep_data_img_labels (env : Env) (self : nat) : M unit :=
  images ← getattr self "images" ≫= as_strs;
  masks ← getattr self "masks" ≫= as_strs;
  parts ← load_data env self images masks (2 # 10);
  train ← shuffle env (train_part parts).1 (train_part parts).2;
  train_dataset ← tf_dataset self train.1 train.2;
  setattr self "train_dataset" train_dataset;;
  valid_dataset ← tf_dataset self (valid_part parts).1 (valid_part parts).2;
  setattr self "valid_dataset" valid_dataset;;
  calc_train_steps self.

(** The check of the required keys in both constructors. *)
Definition require_keys (paths_training : dict string) (keys : list string) : M unit :=
  for_each keys (λ key,
    match dict_get paths_training key with
    | None => raise (OSError ("Required key missing " +:+ key))
    | Some _ => mret tt
    end).

Definition dict_item (d : dict string) (key : string) : M string :=
  from_option (KeyError key) (dict_get d key).

(** [ImgMaskDataset.__init__] *)
Definition ImgMaskDataset_init (env : Env) (self : nat) (paths_training : dict string)
  : M unit :=
  require_keys paths_training ["path_images"; "path_masks"];;
  path_images ← dict_item paths_training "path_images";
  Dataset_init env self path_images;;
  path_masks ← dict_item paths_training "path_masks";
  made ← make_image_dirs env self path_masks;
  setattr self "masks" (VStrs made.1);;
  setattr self "path_masks" (VStr made.2);;
  prep_data_img_labels env self.

(** [ImgLabelDataset.read_labels_from_excel] *)
Definition read_labels_from_excel (env : Env) (self : nat) (path_labels : string) : M unit :=
  let data_labels := read_csv env path_labels in
  let data_labels := (λ row : string * string, (row.1 +:+ ".tif", row.2)) <$> data_labels in
  setattr self "data_labels" (VTable data_labels);;
  images ← getattr self "images" ≫= as_strs;
  if negb (length data_labels =? length images)%nat
  then raise (OSError count_mismatch_msg)
  else mret tt.

(** [ImgLabelDataset.make_random_data_generator] *)
Definition make_random_data_generator (env : Env) (self : nat) (df : list (string * string))
  : M (pyval * Z) :=
  image_path ← getattr self "path_images" ≫= as_str;
  batch_size ← getattr self "batch_size" ≫= as_int;
  let loader := flow_from_dataframe env df image_path batch_size in
  mret (VIterator loader, Z.of_nat (length loader)).

(** [ImgLabelDataset.train_val_split] *)
Definition train_val_split (env : Env) (self : nat) : M unit :=
  table ← getattr self "data_labels";
  rows ← match table with VTable rows => mret rows | _ => raise (TypeError "DataFrame expected") end;
  seed ← getattr self "seed" ≫= as_int;
  let parts := stratified_split env seed rows in
  train ← make_random_data_generator env self parts.1;
  setattr self "train_dataset" train.1;;
  valid ← make_random_data_generator env self parts.2;
  setattr self "valid_dataset" valid.1.

(** [ImgLabelDataset.__init__] *)
Definition ImgLabelDataset_init (env : Env) (self : nat) (paths_training : dict string)
  : M unit :=
  require_keys paths_training ["path_images"; "path_labels"];;
  path_images ← dict_item paths_training "path_images";
  Dataset_init env self path_images;;
  path_labels ← dict_item paths_training "path_labels";
  read_labels_from_excel env self path_labels;;
  train_val_split env self;;
  calc_train_steps self.

(** ** The specification's side

    What the specification says of a result, written from its words, to be
    compared with what the methods compute. *)

(** The remainder of [name] after its prefix [base]. *)
Definition strip_prefix (name base : string) : string :=
  drop_chars (String.length base) name.

(** The complexity token: the remainder, with [small] and [large]
    capitalised. *)
Definition spec_complexity (name base : string) : string :=
  PyStr.replace (PyStr.replace (strip_prefix name base) "small" "Small") "large" "Large".

(** [ceil(count / batch_size)] *)
Definition ceil_steps (count batch_size : Z) : Z :=
  Qceiling (inject_Z count / inject_Z batch_size).

(** A power of two. *)
Definition power_of_two (n : Z) : Prop := ∃ k : Z, (0 ≤ k)%Z ∧ n = (2 ^ k)%Z.

(** The record under [key] has the highest metric: it is recorded, and
    no record has a higher one. *)
Definition highest_metric (backup_models : dict BackupRecord) (key : string) : Prop :=
  ∃ best, dict_get backup_models key = Some best ∧
          Forall (λ entry, (rec_metric entry.2 <= rec_metric best)%Q) backup_models.

(** The batch size that [set_batch_size] stores: unless the request
    exceeds the limit, a power of two that is at most the number of
    examples and the memory bound. *)
Definition stored_batch_size_spec (env : Env) (σ : State) (self : nat) (b : Z) : Prop :=
  (1 ≤ b)%Z →
  (set_batch_size env self b σ).2 ≠ Raise (ValueError (exceeds_limit_msg b)) →
  ∃ (stored n : Z) (limit : Q),
    attr_of (set_batch_size env self b σ).1 self "batch_size" = Some (VInt stored) ∧
    attr_of σ self "num_examples" = Some (VInt n) ∧
    (get_batch_max_batch_size_for_system_memory env self (8 # 10) σ).2 = Ok limit ∧
    power_of_two stored ∧ (stored ≤ n)%Z ∧ (inject_Z stored <= limit)%Q.

(** The shares of the split: validation takes the
    fraction [ratio] of the samples, and test the fraction [ratio] of what
    is left after validation. *)
Definition test_share_spec (env : Env) (σ : State) (self : nat)
    (images masks : list string) (ratio : Q) : Prop :=
  ∀ parts,
    (load_data env self images masks ratio σ).2 = Ok parts →
    let count := Z.of_nat (length images) in
    let valid_count := Z.of_nat (length (valid_part parts).1) in
    valid_count = py_int (inject_Z count * ratio) ∧
    Z.of_nat (length (test_part parts).1) = py_int (inject_Z (count - valid_count) * ratio).

(** ** What the methods compute, in closed form *)

(** The step count [calc_train_steps] stores for a pipeline of [count]
    elements. *)
Definition steps_stored (count batch_size : Z) : Z :=
  (round_half_even_div count batch_size
   + if (count mod batch_size =? 0)%Z then 0 else 1)%Z.

(** The key [pick_best_model] ends with: the last one whose metric is
    positive, or the empty string. *)
Definition last_positive (backup_models : dict BackupRecord) : string :=
  foldl (λ found entry, if Qgtb (rec_metric entry.2) 0 then entry.1 else found)
        EmptyString backup_models.

(** The samples of a pipeline. *)
Definition samples_of (v : option pyval) : list (string * string) :=
  match v with
  | Some (VTfData batches) => concat batches
  | _ => []
  end.

(** The two files of a training run. *)
Definition checkpoint_path (model_path model_name : string) : string :=
  os_path_join model_path ("trained_model_" +:+ model_name +:+ ".h5").
Definition history_path (model_path model_name : string) : string :=
  os_path_join model_path ("training_history_" +:+ model_name +:+ ".csv").

(** ** Invariants of methods *)

(** [m] keeps [P] true of the state, whether it returns or raises. *)
Definition preserves {A} (P : State → Prop) (m : M A) : Prop :=
  ∀ σ, P σ → P (m σ).1.

(** [m] never ends by raising [e]. *)
Definition avoids {A} (e : exn) (m : M A) : Prop :=
  ∀ σ, (m σ).2 ≠ Raise e.

(** [m] does not end by raising [e] from a state where [P] holds. *)
Definition avoids_from {A} (P : State → Prop) (e : exn) (m : M A) : Prop :=
  ∀ σ, P σ → (m σ).2 ≠ Raise e.

(** [m] reads nothing of the state and leaves it as it is. *)
Definition stateless {A} (m : M A) : Prop := ∃ r, ∀ σ, m σ = (σ, r).

(** numpy's generators draw permutations: [permutation(n)] holds each of
    the indices [0 .. n-1] once. *)
Definition draws_permutations (env : Env) : Prop :=
  ∀ g n, (permutation env g n).1 ≡ₚ seq 0 n.

(** ** Concrete worlds

    States and environments on which the methods are run in examples. *)

(** An orchestrator, object 0, whose [__init__] has stored the name. *)
Definition resolver_state (name : string) : State :=
  one_object 0 [("model_name", VStr name)].

(** A dataset, object 0, with its two pipelines and its batch size. *)
Definition pipeline_state (train valid : list batch) (batch_size : Z) : State :=
  one_object 0 [("train_dataset", VTfData train); ("valid_dataset", VTfData valid);
                ("batch_size", VInt batch_size)].

(** The files [stem0.png], [stem1.png], ... *)
Definition numbered (stem : string) (n : nat) : list string :=
  (λ i, stem +:+ PyStr.str i +:+ ".png") <$> seq 0 n.

(** A machine without GPU and a data directory of [n_images] images and
    [n_masks] masks; the generator draws the reversed or the identity
    permutation by the parity of its state. *)
Definition example_env (n_images n_masks : nat) : Env :=
  {| list_dir path :=
       if String.eqb path "data/images" then numbered "data/images/" n_images
       else if String.eqb path "data/masks" then numbered "data/masks/" n_masks
       else [];
     getsize _ := 200000%Z;
     imread_shape _ := [256; 256; 3]%Z;
     read_csv _ := [];
     gpus := false;
     virtual_memory_available := 16000000000%Q;
     seeded seed := Z.to_N seed;
     permutation g n := (if N.even g then reverse (seq 0 n) else seq 0 n, N.succ g);
     stratified_split _ rows := (rows, []);
     flow_from_dataframe _ _ _ := [];
     keras_fit _ present := (present, []) |}.

Definition example_paths : dict string :=
  [("path_images", "data/images"); ("path_masks", "data/masks")].

(** A new object 0, before its constructor runs. *)
Definition fresh_object : State := one_object 0 [].

(** The dataset constructed over [n] images and [n] masks. *)
Definition constructed (n : nat) : State :=
  (ImgMaskDataset_init (example_env n n) 0 example_paths fresh_object).1.

(** A dataset, object 0, whose training pipeline has [n] batches, and an
    orchestrator over it, object 1, as [__init__] has it when it reaches
    [set_run_debug]. *)
Definition debug_state (n : nat) : State :=
  mkState
    {[ 0 := list_to_map [("train_dataset", VTfData (replicate n [("x.png", "y.png")]));
                         ("valid_dataset", VTfData [[("v.png", "w.png")]])];
       1 := list_to_map [("dataset", VRef 0); ("learning_rate_base", VFloat (1 # 1000));
                         ("num_epochs", VInt 40)] ]}
    ∅ 0%N 0.

(** An orchestrator for [unet], object 0, as [__init__] has it when it
    reaches [make_callbacks], over the given files. *)
Definition resume_state (present : list (string * string)) : State :=
  mkState
    {[ 0 := list_to_map [("model_name", VStr "unet"); ("model_path", VStr "out/unet");
                         ("train_fresh", VBool false); ("model", VModel None)] ]}
    (list_to_map present) 0%N 0.

(** An orchestrator, object 0, over a dataset, object 1, after a first
    training run that ended at a dice coefficient of 0.5; the environment
    has two further runs end at 0.9 and at 0.7. *)
Definition escape_state : State :=
  mkState
    {[ 0 := list_to_map
              [("trained_model_file", VStr "out/unet/trained_model_unet.h5");
               ("history_file", VStr "out/unet/training_history_unet.csv");
               ("learning_rate_base", VFloat (1 # 1000));
               ("num_epochs", VInt 40);
               ("model", VModel None);
               ("loss", VStr "binary_crossentropy");
               ("optimizer", VFloat (1 # 1000));
               ("metrics", VOpaque "[dice_coef, 'accuracy']");
               ("callbacks", VOpaque "callbacks");
               ("dataset", VRef 1);
               ("history", VHistory [3 # 10; 5 # 10]%Q)];
       1 := list_to_map
              [("train_dataset", VTfData [[("x.png", "y.png")]]);
               ("valid_dataset", VTfData [[("v.png", "w.png")]]);
               ("train_steps", VInt 1); ("valid_steps", VInt 1)] ]}
    (list_to_map [("out/unet/trained_model_unet.h5", "weights of run 0");
                  ("out/unet/training_history_unet.csv", "log of run 0")])
    0%N 0.

Definition escape_env : Env :=
  {| list_dir _ := [];
     getsize _ := 0%Z;
     imread_shape _ := [];
     read_csv _ := [];
     gpus := false;
     virtual_memory_available := 0%Q;
     seeded seed := Z.to_N seed;
     permutation g n := (seq 0 n, N.succ g);
     stratified_split _ rows := (rows, []);
     flow_from_dataframe _ _ _ := [];
     keras_fit calls present :=
       match calls with
       | 0 => (<["out/unet/trained_model_unet.h5" := "weights of run 1"]>
                 (<["out/unet/training_history_unet.csv" := "log of runs 0-1"]> present),
               [6 # 10; 9 # 10]%Q)
       | _ => (<["out/unet/trained_model_unet.h5" := "weights of run 2"]>
                 (<["out/unet/training_history_unet.csv" := "log of runs 0-2"]> present),
               [7 # 10]%Q)
       end |}.

(** A dataset object, object 0, that holds its seed only. *)
Definition seeded_state : State := one_object 0 [("seed", VInt 42)].

(** A mask dataset of ten samples, object 0, as [ImgMaskDataset.__init__]
    has it when it reaches [prep_data_img_labels], with numpy's global
    generator in state [g]. *)
Definition prepared_state (g : N) : State :=
  mkState
    {[ 0 := list_to_map [("images", VStrs (numbered "data/images/" 10));
                         ("masks", VStrs (numbered "data/masks/" 10));
                         ("seed", VInt 42); ("batch_size", VInt 4)] ]}
    ∅ g 0.

(** ** model_initializer.py: the import statement and the settings *)

(** [c.upper()] on one ASCII character; bytes outside [a-z] are kept. *)
Definition upper_ascii (c : ascii) : ascii :=
  let n := nat_of_ascii c in
  if (97 <=? n)%nat && (n <=? 122)%nat then ascii_of_nat (n - 32) else c.

(** [s.upper()] for ASCII text. *)
Fixpoint upper (s : string) : string :=
  match s with
  | EmptyString => EmptyString
  | String c s' => String (upper_ascii c) (upper s')
  end.

Definition must_specify_msg (method_name : string) : string :=
  "Must specify complexity: " +:+ method_name +:+ " followed by a valid architecture size.".

Definition failed_to_split_msg (base : string) : string :=
  "Failed to split model name and complexity: " +:+ base.

Definition failed_to_make_msg (model_name : string) : string :=
  "Failed to make " +:+ model_name +:+ " model with generalized initializer.".

(** [InitializeModel.append_version] *)
Definition append_version (self : nat) (method_name : string) : M string :=
  base ← getattr self "model_name_base" ≫= as_str;
  if PyStr.contains "_v2" base then mret (method_name +:+ "V2")
  else if PyStr.contains "_v3" base then mret (method_name +:+ "V3")
  else mret method_name.

(** [InitializeModel.check_model_complexity_spec]; the pointer to the
    documentation goes to the console. *)
Definition check_model_complexity_spec (self : nat) (method_name : string) : M unit :=
  complexity ← getattr self "model_complexity" ≫= as_str;
  if String.eqb complexity EmptyString then raise (ValueError (must_specify_msg method_name))
  else mret tt.

(** [InitializeModel.make_import_statement_builtin].  The branches give the
    pair [(import_statement, method_name)] they leave in the two locals. *)
Definition make_import_statement_builtin (self : nat) : M (string * string) :=
  base ← getattr self "model_name_base" ≫= as_str;
  let import_statement := "tensorflow.keras.applications." +:+ base in
  locals ←
    (if PyStr.startswith base "efficientnet" then
       method_name ← append_version self "EfficientNet";
       complexity ← getattr self "model_complexity" ≫= as_str;
       setattr self "model_complexity" (VStr (upper complexity));;
       mret (import_statement, method_name)
     else if String.eqb base "densenet" then
       check_model_complexity_spec self "DenseNet";;
       mret (import_statement, "DenseNet")
     else if String.eqb base "vgg" then
       complexity ← getattr self "model_complexity" ≫= as_str;
       check_model_complexity_spec self "VGG";;
       mret (import_statement +:+ complexity, "VGG")
     else if String.eqb base "inception" then
       mret (import_statement +:+ "_v3", "InceptionV3")
     else if String.eqb base "inception_resnet" then
       mret (import_statement +:+ "_v2", "InceptionResNetV2")
     else if PyStr.startswith base "resnet" then
       check_model_complexity_spec self "ResNet";;
       if PyStr.contains "_rs" base then mret (import_statement, "ResNetRS")
       else mret (import_statement, "ResNet")
     else if PyStr.startswith base "regnet" then
       complexity ← getattr self "model_complexity" ≫= as_str;
       setattr self "model_complexity" (VStr (upper complexity));;
       check_model_complexity_spec self "RegNet";;
       mret (import_statement, "RegNet")
     else if PyStr.startswith base "mobilenet" then
       method_name ← append_version self "MobileNet";
       mret ("tensorflow.keras.applications", method_name)
     else if PyStr.startswith base "xception" then
       method_name ← append_version self "Xception";
       mret (import_statement, method_name)
     else raise (ValueError (failed_to_split_msg base)));
  complexity ← getattr self "model_complexity" ≫= as_str;
  let method_name := locals.2 +:+ complexity in
  method_name ←
    (if PyStr.startswith base "resnet" then append_version self method_name
     else mret method_name);
  mret (locals.1, method_name).

(** [InitializeModel.make_path_to_custom_models]; [package_top] is the
    directory two levels above the module's file. *)
Definition make_path_to_custom_models (package_top : string) (self : nat) : M string :=
  model_name ← getattr self "model_name" ≫= as_str;
  mret (os_path_join (os_path_join (os_path_join package_top "common_models") model_name)
                     (model_name +:+ "_model.py")).

(** [InitializeModel.make_import_statement] *)
Definition make_import_statement (package_top : string) (self : nat) : M (string * string) :=
  model_name ← getattr self "model_name" ≫= as_str;
  base ← getattr self "model_name_base" ≫= as_str;
  locals ←
    match dict_get valid_models_builtin base with
    | Some _ => make_import_statement_builtin self
    | None =>
        if PyStr.startswith model_name "unet" then
          import_statement ← make_path_to_custom_models package_top self;
          mret (import_statement, "build_unet")
        else mret (EmptyString, EmptyString)
    end;
  if String.eqb locals.1 EmptyString || String.eqb locals.2 EmptyString
  then raise (ValueError (failed_to_make_msg model_name))
  else mret locals.

Definition valid_opt_params : list string := ["learning_rate"; "num_epochs"].

(** [InitializeModel.set_optimization_params]; the notice on a key that
    is not recognized goes to the console. *)
Definition set_optimization_params (self : nat) (opt_params : dict pyval) : M unit :=
  for_each (dict_keys opt_params) (λ key,
    if bool_decide (key ∈ valid_opt_params) then
      value ← from_option (KeyError key) (dict_get opt_params key);
      setattr self key value
    else mret tt).

(** [InitializeModel.set_loss_function] and [InitializeModel.set_metrics] *)
Definition set_loss_function (self : nat) (loss : string) : M unit :=
  setattr self "loss" (VStr loss).

Definition set_metrics (self : nat) : M unit :=
  setattr self "metrics" (VOpaque "[dice_coef, 'accuracy']").

(** The bases of the catalog for which a size must follow the base name. *)
Definition needs_size (base : string) : bool :=
  bool_decide (base ∈ ["densenet"; "vgg"; "resnet"; "resnet_v2"; "resnet_rs"; "regnet"]).

(** ** prep_training_data.py: image dimensions and decoding *)

Definition as_ints (v : pyval) : M (list Z) :=
  match v with VInts l => mret l | _ => raise (TypeError "tuple expected") end.

(** [Dataset.set_image_target_dims]; the notice on an unexpected size goes
    to the console, and both paths store the dimensions. *)
Definition set_image_target_dims (self : nat) (dims : list Z) : M unit :=
  (if negb (length dims =? 3)%nat
   then raise (ValueError "Specify image dimensions as a tuple of (Height,Width,Channels).")
   else mret tt);;
  height ← from_option IndexError (dims !! 0);
  width ← from_option IndexError (dims !! 1);
  (if (Z.min height width <? 100)%Z && (10000 <? Z.max height width)%Z
   then setattr self "image_dims_target" (VInts dims)
   else mret tt);;
  setattr self "image_dims_target" (VInts dims).

(** The arrays of [cv2]: 8-bit pixels, of shape (H, W) or (H, W, C). *)
Inductive uint8_array :=
  | U8_2d (rows : list (list Byte.byte))
  | U8_3d (rows : list (list (list Byte.byte))).

(** The float arrays made of them. *)
Inductive float_array :=
  | F_2d (rows : list (list Q))
  | F_3d (rows : list (list (list Q))).

(** What [cv2] does: [imread] gives [None] for a file it cannot decode. *)
Record Cv2 := mkCv2 {
  (* cv2.imread(path, cv2.IMREAD_COLOR) *)
  imread_color : string → option (list (list (list Byte.byte)));
  (* cv2.imread(path, cv2.IMREAD_GRAYSCALE) *)
  imread_grayscale : string → option (list (list Byte.byte));
  (* cv2.resize(x, (width, height)) *)
  resize : uint8_array → Z → Z → uint8_array
}.

Definition pixel_value (p : Byte.byte) : Q := inject_Z (Z.of_N (Byte.to_N p)).

(** [x / 255.0], entry by entry *)
Definition scaled (p : Byte.byte) : Q := (pixel_value p / 255)%Q.

Definition divide_255 (x : uint8_array) : float_array :=
  match x with
  | U8_2d rows => F_2d (map (map scaled) rows)
  | U8_3d rows => F_3d (map (map (map scaled)) rows)
  end.

(** [np.expand_dims(x, axis=-1)] on an array of two dimensions *)
Definition expand_dims_last (rows : list (list Q)) : list (list (list Q)) :=
  map (map (λ p, [p])) rows.

(** [Dataset.read_image] on a path given as [str], for dimension
    attributes that hold tuples.  The arguments of the resize are evaluated
    before the call, so a missing [dims] is met first; [cv2]'s own error
    on an image that was not decoded is kept as a [TypeError].  The cast to
    [float32] keeps the array, whose entries are read as rationals. *)
Definition read_image (cv : Cv2) (self : nat) (path image_type : string) : M float_array :=
  x ← (if String.eqb image_type "image" then mret (U8_3d <$> imread_color cv path)
       else if String.eqb image_type "mask" then mret (U8_2d <$> imread_grayscale cv path)
       else raise (ValueError
              "Trying to read unrecognized image type. Should be 'image' or 'mask'"));
  original ← getattr self "image_dims_original" ≫= as_ints;
  target ← getattr self "image_dims_target" ≫= as_ints;
  x ← (if negb (bool_decide (original = target)) then
         dims ← getattr self "dims" ≫= as_ints;
         width ← from_option IndexError (dims !! 0);
         height ← from_option IndexError (dims !! 1);
         x ← from_option (TypeError "resize of None") x;
         mret (Some (resize cv x width height))
       else mret x);
  x ← from_option (TypeError "unsupported operand type(s) for /: 'NoneType' and 'float'") x;
  match divide_255 x with
  | F_2d rows => mret (F_3d (expand_dims_last rows))
  | F_3d rows => mret (F_3d rows)
  end.

(** The entries of a float array. *)
Definition entries (x : float_array) : list Q :=
  match x with
  | F_2d rows => concat rows
  | F_3d rows => concat (concat rows)
  end.

(** ** Cell-Nuclei-Segmentation/EfficientNET/train.py *)

Definition efficient_net_sizes : list Z := [224; 240; 260; 300; 380; 456; 528; 600]%Z.

(** The elements of a list do not decrease. *)
Fixpoint ascending (l : list Z) : Prop :=
  match l with
  | [] => True
  | x :: r => Forall (Z.le x) r ∧ ascending r
  end.

(** [np.amin] of an array that is not empty. *)
Definition amin (l : list Z) : option Z :=
  match l with
  | [] => None
  | x :: r => Some (foldl Z.min x r)
  end.

(** [sizes[np.where(diff_array == m)]]: the entries at the positions where
    the difference is [m], in order. *)
Definition where_equal (sizes diff_array : list Z) (m : Z) : list Z :=
  (List.filter (λ sd : Z * Z, (sd.2 =? m)%Z) (zip sizes diff_array)).*1.

(** [get_closest_network_size]: the first image's height decides. *)
Definition get_closest_network_size (env : Env) (image_path : string) : M (Z * Z) :=
  let images := list_dir env (os_path_join image_path "images") in
  image ← from_option IndexError (images !! 0);
  sze ← from_option IndexError (imread_shape env image !! 0);
  let diff_array := (λ s, Z.abs (sze - s)) <$> efficient_net_sizes in
  m ← from_option (ValueError "zero-size array") (amin diff_array);
  H ← from_option IndexError (where_equal efficient_net_sizes diff_array m !! 0);
  mret (H, H).

(** The step count of [main] for [n] samples, with its batch size of 8. *)
Definition main_steps (n : Z) : Z :=
  let batch_size := 8%Z in
  let steps := (n / batch_size)%Z in
  if negb (n mod batch_size =? 0)%Z then (steps + 1)%Z else steps.

(** ** More invariants and concrete worlds *)

(** [m] reads the state without changing it, and what it returns
    satisfies [Q]. *)
Definition yields {A} (m : M A) (Q : A → Prop) : Prop :=
  ∀ σ σ' a, m σ = (σ', Ok a) → σ' = σ ∧ Q a.

(** The files are those of [before], but for some that were removed from
    among [removable]. *)
Definition only_removed (removable : list string) (before now : gmap string string) : Prop :=
  ∀ p, now !! p = before !! p ∨ (p ∈ removable ∧ now !! p = None).

(** An orchestrator, object 0, as the resolver leaves it. *)
Definition resolved_state (name base complexity : string) : State :=
  one_object 0 [("model_name", VStr name); ("model_name_base", VStr base);
                ("model_complexity", VStr complexity)].

(** What [__init__] runs from the stored name to the import statement. *)
Definition resolve_and_import (name : string) : State * result (string * string) :=
  (get_complexity_from_model_name valid_model_names_all 0;;
   set_model_type valid_model_names_all 0;;
   make_import_statement "/opt/sandbox" 0) (resolver_state name).

(** An orchestrator for [unet], object 0, constructed with [train_fresh]
    over the files of an earlier run. *)
Definition fresh_run_state : State :=
  mkState
    {[ 0 := list_to_map [("model_name", VStr "unet"); ("model_path", VStr "out/unet");
                         ("train_fresh", VBool true); ("model", VModel None)] ]}
    (list_to_map [("out/unet/trained_model_unet.h5", "saved weights");
                  ("out/unet/training_history_unet.csv", "epoch,loss")]) 0%N 0.

(** An orchestrator, object 0, after a first run and one repeat, with the
    files of both. *)
Definition repeated_state : State :=
  mkState
    {[ 0 := list_to_map
              [("trained_model_file", VStr "out/unet/trained_model_unet.h5");
               ("history_file", VStr "out/unet/training_history_unet.csv")] ]}
    (list_to_map [("out/unet/trained_model_unet.h5", "weights of run 1");
                  ("out/unet/training_history_unet.csv", "log of runs 0-1");
                  ("out/unet/trained_model_unet_backup1.h5", "weights of run 0");
                  ("out/unet/training_history_unet_backup1.csv", "log of run 0")])
    0%N 2.

(** The machine of [example_env] with a GPU visible. *)
Definition gpu_env (n_images n_masks : nat) : Env :=
  let env := example_env n_images n_masks in
  {| list_dir := list_dir env;
     getsize := getsize env;
     imread_shape := imread_shape env;
     read_csv := read_csv env;
     gpus := true;
     virtual_memory_available := virtual_memory_available env;
     seeded := seeded env;
     permutation := permutation env;
     stratified_split := stratified_split env;
     flow_from_dataframe := flow_from_dataframe env;
     keras_fit := keras_fit env |}.

(** The dimensions [set_image_dims_original] stores for a shape, if it
    accepts the shape. *)
Definition stored_dims (dims : list Z) : option (list Z) :=
  match dims with
  | [h; w] => Some [h; w; 1%Z]
  | [_; _; _] => Some dims
  | _ => None
  end.

(** The attributes [Dataset.__init__] leaves on an object that had
    [attrs], over the listing [images] of [path_images]. *)
Definition Dataset_attrs (attrs : gmap string pyval) (path_images : string)
    (images : list string) (dims : list Z) : gmap string pyval :=
  <["seed" := VInt 42]>
    (<["batch_size" := VInt 16]>
      (<["image_dims_target" := VInts dims]>
        (<["image_dims_original" := VInts dims]>
          (<["path_images" := VStr path_images]>
            (<["images" := VStrs images]>
              (<["num_examples" := VInt (Z.of_nat (length images))]> attrs)))))).

(** An entry of a normalized image: between 0 and 1. *)
Definition normalized (q : Q) : Prop := (0 <= q <= 1)%Q.

(** A directory of three images with a table of three labels: the
    stratified split keeps two rows for training, and the iterators hold
    their rows in one batch. *)
Definition label_env : Env :=
  {| list_dir path :=
       if String.eqb path "data/images"
       then ["data/images/a.tif"; "data/images/b.tif"; "data/images/c.tif"] else [];
     getsize _ := 1000%Z;
     imread_shape _ := [96; 96; 3]%Z;
     read_csv path :=
       if String.eqb path "labels.csv" then [("a", "0"); ("b", "1"); ("c", "0")] else [];
     gpus := false;
     virtual_memory_available := 16000000000%Q;
     seeded seed := Z.to_N seed;
     permutation g n := (seq 0 n, N.succ g);
     stratified_split _ rows := (take 2 rows, drop 2 rows);
     flow_from_dataframe df _ _ := [df];
     keras_fit _ present := (present, []) |}.

Definition label_paths : dict string :=
  [("path_images", "data/images"); ("path_labels", "labels.csv")].

(** A decoder of two files: a color image of one pixel and a mask of two. *)
Definition example_cv2 : Cv2 :=
  {| imread_color path :=
       if String.eqb path "image.png" then Some [[[Byte.xff; Byte.x80; Byte.x00]]] else None;
     imread_grayscale path :=
       if String.eqb path "mask.png" then Some [[Byte.x00; Byte.xff]] else None;
     resize x _ _ := x |}.

(** A new dataset object, object 0, and an orchestrator that refers to
    it, object 1. *)
Definition label_world : State :=
  mkState {[ 0 := ∅; 1 := {[ "dataset" := VRef 0 ]} ]} ∅ 0%N 0.

(** * Properties *)

(** ** The built-ins on examples *)

Example split_ex1 : PyStr.split "resnet50resnet" "resnet" = Some [EmptyString; "50"; EmptyString].
Proof. reflexivity. Qed.

Example split_ex2 :
  PyStr.split "a/b/trained_model_unet.h5" "." = Some ["a/b/trained_model_unet"; "h5"].
Proof. reflexivity. Qed.

Example replace_ex1 : PyStr.replace "smallarge_small" "small" "Small" = "Smallarge_Small".
Proof. reflexivity. Qed.

Example str_ex : PyStr.str 12 = "12" ∧ PyStr.str 0 = "0".
Proof. split; reflexivity. Qed.

Example lower_ex : PyStr.lower "ResNet50_V2" = "resnet50_v2".
Proof. reflexivity. Qed.

Example os_path_join_ex :
  os_path_join "out/unet" "trained_model_unet.h5" = "out/unet/trained_model_unet.h5".
Proof. reflexivity. Qed.

Example py_round_ex :
  py_round (5 # 2) = 2%Z ∧ py_round (7 # 2) = 4%Z ∧ py_round (19 # 2) = 10%Z ∧
  py_round (-5 # 2) = (-2)%Z ∧ py_round (26 # 10) = 3%Z.
Proof. repeat split; reflexivity. Qed.

Example resolve_ex1 :
  let r := get_complexity_from_model_name valid_model_names_all 0
             (one_object 0 [("model_name", VStr "resnet_v250")]) in
  attr_of r.1 0 "model_name_base" = Some (VStr "resnet_v2") ∧
  attr_of r.1 0 "model_complexity" = Some (VStr "50") ∧ r.2 = Ok tt.
Proof. vm_compute. done. Qed.

Example catalog_keys :
  dict_keys valid_model_names_all =
    ["efficientnet"; "efficientnet_v2"; "densenet"; "vgg"; "inception";
     "inception_resnet"; "resnet"; "resnet_v2"; "resnet_rs"; "regnet"; "mobilenet";
     "mobilenet_v2"; "mobilenet_v3"; "xception"; "unet"].
Proof. reflexivity. Qed.

(** ** Reasoning about methods *)

Lemma bind_unfold {A B} (m : M A) (f : A → M B) σ :
  (m ≫= f) σ = match m σ with
               | (σ', Ok a) => f a σ'
               | (σ', Raise e) => (σ', Raise e)
               end.
Proof. reflexivity. Qed.

Lemma bind_assoc {A B C} (m : M A) (f : A → M B) (g : B → M C) σ :
  ((m ≫= f) ≫= g) σ = (m ≫= (λ a, f a ≫= g)) σ.
Proof. rewrite !bind_unfold. by destruct (m σ) as [σ' [a|e]]. Qed.

Lemma ret_bind {A B} (a : A) (f : A → M B) σ : (mret a ≫= f) σ = f a σ.
Proof. reflexivity. Qed.

Lemma raise_bind {A B} (e : exn) (f : A → M B) σ : (raise e ≫= f) σ = (σ, Raise e).
Proof. reflexivity. Qed.

Lemma get_state_bind {B} (f : State → M B) σ : (get_state ≫= f) σ = f σ σ.
Proof. reflexivity. Qed.

Lemma put_state_bind {B} (f : unit → M B) σ' σ : (put_state σ' ≫= f) σ = f tt σ'.
Proof. reflexivity. Qed.

Lemma path_exists_bind {B} (f : bool → M B) path σ :
  (path_exists path ≫= f) σ = f (bool_decide (is_Some (files σ !! path))) σ.
Proof. reflexivity. Qed.

Lemma delete_file_bind {B} (f : unit → M B) path σ :
  (delete_file path ≫= f) σ = f tt (with_files (delete path (files σ)) σ).
Proof. reflexivity. Qed.

Lemma hasattr_bind {B} (f : bool → M B) o a σ :
  (hasattr o a ≫= f) σ = f (bool_decide (is_Some (attr_of σ o a))) σ.
Proof. reflexivity. Qed.

Lemma getattr_ok σ o a v :
  attr_of σ o a = Some v → getattr o a σ = (σ, Ok v).
Proof. unfold attr_of, getattr. by intros ->. Qed.

Lemma getattr_fail σ o a :
  attr_of σ o a = None → getattr o a σ = (σ, Raise (AttributeError a)).
Proof. unfold attr_of, getattr. by intros ->. Qed.

Lemma setattr_ok σ o a v attrs :
  heap σ !! o = Some attrs →
  setattr o a v σ = (with_heap (<[o := <[a := v]> attrs]> (heap σ)) σ, Ok tt).
Proof. unfold setattr. by intros ->. Qed.

Lemma hasattr_ok σ o a :
  hasattr o a σ = (σ, Ok (bool_decide (is_Some (attr_of σ o a)))).
Proof. reflexivity. Qed.

Lemma attr_of_with_heap_eq σ o a v attrs h :
  attr_of (with_heap (<[o := <[a := v]> attrs]> h) σ) o a = Some v.
Proof. unfold attr_of. simpl. rewrite lookup_insert_eq. simpl. by rewrite lookup_insert_eq. Qed.

Lemma attr_of_with_heap_ne σ o a b v attrs :
  heap σ !! o = Some attrs → a ≠ b →
  attr_of (with_heap (<[o := <[a := v]> attrs]> (heap σ)) σ) o b = attr_of σ o b.
Proof.
  intros Ho Hab. unfold attr_of. simpl. rewrite lookup_insert_eq, Ho. simpl.
  by rewrite lookup_insert_ne.
Qed.

Lemma attr_of_object σ o a v : attr_of σ o a = Some v → is_Some (heap σ !! o).
Proof. unfold attr_of. destruct (heap σ !! o); [eauto|done]. Qed.

Lemma attr_of_lookup σ o a attrs : heap σ !! o = Some attrs → attr_of σ o a = attrs !! a.
Proof. unfold attr_of. by intros ->. Qed.

(** One step of a method on a symbolic state: the state is put back in
    normal form, the next statement is run by its equation. *)
Ltac msimpl :=
  cbv beta iota;
  unfold with_heap, with_files, with_np_random, with_fit_calls;
  cbn [from_option as_str as_int as_bool as_strs as_ref as_history py_len tf_take
       index_m1 last
       heap files np_random fit_calls fst snd];
  rewrite ?insert_insert_eq.

Ltac solve_lookup :=
  repeat first [rewrite lookup_insert_eq
               | rewrite lookup_insert_ne by first [discriminate | congruence]
               | progress cbn [mbind option_bind]];
  first [reflexivity | eassumption].

Ltac solve_attr :=
  first
    [ eassumption
    | unfold attr_of; cbn [heap]; rewrite ?lookup_insert_eq;
      cbn [mbind option_bind]; solve_lookup ].

Ltac mstep :=
  msimpl; rewrite ?bind_assoc;
  first
    [ rewrite ret_bind
    | rewrite raise_bind
    | rewrite get_state_bind
    | rewrite put_state_bind
    | rewrite path_exists_bind
    | rewrite delete_file_bind
    | rewrite hasattr_bind
    | rewrite bind_unfold;
      first
        [ erewrite setattr_ok by solve_attr
        | erewrite getattr_ok by solve_attr ] ];
  msimpl.

(** The last statement of a method, which no bind follows. *)
Ltac mlast :=
  msimpl;
  first [ erewrite setattr_ok by solve_attr | erewrite getattr_ok by solve_attr ];
  msimpl.

(** *** Invariants along the text of a method *)

Section invariants.
Context {A B : Type}.
Implicit Types (P : State → Prop) (e : exn).

Lemma preserves_bind P (m : M A) (f : A → M B) :
  preserves P m → (∀ a, preserves P (f a)) → preserves P (m ≫= f).
Proof.
  intros Hm Hf σ HP. rewrite bind_unfold. specialize (Hm σ HP).
  destruct (m σ) as [σ' [a|e]]; simpl in *; [by apply Hf|done].
Qed.

Lemma preserves_ret P (a : A) : preserves P (mret a).
Proof. by intros σ HP. Qed.

Lemma preserves_raise P e : preserves P (raise e : M A).
Proof. by intros σ HP. Qed.

Lemma preserves_from_option P e (o : option A) : preserves P (from_option e o).
Proof. destruct o; [apply preserves_ret|apply preserves_raise]. Qed.

Lemma avoids_bind e (m : M A) (f : A → M B) :
  avoids e m → (∀ a, avoids e (f a)) → avoids e (m ≫= f).
Proof.
  intros Hm Hf σ. rewrite bind_unfold. specialize (Hm σ).
  destruct (m σ) as [σ' [a|e']]; simpl in *; [by apply Hf|].
  intros [= ->]. by apply Hm.
Qed.

Lemma avoids_ret e (a : A) : avoids e (mret a).
Proof. by intros σ. Qed.

Lemma avoids_raise e e' : e' ≠ e → avoids e (raise e' : M A).
Proof. intros Hne σ. simpl. congruence. Qed.

Lemma avoids_from_option e e' (o : option A) : e' ≠ e → avoids e (from_option e' o).
Proof. intros. destruct o; [apply avoids_ret|by apply avoids_raise]. Qed.

Lemma avoids_from_bind P e (m : M A) (f : A → M B) :
  preserves P m → avoids_from P e m → (∀ a, avoids_from P e (f a)) →
  avoids_from P e (m ≫= f).
Proof.
  intros Hp Hm Hf σ HP. rewrite bind_unfold.
  specialize (Hm σ HP). specialize (Hp σ HP).
  destruct (m σ) as [σ' [a|e']]; simpl in *; [by apply Hf|].
  intros [= ->]. by apply Hm.
Qed.

Lemma avoids_from_any P e (m : M A) : avoids e m → avoids_from P e m.
Proof. intros Hm σ _. apply Hm. Qed.
End invariants.

Lemma preserves_getattr P o a : preserves P (getattr o a).
Proof. intros σ HP. unfold getattr. by destruct (heap σ !! o ≫= _). Qed.

Lemma preserves_hasattr P o a : preserves P (hasattr o a).
Proof. by intros σ HP. Qed.

Lemma preserves_get_state P : preserves P get_state.
Proof. by intros σ HP. Qed.

Lemma preserves_path_exists P path : preserves P (path_exists path).
Proof. by intros σ HP. Qed.

Lemma preserves_as_str P v : preserves P (as_str v).
Proof. destruct v; by intros σ HP. Qed.

Lemma preserves_as_int P v : preserves P (as_int v).
Proof. destruct v; by intros σ HP. Qed.

Lemma preserves_as_strs P v : preserves P (as_strs v).
Proof. destruct v; by intros σ HP. Qed.

Lemma preserves_py_len P v : preserves P (py_len v).
Proof. destruct v; by intros σ HP. Qed.

(** Assigning [a] leaves what is known of another attribute [b]. *)
Lemma preserves_setattr_other o a b (v : option pyval) w :
  a ≠ b → preserves (λ σ, attr_of σ o b = v) (setattr o a w).
Proof.
  intros Hab σ HP. unfold setattr.
  destruct (heap σ !! o) as [attrs|] eqn:Ho; simpl; [|done].
  by rewrite (attr_of_with_heap_ne σ o a b w attrs Ho Hab).
Qed.

(** Assignments keep the objects of the store. *)
Lemma preserves_setattr_object o o' a w :
  preserves (λ σ, is_Some (heap σ !! o)) (setattr o' a w).
Proof.
  intros σ HP. unfold setattr.
  destruct (heap σ !! o') as [attrs|] eqn:Ho; simpl; [|done].
  destruct (decide (o' = o)) as [->|Hne]; [by rewrite lookup_insert_eq|].
  by rewrite lookup_insert_ne.
Qed.

Lemma avoids_getattr e o a : AttributeError a ≠ e → avoids e (getattr o a).
Proof. intros Hne σ. unfold getattr. destruct (heap σ !! o ≫= _); simpl; congruence. Qed.

Lemma avoids_setattr e o a v : AttributeError a ≠ e → avoids e (setattr o a v).
Proof. intros Hne σ. unfold setattr. destruct (heap σ !! o); simpl; congruence. Qed.

Lemma avoids_hasattr e o a : avoids e (hasattr o a).
Proof. by intros σ. Qed.

Lemma avoids_get_state e : avoids e get_state.
Proof. by intros σ. Qed.

Lemma avoids_put_state e σ' : avoids e (put_state σ').
Proof. by intros σ. Qed.

Lemma avoids_as_str e v : TypeError "str expected" ≠ e → avoids e (as_str v).
Proof. intros Hne. destruct v; intros σ; simpl; congruence. Qed.

Lemma avoids_as_int e v : TypeError "int expected" ≠ e → avoids e (as_int v).
Proof. intros Hne. destruct v; intros σ; simpl; congruence. Qed.

Lemma avoids_as_strs e v : TypeError "list expected" ≠ e → avoids e (as_strs v).
Proof. intros Hne. destruct v; intros σ; simpl; congruence. Qed.

Lemma avoids_py_len e v : TypeError "object has no len()" ≠ e → avoids e (py_len v).
Proof. intros Hne. destruct v; intros σ; simpl; congruence. Qed.

(** An attribute assigned and then left alone by the rest of a method has
    the assigned value at the end. *)
Lemma setattr_then {B} σ o a v (k : M B) :
  is_Some (heap σ !! o) →
  preserves (λ σ, attr_of σ o a = Some v) k →
  attr_of ((setattr o a v ;; k) σ).1 o a = Some v.
Proof.
  intros [attrs Ho] Hk. rewrite bind_unfold, (setattr_ok _ _ _ _ _ Ho).
  apply Hk, attr_of_with_heap_eq.
Qed.

(** Discharging [preserves] and [avoids] goals along the text of a method. *)
Ltac method_side :=
  try unfold unsupported_base_msg, count_mismatch_msg; simpl;
  first [discriminate | congruence].

Ltac method_inv_step :=
  first
    [ match goal with |- ∀ _, _ => intro end
    | apply preserves_bind | apply avoids_bind
    | apply preserves_ret | apply preserves_raise | apply preserves_from_option
    | apply preserves_getattr | apply preserves_hasattr | apply preserves_get_state
    | apply preserves_path_exists
    | apply preserves_as_str | apply preserves_as_int | apply preserves_as_strs
    | apply preserves_py_len
    | apply preserves_setattr_other; [method_side]
    | apply preserves_setattr_object
    | apply avoids_ret | apply avoids_hasattr | apply avoids_get_state
    | apply avoids_put_state
    | apply avoids_raise; [method_side]
    | apply avoids_from_option; [method_side]
    | apply avoids_getattr; [method_side]
    | apply avoids_setattr; [method_side]
    | apply avoids_as_str; [method_side]
    | apply avoids_as_int; [method_side]
    | apply avoids_as_strs; [method_side]
    | apply avoids_py_len; [method_side]
    | match goal with |- context [if ?b then _ else _] => destruct b end ].

Ltac method_inv := repeat method_inv_step.

(** ** The longest matching catalog key *)

Lemma max_key_len_fold (r : list string) (x : string) :
  let best := foldl (λ best y, if (String.length best <? String.length y)%nat
                               then y else best) x r in
  best ∈ x :: r ∧ ∀ y, y ∈ x :: r → (String.length y ≤ String.length best)%nat.
Proof.
  revert x. induction r as [|z r IH]; intros x; simpl.
  - split; [left|]. intros y Hy. apply list_elem_of_singleton in Hy. by subst.
  - destruct (Nat.ltb_spec (String.length x) (String.length z)) as [Hlt|Hge].
    + destruct (IH z) as [Hin Hmax]. split; [by right|].
      intros y Hy. apply elem_of_cons in Hy as [->|Hy]; [|by apply Hmax].
      specialize (Hmax z). pose proof (Hmax ltac:(left)). lia.
    + destruct (IH x) as [Hin Hmax]. split.
      { apply elem_of_cons in Hin as [->|Hin]; [left|by do 2 right]. }
      intros y Hy. apply elem_of_cons in Hy as [->|Hy]; [apply Hmax; left|].
      apply elem_of_cons in Hy as [->|Hy]; [|by apply Hmax; right].
      pose proof (Hmax x ltac:(left)). lia.
Qed.

Lemma max_key_len_spec (l : list string) :
  l ≠ [] →
  ∃ best, max_key_len l = Some best ∧ best ∈ l ∧
          ∀ y, y ∈ l → (String.length y ≤ String.length best)%nat.
Proof.
  destruct l as [|x r]; [done|]. intros _. eexists. split; [reflexivity|].
  apply max_key_len_fold.
Qed.

Lemma elem_of_filter_bool {A} (f : A → bool) (l : list A) (x : A) :
  x ∈ List.filter f l ↔ x ∈ l ∧ f x = true.
Proof. rewrite !list_elem_of_In. apply filter_In. Qed.

Lemma filter_bool_nil {A} (f : A → bool) (l : list A) :
  (∀ x, x ∈ l → f x = false) → List.filter f l = [].
Proof.
  intros Hf. destruct (List.filter f l) as [|x r] eqn:Hfl; [done|].
  assert (x ∈ List.filter f l) as Hx by (rewrite Hfl; left).
  apply elem_of_filter_bool in Hx as [Hx Hfx]. rewrite (Hf x Hx) in Hfx. done.
Qed.

(** C6. The resolver takes as base name the longest catalog key that is a
    prefix of the lower-cased model name, whenever some key is one; when no
    key is a prefix it raises the unsupported-base-model error (and assigns
    nothing). *)
Theorem get_complexity_longest_prefix (catalog : dict string) σ self requested :
  let name := PyStr.lower requested in
  attr_of σ self "model_name" = Some (VStr name) →
  let out := get_complexity_from_model_name catalog self σ in
  ((∃ k, k ∈ dict_keys catalog ∧ PyStr.startswith name k = true) →
     ∃ base, attr_of out.1 self "model_name_base" = Some (VStr base) ∧
       base ∈ dict_keys catalog ∧ PyStr.startswith name base = true ∧
       (∀ k, k ∈ dict_keys catalog → PyStr.startswith name k = true →
             (String.length k ≤ String.length base)%nat) ∧
       out.2 ≠ Raise (ValueError (unsupported_base_msg name))) ∧
  ((∀ k, k ∈ dict_keys catalog → PyStr.startswith name k = false) →
     out = (σ, Raise (ValueError (unsupported_base_msg name)))).
Proof.
  intros name Hname out. subst out. unfold get_complexity_from_model_name.
  rewrite bind_unfold, bind_unfold, (getattr_ok _ _ _ _ Hname). simpl.
  set (matches := List.filter _ _).
  split.
  - intros (k & Hk & Hpre).
    assert (Hne : matches ≠ []).
    { intros Hnil. assert (k ∈ matches) as Hin by (by apply elem_of_filter_bool).
      rewrite Hnil in Hin. by apply not_elem_of_nil in Hin. }
    destruct (max_key_len_spec matches Hne) as (base & Hmax & Hin & Hlen).
    apply elem_of_filter_bool in Hin as [Hbase Hbpre].
    exists base.
    destruct matches as [|m0 ms] eqn:Hm; [done|]. rewrite Hmax.
    rewrite bind_assoc. simpl from_option. rewrite ret_bind, bind_assoc.
    split; [|split; [done|split; [done|split]]].
    + apply setattr_then; [by eapply attr_of_object|]. method_inv.
    + intros k' Hk' Hpre'. apply Hlen. rewrite <- Hm.
      by apply elem_of_filter_bool.
    + apply avoids_bind; method_inv.
  - intros Hnone. subst matches. by rewrite filter_bool_nil.
Qed.

(** The theorem on the catalog of the module, for the request [ResNet_V250]. *)
Lemma get_complexity_longest_prefix_witness :
  attr_of (resolver_state "resnet_v250") 0 "model_name"
    = Some (VStr (PyStr.lower "ResNet_V250")) ∧
  ∃ base,
    attr_of (get_complexity_from_model_name valid_model_names_all 0
               (resolver_state "resnet_v250")).1 0 "model_name_base"
      = Some (VStr base) ∧
    base ∈ dict_keys valid_model_names_all ∧
    PyStr.startswith (PyStr.lower "ResNet_V250") base = true ∧
    (∀ k, k ∈ dict_keys valid_model_names_all →
          PyStr.startswith (PyStr.lower "ResNet_V250") k = true →
          (String.length k ≤ String.length base)%nat) ∧
    (get_complexity_from_model_name valid_model_names_all 0
       (resolver_state "resnet_v250")).2
      ≠ Raise (ValueError (unsupported_base_msg (PyStr.lower "ResNet_V250"))).
Proof.
  split; [reflexivity|].
  apply (get_complexity_longest_prefix valid_model_names_all
           (resolver_state "resnet_v250") 0 "ResNet_V250" eq_refl).
  exists "resnet". split; [|reflexivity].
  vm_compute. repeat constructor.
Defined.

(** On the catalog of the module: of [resnet] and [resnet_v2], both
    prefixes of the name, the longer is taken; an unknown name is refused. *)
Example resolve_longer_key_wins :
  attr_of (get_complexity_from_model_name valid_model_names_all 0
             (resolver_state "resnet_v250")).1 0 "model_name_base"
    = Some (VStr "resnet_v2").
Proof. reflexivity. Qed.

Example resolve_unknown :
  (get_complexity_from_model_name valid_model_names_all 0
     (resolver_state "alexnet")).2
    = Raise (ValueError "Requested base model not supported: alexnet").
Proof. reflexivity. Qed.

(** ** The complexity token *)

Lemma str_app_cons (c : ascii) (a b : string) : String c a +:+ b = String c (a +:+ b).
Proof. reflexivity. Qed.

Lemma str_app_nil_r (s : string) : s +:+ EmptyString = s.
Proof. induction s as [|c s IH]; [done|]. by rewrite str_app_cons, IH. Qed.

Lemma str_app_assoc (a b c : string) : (a +:+ b) +:+ c = a +:+ (b +:+ c).
Proof. induction a as [|x a IH]; [done|]. by rewrite !str_app_cons, IH. Qed.

Lemma split_scan_skip sep (a : string) cur s :
  PyStr.split_scan sep (String.length a) cur (a +:+ s) = PyStr.split_scan sep 0 cur s.
Proof. induction a as [|c a IH]; [done|]. rewrite str_app_cons. apply IH. Qed.

(** Without an occurrence of the separator the scan returns one piece. *)
Lemma split_scan_no_occurrence sep cur s :
  sep ≠ EmptyString → PyStr.contains sep s = false →
  PyStr.split_scan sep 0 cur s = [cur +:+ s].
Proof.
  intros Hsep. revert cur. induction s as [|c s IH]; intros cur Hc.
  - simpl. by rewrite str_app_nil_r.
  - cbn [PyStr.contains] in Hc. apply orb_false_iff in Hc as [Hp Hc].
    cbn [PyStr.split_scan]. rewrite Hp, IH by done.
    by rewrite str_app_assoc.
Qed.

Lemma prefix_app (a b : string) : String.prefix a (a +:+ b) = true.
Proof.
  induction a as [|c a IH]; [by destruct b|]. rewrite str_app_cons. simpl.
  destruct (ascii_dec c c); [done|congruence].
Qed.

Lemma split_prefix_once (base rest : string) :
  base ≠ EmptyString → PyStr.contains base rest = false →
  PyStr.split (base +:+ rest) base = Some [EmptyString; rest].
Proof.
  intros Hbase Hrest. unfold PyStr.split. destruct base as [|c base'] eqn:Hb; [done|].
  rewrite <- Hb. f_equal.
  assert (Hs : base +:+ rest = String c (base' +:+ rest)) by (by subst).
  rewrite Hs. cbn [PyStr.split_scan]. rewrite <- Hs, prefix_app.
  f_equal. subst. simpl String.length.
  replace (S (String.length base') - 1) with (String.length base') by lia.
  rewrite split_scan_skip.
  by rewrite split_scan_no_occurrence.
Qed.

Lemma strip_prefix_app (base rest : string) : strip_prefix (base +:+ rest) base = rest.
Proof.
  unfold strip_prefix. induction base as [|c base IH]; [by destruct rest|].
  by rewrite str_app_cons.
Qed.

(** Where the base key does not occur again in the remainder of the name,
    the token computed is the one the specification describes. *)
Lemma get_complexity_agrees (catalog : dict string) σ self base rest :
  let name := base +:+ rest in
  attr_of σ self "model_name" = Some (VStr name) →
  max_key_len (List.filter (λ k, PyStr.startswith name k) (dict_keys catalog)) = Some base →
  base ≠ EmptyString → PyStr.contains base rest = false →
  attr_of (get_complexity_from_model_name catalog self σ).1 self "model_complexity"
    = Some (VStr (spec_complexity name base)).
Proof.
  intros name Hname Hmax Hbase Hrest.
  destruct (attr_of_object _ _ _ _ Hname) as [attrs Hattrs].
  unfold get_complexity_from_model_name.
  do 2 mstep.
  destruct (List.filter _ _) as [|m0 ms]; [done|]. rewrite Hmax.
  do 2 mstep. subst name. rewrite split_prefix_once by done.
  do 11 mstep.
  unfold spec_complexity. rewrite strip_prefix_app.
  match goal with |- context [if ?b then _ else _] => destruct b end;
    cbn [fst raise mret M_ret]; solve_attr.
Qed.

(** C7 (the code departs from the claim).  For the name [resnet50resnet]
    the base is [resnet] and the remainder after it is [50resnet], but the
    token stored is the empty string: what follows the last occurrence of
    the base key, not what follows the prefix. *)
Theorem complexity_follows_last_occurrence :
  let out := get_complexity_from_model_name valid_model_names_all 0
               (resolver_state (PyStr.lower "resnet50resnet")) in
  attr_of out.1 0 "model_name_base" = Some (VStr "resnet") ∧
  attr_of out.1 0 "model_complexity" = Some (VStr EmptyString) ∧
  out.2 = Ok tt ∧
  spec_complexity (PyStr.lower "resnet50resnet") "resnet" = "50resnet".
Proof. vm_compute. done. Qed.

(** The length limit on the token is passed by a name of any length that
    ends with its base key. *)
Example complexity_limit_passed :
  let name := "unet_with_a_very_long_complexity_spec_unet" in
  let out := get_complexity_from_model_name valid_model_names_all 0 (resolver_state name) in
  out.2 = Ok tt ∧ (12 < String.length (strip_prefix name "unet"))%nat.
Proof. vm_compute. split; [done|lia]. Qed.

(** ** Step counts *)

Lemma py_round_div (a b : Z) :
  (0 < b)%Z → py_round (inject_Z a / inject_Z b) = round_half_even_div a b.
Proof.
  intros Hb. destruct b as [|p|p]; [lia| |lia].
  unfold py_round, Qdiv, Qinv, Qmult, inject_Z. simpl.
  by rewrite Z.mul_1_r, ?Pos.mul_1_l.
Qed.

Lemma ceil_steps_div (a b : Z) :
  (0 < b)%Z → ceil_steps a b = (a / b + if (a mod b =? 0)%Z then 0 else 1)%Z.
Proof.
  intros Hb. destruct b as [|p|p]; [lia| |lia].
  unfold ceil_steps, Qceiling, Qfloor, Qopp, Qdiv, Qinv, Qmult, inject_Z. simpl.
  rewrite Z.mul_1_r, Pos.mul_1_l.
  destruct (Z.eqb_spec (a mod Z.pos p) 0) as [Hr|Hr].
  - rewrite Z.div_opp_l_z; [lia|done|done].
  - rewrite Z.div_opp_l_nz; [lia|done|done].
Qed.

(** The stored count against the ceiling: it is the ceiling when the
    remainder is under half a batch (or exactly half, on an even quotient),
    and one more otherwise. *)
Lemma steps_stored_ceiling (a b : Z) :
  (0 < b)%Z →
  steps_stored a b =
    (ceil_steps a b +
     match (2 * (a mod b) ?= b)%Z with
     | Lt => 0
     | Gt => 1
     | Eq => if Z.even (a / b) then 0 else 1
     end)%Z.
Proof.
  intros Hb. rewrite ceil_steps_div by done.
  unfold steps_stored, round_half_even_div.
  destruct (2 * (a mod b) ?= b)%Z; [destruct (Z.even (a / b))|..]; lia.
Qed.

(** No step is added for an exact multiple of the batch size. *)
Lemma steps_stored_exact (a b : Z) :
  (0 < b)%Z → (a mod b = 0)%Z →
  steps_stored a b = (a / b)%Z ∧ ceil_steps a b = (a / b)%Z.
Proof.
  intros Hb Hr. rewrite ceil_steps_div by done.
  unfold steps_stored, round_half_even_div. rewrite Hr.
  change (2 * 0)%Z with 0%Z. destruct (Z.compare_spec 0 b); [lia| |lia].
  change (0 =? 0)%Z with true. cbv iota. lia.
Qed.

(** [calc_train_steps] returns, and stores [steps_stored] of the lengths
    of the two pipelines. *)
Lemma calc_train_steps_stores σ self (train valid : list batch) (b : Z) :
  attr_of σ self "train_dataset" = Some (VTfData train) →
  attr_of σ self "valid_dataset" = Some (VTfData valid) →
  attr_of σ self "batch_size" = Some (VInt b) →
  (0 < b)%Z →
  let out := calc_train_steps self σ in
  out.2 = Ok tt ∧
  attr_of out.1 self "train_steps" = Some (VInt (steps_stored (Z.of_nat (length train)) b)) ∧
  attr_of out.1 self "valid_steps" = Some (VInt (steps_stored (Z.of_nat (length valid)) b)).
Proof.
  intros Htrain Hvalid Hbatch Hb out. subst out.
  destruct (attr_of_object _ _ _ _ Htrain) as [attrs Hattrs].
  unfold calc_train_steps, steps_stored.
  rewrite <- !py_round_div by done.
  do 5 mstep.
  destruct (Z.eqb_spec b 0) as [->|_]; [lia|].
  do 4 mstep.
  destruct (Z.eqb_spec (Z.of_nat (length train) mod b) 0) as [Ht|Ht];
    destruct (Z.eqb_spec (Z.of_nat (length valid) mod b) 0) as [Hv|Hv];
    cbn [negb]; repeat mstep; try mlast; cbn [fst snd mret M_ret];
    rewrite ?Z.add_0_r; (split; [done|split; solve_attr]).
Qed.

(** C2 (the code departs from the claim).  For a training pipeline of 76
    elements and a batch size of 8 the count stored is 11, and the ceiling
    of 76/8 is 10: the quotient 9.5 is rounded to 10 before the step for
    the remainder is added. *)
Theorem calc_train_steps_exceeds_ceiling :
  let out := calc_train_steps 0 (pipeline_state (replicate 76 []) (replicate 19 []) 8) in
  out.2 = Ok tt ∧
  attr_of out.1 0 "train_steps" = Some (VInt 11) ∧
  ceil_steps 76 8 = 10%Z.
Proof. vm_compute. done. Qed.

(** At construction the lengths divided are those of the batched
    pipelines: for 95 images and masks, the 57 training pairs are in 4
    batches of 16, and the count stored is 1. *)
Example construction_steps :
  let out := ImgMaskDataset_init (example_env 95 95) 0 example_paths fresh_object in
  out.2 = Ok tt ∧
  length (samples_of (attr_of out.1 0 "train_dataset")) = 57 ∧
  attr_of out.1 0 "batch_size" = Some (VInt 16) ∧
  attr_of out.1 0 "train_steps" = Some (VInt 1) ∧
  ceil_steps 57 16 = 4%Z.
Proof. vm_compute. done. Qed.

(** ** The batch size *)

Lemma Qgtb_false (a b : Q) : Qgtb a b = false → (a <= b)%Q.
Proof.
  unfold Qgtb. intros H. apply Qle_bool_iff. by destruct (Qle_bool a b).
Qed.

Lemma power_of_two_pow (k : Z) : (0 ≤ k)%Z → power_of_two (2 ^ k).
Proof. intros Hk. by exists k. Qed.

(** What [calc_nearest_power_of_two] returns is a power of two within the
    limit; it changes nothing. *)
Lemma calc_nearest_power_of_two_ok b limit σ σ' p :
  calc_nearest_power_of_two b limit σ = (σ', Ok p) →
  σ' = σ ∧ power_of_two p ∧ (inject_Z p <= limit)%Q.
Proof.
  unfold calc_nearest_power_of_two.
  destruct (b <=? 0)%Z; [done|].
  destruct (Qgtb (inject_Z (2 ^ ceil_log2 b)) limit) eqn:Hup.
  - destruct (Qgtb (inject_Z (2 ^ floor_log2 b)) limit) eqn:Hdown; [done|].
    intros [= <- <-]. split; [done|]. split; [|by apply Qgtb_false].
    apply power_of_two_pow, Z.log2_nonneg.
  - rewrite Hup. intros [= <- <-]. split; [done|]. split; [|by apply Qgtb_false].
    apply power_of_two_pow, Z.log2_up_nonneg.
Qed.

(** The memory bound is read without changing the state. *)
Lemma get_batch_max_pure env self factor σ :
  (get_batch_max_batch_size_for_system_memory env self factor σ).1 = σ.
Proof.
  unfold get_batch_max_batch_size_for_system_memory, get_mean_file_size.
  destruct (gpus env); [done|].
  rewrite !bind_unfold. unfold getattr.
  destruct (heap σ !! self ≫= _) as [v|]; [|done]. simpl.
  destruct v; try done. simpl.
  destruct l; [done|]. simpl.
  by destruct (Qeq_bool _ 0).
Qed.

Lemma calc_train_steps_keeps_batch_size self v :
  preserves (λ σ, attr_of σ self "batch_size" = v) (calc_train_steps self).
Proof. unfold calc_train_steps. method_inv. Qed.

(** C3, amended.  When [__set_batch_size] returns for a request of at
    least 1, the batch size that [set_batch_size] leaves is the smaller of
    the number of examples and a power of two within the memory bound: it
    is at most both, and it is a power of two unless it is the number of
    examples. *)
Theorem set_batch_size_capped env σ σ1 self (b n : Z) :
  (1 ≤ b)%Z →
  attr_of σ self "num_examples" = Some (VInt n) →
  set_batch_size_private env self b σ = (σ1, Ok tt) →
  ∃ (limit : Q) (p stored : Z),
    (get_batch_max_batch_size_for_system_memory env self (8 # 10) σ).2 = Ok limit ∧
    attr_of (set_batch_size env self b σ).1 self "batch_size" = Some (VInt stored) ∧
    power_of_two p ∧ (inject_Z p <= limit)%Q ∧ stored = Z.min p n ∧
    (stored ≤ n)%Z ∧ (inject_Z stored <= limit)%Q ∧
    (power_of_two stored ∨ stored = n).
Proof.
  intros Hb Hn Hret.
  destruct (attr_of_object _ _ _ _ Hn) as [attrs Hattrs].
  unfold set_batch_size. rewrite bind_unfold, Hret.
  revert Hret. unfold set_batch_size_private. do 2 mstep.
  rewrite bind_unfold.
  pose proof (get_batch_max_pure env self (8 # 10) σ) as Hpure.
  destruct (get_batch_max_batch_size_for_system_memory env self (8 # 10) σ)
    as [σ2 [limit|e]]; [|done].
  simpl in Hpure. subst σ2. rewrite bind_unfold.
  destruct (calc_nearest_power_of_two b limit σ) as [σ3 [p|e]] eqn:Hcalc; [|done].
  apply calc_nearest_power_of_two_ok in Hcalc as (-> & Hpow & Hle).
  mlast. intros [= <-].
  exists limit, p, (Z.min p n).
  assert (Hstored : (if (n <? p)%Z then n else p) = Z.min p n).
  { destruct (Z.ltb_spec n p); lia. }
  split; [done|]. split.
  { apply calc_train_steps_keeps_batch_size. rewrite Hstored. solve_attr. }
  split; [done|]. split; [done|]. split; [done|]. split; [lia|]. split.
  { eapply Qle_trans; [|exact Hle]. rewrite <- Zle_Qle. lia. }
  destruct (Z.min_spec p n) as [[_ ->]|[_ ->]]; [by left|by right].
Qed.

(** On a machine without GPU, over images whose mean size is not zero, a
    request of at least 1 either returns or exceeds the limit. *)
Lemma set_batch_size_private_outcome env σ self (b n : Z) (images : list string) :
  gpus env = false →
  attr_of σ self "num_examples" = Some (VInt n) →
  attr_of σ self "images" = Some (VStrs images) →
  images ≠ [] →
  Qeq_bool (inject_Z (foldr Z.add 0%Z (getsize env <$> images))
            / inject_Z (Z.of_nat (length (getsize env <$> images)))) 0 = false →
  (1 ≤ b)%Z →
  (set_batch_size_private env self b σ).2 = Ok tt ∨
  (set_batch_size_private env self b σ).2 = Raise (ValueError (exceeds_limit_msg b)).
Proof.
  intros Hgpu Hn Himages Hne Hmean Hb.
  destruct (attr_of_object _ _ _ _ Hn) as [attrs Hattrs].
  unfold set_batch_size_private, get_batch_max_batch_size_for_system_memory,
    get_mean_file_size.
  rewrite Hgpu. do 4 mstep.
  destruct images as [|image images]; [done|]. mstep. rewrite Hmean. mstep.
  unfold calc_nearest_power_of_two.
  destruct (Z.leb_spec b 0) as [?|_]; [lia|].
  destruct (Qgtb (inject_Z (2 ^ ceil_log2 b)) _) eqn:Hup.
  - destruct (Qgtb (inject_Z (2 ^ floor_log2 b)) _) eqn:Hdown.
    + right. by mstep.
    + left. mstep. by mlast.
  - rewrite Hup. left. mstep. by mlast.
Qed.

(** The theorem on a dataset of 95 examples, for a request of 60. *)
Lemma set_batch_size_capped_witness :
  let env := example_env 95 95 in
  let σ := constructed 95 in
  (1 ≤ 60)%Z ∧
  attr_of σ 0 "num_examples" = Some (VInt 95) ∧
  set_batch_size_private env 0 60 σ = ((set_batch_size_private env 0 60 σ).1, Ok tt) ∧
  ∃ (limit : Q) (p stored : Z),
    (get_batch_max_batch_size_for_system_memory env 0 (8 # 10) σ).2 = Ok limit ∧
    attr_of (set_batch_size env 0 60 σ).1 0 "batch_size" = Some (VInt stored) ∧
    power_of_two p ∧ (inject_Z p <= limit)%Q ∧ stored = Z.min p 95 ∧
    (stored ≤ 95)%Z ∧ (inject_Z stored <= limit)%Q ∧
    (power_of_two stored ∨ stored = 95%Z).
Proof.
  intros env σ.
  assert (H1 : (1 ≤ 60)%Z) by lia.
  assert (H2 : attr_of σ 0 "num_examples" = Some (VInt 95)) by (vm_compute; reflexivity).
  assert (H3 : set_batch_size_private env 0 60 σ
               = ((set_batch_size_private env 0 60 σ).1, Ok tt))
    by (vm_compute; reflexivity).
  split; [exact H1|]. split; [exact H2|]. split; [exact H3|].
  exact (set_batch_size_capped env σ _ 0 60 95 H1 H2 H3).
Defined.

Example set_batch_size_rounds_up :
  attr_of (set_batch_size (example_env 95 95) 0 60 (constructed 95)).1 0 "batch_size"
    = Some (VInt 64).
Proof. vm_compute. reflexivity. Qed.

Lemma five_not_power_of_two : ¬ power_of_two 5.
Proof.
  intros (k & Hk & H).
  destruct (Z.le_gt_cases 3 k) as [Hge|Hlt].
  - assert (2 ^ 3 ≤ 2 ^ k)%Z by (apply Z.pow_le_mono_r; lia). lia.
  - assert (k = 0%Z ∨ k = 1%Z ∨ k = 2%Z) as [-> | [-> | ->]] by lia; discriminate.
Qed.

(** C3, as stated, fails: on a dataset of 5 examples a request of 8, well
    within the memory bound of 250000, stores 5. *)
Lemma set_batch_size_stores_count :
  ¬ stored_batch_size_spec (example_env 5 5) (constructed 5) 0 8.
Proof.
  intros Hspec.
  destruct Hspec as (stored & n & limit & Hstored & _ & _ & Hpow & _).
  - lia.
  - vm_compute. discriminate.
  - assert (Hfive : attr_of (set_batch_size (example_env 5 5) 0 8 (constructed 5)).1
                      0 "batch_size" = Some (VInt 5)) by (vm_compute; reflexivity).
    rewrite Hfive in Hstored. injection Hstored as <-.
    by apply five_not_power_of_two.
Qed.

Example set_batch_size_five :
  let out := set_batch_size (example_env 5 5) 0 8 (constructed 5) in
  out.2 = Ok tt ∧ attr_of out.1 0 "batch_size" = Some (VInt 5) ∧
  (get_batch_max_batch_size_for_system_memory (example_env 5 5) 0 (8 # 10)
     (constructed 5)).2 = Ok (50000000000 / (inject_Z 1000000 / inject_Z 5))%Q.
Proof. vm_compute. done. Qed.

(** ** Matching the counts of inputs and targets *)

(** In label mode the table of labels is checked against the images. *)
Lemma read_labels_mismatch env σ self (path_labels : string) (images : list string) :
  attr_of σ self "images" = Some (VStrs images) →
  length (read_csv env path_labels) ≠ length images →
  (read_labels_from_excel env self path_labels σ).2 = Raise (OSError count_mismatch_msg).
Proof.
  intros Himages Hne.
  destruct (attr_of_object _ _ _ _ Himages) as [attrs Hattrs].
  rewrite (attr_of_lookup _ _ _ _ Hattrs) in Himages.
  unfold read_labels_from_excel. do 3 mstep.
  rewrite length_fmap.
  by destruct (Nat.eqb_spec (length (read_csv env path_labels)) (length images)).
Qed.

Lemma read_labels_match env σ self (path_labels : string) (images : list string) :
  attr_of σ self "images" = Some (VStrs images) →
  length (read_csv env path_labels) = length images →
  (read_labels_from_excel env self path_labels σ).2 = Ok tt.
Proof.
  intros Himages Heq.
  destruct (attr_of_object _ _ _ _ Himages) as [attrs Hattrs].
  rewrite (attr_of_lookup _ _ _ _ Hattrs) in Himages.
  unfold read_labels_from_excel. do 3 mstep.
  rewrite length_fmap.
  by destruct (Nat.eqb_spec (length (read_csv env path_labels)) (length images)).
Qed.

(** In mask mode the check asks for an attribute [num_images], which no
    method assigns: without it [make_image_dirs] compares nothing, and
    stores the new count over the old one. *)
Lemma make_image_dirs_unchecked env σ self (path : string) attrs :
  heap σ !! self = Some attrs →
  attrs !! "num_images" = None →
  list_dir env path ≠ [] →
  make_image_dirs env self path σ
  = (with_heap (<[self := <["num_examples" := VInt (Z.of_nat (length (list_dir env path)))]>
                            attrs]> (heap σ)) σ,
     Ok (list_dir env path, path)).
Proof.
  intros Hattrs Hnone Hlist. unfold make_image_dirs, get_image_list.
  destruct (list_dir env path) as [|image images] eqn:Hdir; [done|].
  do 2 mstep. rewrite (attr_of_lookup _ _ _ _ Hattrs), Hnone.
  cbn [bool_decide decide_rel is_Some_dec]. repeat mstep. reflexivity.
Qed.

Lemma set_seed_keeps env self seed a v :
  a ≠ "seed" → preserves (λ σ, attr_of σ self a = v) (set_seed env self seed).
Proof.
  intros Ha σ Hσ. unfold set_seed. rewrite bind_unfold.
  pose proof (preserves_setattr_other self "seed" a v (VInt seed) ltac:(congruence) σ Hσ)
    as Hset.
  by destruct (setattr self "seed" (VInt seed) σ) as [σ' [[]|e]].
Qed.

(** The base constructor assigns no attribute [num_images]. *)
Lemma Dataset_init_no_num_images env self (path_images : string) :
  preserves (λ σ, attr_of σ self "num_images" = None) (Dataset_init env self path_images).
Proof.
  unfold Dataset_init, make_image_dirs, get_image_list, set_image_dims_original.
  repeat first
    [ apply set_seed_keeps; discriminate
    | method_inv_step
    | match goal with |- context [match ?x with _ => _ end] => destruct x end ].
Qed.

Lemma set_seed_keeps_object env self seed o :
  preserves (λ σ, is_Some (heap σ !! o)) (set_seed env self seed).
Proof.
  intros σ Hσ. unfold set_seed. rewrite bind_unfold.
  pose proof (preserves_setattr_object o self "seed" (VInt seed) σ Hσ) as Hset.
  by destruct (setattr self "seed" (VInt seed) σ) as [σ' [[]|e]].
Qed.

Lemma Dataset_init_keeps_object env self (path_images : string) :
  preserves (λ σ, is_Some (heap σ !! self)) (Dataset_init env self path_images).
Proof.
  unfold Dataset_init, make_image_dirs, get_image_list, set_image_dims_original.
  repeat first
    [ apply set_seed_keeps_object
    | method_inv_step
    | match goal with |- context [match ?x with _ => _ end] => destruct x end ].
Qed.

(** Whatever the two directories hold, the masks listed after the base
    constructor are accepted without comparison, and their count replaces
    that of the images. *)
Lemma mask_count_unchecked env σ self (path_images path_masks : string) :
  is_Some (heap σ !! self) →
  attr_of σ self "num_images" = None →
  list_dir env path_masks ≠ [] →
  let σ1 := (Dataset_init env self path_images σ).1 in
  let out := make_image_dirs env self path_masks σ1 in
  out.2 = Ok (list_dir env path_masks, path_masks) ∧
  attr_of out.1 self "num_examples"
    = Some (VInt (Z.of_nat (length (list_dir env path_masks)))).
Proof.
  intros Hobj Hnone Hlist σ1 out. subst out.
  assert (Hobj1 : is_Some (heap σ1 !! self))
    by (by apply Dataset_init_keeps_object).
  assert (Hnone1 : attr_of σ1 self "num_images" = None)
    by (by apply Dataset_init_no_num_images).
  destruct Hobj1 as [attrs Hattrs].
  rewrite (attr_of_lookup _ _ _ _ Hattrs) in Hnone1.
  rewrite (make_image_dirs_unchecked env σ1 self path_masks attrs Hattrs Hnone1 Hlist).
  split; [done|]. apply attr_of_with_heap_eq.
Qed.

(** C4 (the code departs from the claim).  Over ten images and nine masks
    the mask constructor raises no count-mismatch error: the masks are
    listed without comparison, and construction goes on with lists of
    different lengths until the shuffle of sklearn refuses them.  The
    label constructor, on ten images and a table without rows, does raise
    the count-mismatch error. *)
Theorem mask_count_mismatch_undetected :
  let env := example_env 10 9 in
  let out := ImgMaskDataset_init env 0 example_paths fresh_object in
  length (list_dir env "data/images") = 10 ∧
  length (list_dir env "data/masks") = 9 ∧
  out.2 ≠ Raise (OSError count_mismatch_msg) ∧
  out.2 = Raise (ValueError "Found input variables with inconsistent numbers of samples") ∧
  attr_of out.1 0 "num_examples" = Some (VInt 9) ∧
  (ImgLabelDataset_init env 0 [("path_images", "data/images"); ("path_labels", "labels.csv")]
     fresh_object).2 = Raise (OSError count_mismatch_msg).
Proof. vm_compute. repeat split; discriminate. Qed.

(** With equal counts neither constructor raises the error. *)
Example equal_counts_accepted :
  (ImgMaskDataset_init (example_env 10 10) 0 example_paths fresh_object).2 = Ok tt.
Proof. vm_compute. reflexivity. Qed.

(** ** Splitting the samples *)

Section indexing.
Context {A : Type}.
Implicit Types (arr : list A) (indices : list nat).

Lemma mapM_omap (f : nat → option A) indices (picked : list A) :
  mapM f indices = Some picked → omap f indices = picked.
Proof.
  revert picked. induction indices as [|i indices IH]; intros picked; simpl.
  - by intros [= <-].
  - destruct (f i) as [x|] eqn:Hx; simpl; [|done].
    destruct (mapM f indices) as [rest|] eqn:Hrest; simpl; [|done].
    intros [= <-]. f_equal. by apply IH.
Qed.

Lemma omap_lookup_from (pre arr : list A) :
  omap (λ i, (pre ++ arr) !! i) (seq (length pre) (length arr)) = arr.
Proof.
  revert pre. induction arr as [|x arr IH]; intros pre; [done|].
  cbn [length seq]. simpl. rewrite list_lookup_middle by done. f_equal.
  specialize (IH (pre ++ [x])). rewrite <- app_assoc in IH. cbn in IH.
  rewrite length_app in IH. cbn in IH. by rewrite Nat.add_1_r in IH.
Qed.

Lemma omap_lookup_all arr : omap (λ i, arr !! i) (seq 0 (length arr)) = arr.
Proof. apply (omap_lookup_from [] arr). Qed.

(** Valid indices pick as many elements as there are indices. *)
Lemma take_indices_valid arr indices :
  Forall (λ i, i < length arr) indices →
  ∃ picked, mapM (λ i, arr !! i) indices = Some picked ∧
            length picked = length indices.
Proof.
  intros Hvalid.
  destruct (mapM_is_Some_2 (λ i, arr !! i) indices) as [picked Hpicked].
  { eapply Forall_impl; [exact Hvalid|]. intros i Hi. by apply lookup_lt_is_Some_2. }
  exists picked. split; [done|]. symmetry. by eapply length_mapM.
Qed.

(** Picking along a permutation of all the indices permutes the list. *)
Lemma take_indices_perm arr indices picked :
  indices ≡ₚ seq 0 (length arr) →
  mapM (λ i, arr !! i) indices = Some picked → picked ≡ₚ arr.
Proof.
  intros Hperm Hpicked. apply mapM_omap in Hpicked as <-.
  rewrite Hperm. by rewrite omap_lookup_all.
Qed.

Lemma perm_indices_valid indices n :
  indices ≡ₚ seq 0 n → Forall (λ i, i < n) indices.
Proof.
  intros Hperm. apply Forall_forall. intros i Hi.
  rewrite Hperm in Hi. apply elem_of_seq in Hi. lia.
Qed.

End indexing.

(** Picking from two lists along the same indices picks the pairs. *)
Lemma take_indices_zip {A B} (xs : list A) (ys : list B) indices xs' ys' :
  mapM (λ i, xs !! i) indices = Some xs' →
  mapM (λ i, ys !! i) indices = Some ys' →
  mapM (λ i, zip xs ys !! i) indices = Some (zip xs' ys').
Proof.
  revert xs' ys'. induction indices as [|i indices IH]; intros xs' ys'; simpl.
  - by intros [= <-] [= <-].
  - destruct (xs !! i) as [x|] eqn:Hx; simpl; [|done].
    destruct (mapM (λ i, xs !! i) indices) as [xr|] eqn:Hxr; simpl; [|done].
    intros [= <-].
    destruct (ys !! i) as [y|] eqn:Hy; simpl; [|done].
    destruct (mapM (λ i, ys !! i) indices) as [yr|] eqn:Hyr; simpl; [|done].
    intros [= <-].
    assert (Hxy : zip xs ys !! i = Some (x, y)) by (by apply lookup_zip_Some).
    rewrite Hxy. simpl. by rewrite (IH xr yr).
Qed.

Lemma batch_scan_concat {A} (n : nat) (cur l : list A) :
  concat (batch_scan n cur l) = cur ++ l.
Proof.
  revert cur. induction l as [|x l IH]; intros cur; simpl.
  - destruct cur; simpl; by rewrite ?app_nil_r.
  - destruct (length (cur ++ [x]) =? n)%nat; simpl; rewrite IH.
    + by rewrite <- app_assoc.
    + by rewrite <- app_assoc.
Qed.

Lemma stateless_bind {A B} (m : M A) (f : A → M B) :
  stateless m → (∀ a, stateless (f a)) → stateless (m ≫= f).
Proof.
  intros [r Hm] Hf. destruct r as [a|e].
  - destruct (Hf a) as [r' Hfa]. exists r'. intros σ.
    by rewrite bind_unfold, Hm, Hfa.
  - exists (Raise e). intros σ. by rewrite bind_unfold, Hm.
Qed.

Lemma stateless_ret {A} (a : A) : stateless (mret a).
Proof. by exists (Ok a). Qed.

Lemma stateless_raise {A} (e : exn) : stateless (raise e : M A).
Proof. by exists (Raise e). Qed.

Lemma stateless_from_option {A} (e : exn) (o : option A) : stateless (from_option e o).
Proof. destruct o; [apply stateless_ret|apply stateless_raise]. Qed.

Lemma py_int_fifth (n : nat) :
  py_int (inject_Z (Z.of_nat n) * (2 # 10)) = (Z.of_nat n / 5)%Z.
Proof.
  unfold py_int, Qle_bool, Qfloor, Qmult, inject_Z. simpl.
  destruct (Z.leb_spec (0 * Z.pos (1 * 10)) (Z.of_nat n * 2 * 1)) as [_|Hneg]; [|lia].
  change (Z.pos (1 * 10)) with (5 * 2)%Z. by rewrite Z.div_mul_cancel_r.
Qed.

Section split.
Context (env : Env).

Lemma train_test_split_stateless {A} (arr : list A) (size seed : Z) :
  stateless (train_test_split env arr size seed).
Proof.
  unfold train_test_split.
  destruct (_ || _); [apply stateless_raise|].
  repeat (apply stateless_bind; [apply stateless_from_option|intros ?]).
  apply stateless_ret.
Qed.

(** The outcome of [load_data] depends on the seed of the dataset and on
    the two lists only. *)
Lemma load_data_from_seed (images masks : list string) (split : Q) (seed : Z) :
  ∃ r, ∀ σ self, attr_of σ self "seed" = Some (VInt seed) →
                 load_data env self images masks split σ = (σ, r).
Proof.
  pose (size := py_int (inject_Z (Z.of_nat (length images)) * split)).
  assert (Hst : stateless
    (x ← train_test_split env images size seed;
     y ← train_test_split env masks size seed;
     x' ← train_test_split env x.1 size seed;
     y' ← train_test_split env y.1 size seed;
     mret (mkSplits (x'.1, y'.1) (x.2, y.2) (x'.2, y'.2)))).
  { repeat (apply stateless_bind; [apply train_test_split_stateless|intros ?]).
    apply stateless_ret. }
  destruct Hst as [r Hr]. exists r. intros σ self Hseed.
  unfold load_data. do 2 mstep. apply Hr.
Qed.

Context (Hperm : draws_permutations env).

(** A split of [size] out of more than [size] elements returns, with
    [size] elements in the test part and all the others in the train
    part. *)
Lemma train_test_split_ok {A} (arr : list A) (size seed : Z) :
  (0 < size < Z.of_nat (length arr))%Z →
  ∃ train test,
    (∀ σ, train_test_split env arr size seed σ = (σ, Ok (train, test))) ∧
    length test = Z.to_nat size ∧
    length train = length arr - Z.to_nat size ∧
    train ++ test ≡ₚ arr.
Proof.
  intros Hsize. unfold train_test_split.
  destruct (Z.leb_spec (Z.of_nat (length arr)) size) as [?|_]; [lia|].
  destruct (Z.leb_spec size 0) as [?|_]; [lia|]. cbn [orb].
  set (indices := (permutation env (seeded env seed) (length arr)).1).
  assert (Hind : indices ≡ₚ seq 0 (length arr)) by apply Hperm.
  assert (Hlen : length indices = length arr).
  { by rewrite Hind, length_seq. }
  pose proof (perm_indices_valid _ _ Hind) as Hvalid.
  set (n_test := Z.to_nat size). set (n_train := length arr - n_test).
  destruct (take_indices_valid arr (take n_train (drop n_test indices)))
    as (train & Htrain & Hltrain); [by apply Forall_take, Forall_drop|].
  destruct (take_indices_valid arr (take n_test indices))
    as (test & Htest & Hltest); [by apply Forall_take|].
  exists train, test. split; [|split; [|split]].
  - intros σ. unfold take_indices. rewrite Htrain, Htest. reflexivity.
  - rewrite Hltest, length_take. lia.
  - rewrite Hltrain, length_take, length_drop. lia.
  - apply mapM_omap in Htrain as <-. apply mapM_omap in Htest as <-.
    rewrite <- omap_app.
    transitivity (omap (λ i, arr !! i) (seq 0 (length arr)));
      [|by rewrite omap_lookup_all].
    apply omap_Permutation. rewrite <- Hind.
    rewrite (comm (++)), take_take_drop. by rewrite take_ge by lia.
Qed.

(** C5, amended.  For at least five images and as many masks, split at
    ratio 0.2, [load_data] returns; validation holds [int(0.2 * N)] of the
    [N] samples, and test holds the same number [int(0.2 * N)] of the
    samples left: the fifth of the original total, not of what is left
    after validation. *)
Theorem load_data_equal_shares σ self (images masks : list string) (seed : Z) :
  attr_of σ self "seed" = Some (VInt seed) →
  length masks = length images →
  5 ≤ length images →
  ∃ parts,
    load_data env self images masks (2 # 10) σ = (σ, Ok parts) ∧
    let size := (Z.of_nat (length images) / 5)%Z in
    size = py_int (inject_Z (Z.of_nat (length images)) * (2 # 10)) ∧
    Z.of_nat (length (valid_part parts).1) = size ∧
    Z.of_nat (length (valid_part parts).2) = size ∧
    Z.of_nat (length (test_part parts).1) = size ∧
    Z.of_nat (length (test_part parts).2) = size ∧
    Z.of_nat (length (train_part parts).1) = (Z.of_nat (length images) - 2 * size)%Z ∧
    Z.of_nat (length (train_part parts).2) = (Z.of_nat (length images) - 2 * size)%Z.
Proof.
  intros Hseed Hmasks Hfive.
  unfold load_data. rewrite py_int_fifth.
  set (size := (Z.of_nat (length images) / 5)%Z).
  assert (Hsize : (1 ≤ size ∧ 2 * size < Z.of_nat (length images))%Z).
  { subst size. split.
    - apply Z.div_le_lower_bound; lia.
    - pose proof (Z.mul_div_le (Z.of_nat (length images)) 5 ltac:(lia)). lia. }
  destruct (train_test_split_ok images size seed) as (tx & vx & Hx & Hvx & Htx & _);
    [lia|].
  destruct (train_test_split_ok masks size seed) as (ty & vy & Hy & Hvy & Hty & _);
    [lia|].
  destruct (train_test_split_ok tx size seed) as (tx' & ex & Hx' & Hex & Htx' & _);
    [lia|].
  destruct (train_test_split_ok ty size seed) as (ty' & ey & Hy' & Hey & Hty' & _);
    [lia|].
  eexists. split.
  - do 2 mstep. rewrite bind_unfold, Hx. cbv beta iota.
    rewrite bind_unfold, Hy. cbv beta iota. cbn [fst snd].
    rewrite bind_unfold, Hx'. cbv beta iota.
    rewrite bind_unfold, Hy'. cbv beta iota. reflexivity.
  - cbn [valid_part test_part train_part fst snd]. fold size. lia.
Qed.

End split.

Lemma example_env_draws_permutations (n m : nat) : draws_permutations (example_env n m).
Proof.
  intros g k. simpl. destruct (N.even g); [apply reverse_Permutation|done].
Qed.

(** The theorem on ten images and ten masks. *)
Lemma load_data_equal_shares_witness :
  let env := example_env 10 10 in
  let images := numbered "data/images/" 10 in
  let masks := numbered "data/masks/" 10 in
  attr_of seeded_state 0 "seed" = Some (VInt 42) ∧
  length masks = length images ∧
  5 ≤ length images ∧
  ∃ parts,
    load_data env 0 images masks (2 # 10) seeded_state = (seeded_state, Ok parts) ∧
    let size := (Z.of_nat (length images) / 5)%Z in
    size = py_int (inject_Z (Z.of_nat (length images)) * (2 # 10)) ∧
    Z.of_nat (length (valid_part parts).1) = size ∧
    Z.of_nat (length (valid_part parts).2) = size ∧
    Z.of_nat (length (test_part parts).1) = size ∧
    Z.of_nat (length (test_part parts).2) = size ∧
    Z.of_nat (length (train_part parts).1) = (Z.of_nat (length images) - 2 * size)%Z ∧
    Z.of_nat (length (train_part parts).2) = (Z.of_nat (length images) - 2 * size)%Z.
Proof.
  intros env images masks.
  assert (H1 : attr_of seeded_state 0 "seed" = Some (VInt 42)) by reflexivity.
  assert (H2 : length masks = length images) by reflexivity.
  assert (H3 : 5 ≤ length images) by (vm_compute; lia).
  split; [exact H1|]. split; [exact H2|]. split; [exact H3|].
  exact (load_data_equal_shares env (example_env_draws_permutations 10 10)
           seeded_state 0 images masks 42 H1 H2 H3).
Defined.

(** Of ten samples two go to validation, two to test and six stay. *)
Example load_data_ten :
  (load_data (example_env 10 10) 0 (numbered "i" 10) (numbered "m" 10) (2 # 10)
     seeded_state).2
  = Ok (mkSplits
          (["i2.png"; "i3.png"; "i4.png"; "i5.png"; "i6.png"; "i7.png"],
           ["m2.png"; "m3.png"; "m4.png"; "m5.png"; "m6.png"; "m7.png"])
          (["i9.png"; "i8.png"], ["m9.png"; "m8.png"])
          (["i0.png"; "i1.png"], ["m0.png"; "m1.png"])).
Proof. vm_compute. reflexivity. Qed.

(** C5, as stated, fails: of 100 samples 20 go to validation and 20 to
    test, where the fifth of the 80 left after validation is 16. *)
Lemma load_data_test_share :
  ¬ test_share_spec (example_env 100 100) seeded_state 0
      (numbered "data/images/" 100) (numbered "data/masks/" 100) (2 # 10).
Proof.
  unfold test_share_spec. intros Hspec.
  set (r := (load_data (example_env 100 100) 0 (numbered "data/images/" 100)
               (numbered "data/masks/" 100) (2 # 10) seeded_state).2) in Hspec.
  vm_compute in r. subst r.
  specialize (Hspec _ eq_refl). vm_compute in Hspec.
  destruct Hspec as [_ Htest]. discriminate Htest.
Qed.

(** ** Reproducibility of the split *)

Lemma tf_dataset_ok σ self (xs ys : list string) (b : Z) :
  attr_of σ self "batch_size" = Some (VInt b) →
  length xs = length ys → (0 < b)%Z →
  tf_dataset self xs ys σ
  = (σ, Ok (VTfData (batch_scan (Z.to_nat b) [] (zip xs ys)))).
Proof.
  intros Hb Hlen Hpos. unfold tf_dataset.
  rewrite Hlen, Nat.eqb_refl. cbn [negb]. do 3 mstep.
  destruct (Z.leb_spec b 0); [lia|]. by mstep.
Qed.

Lemma tf_dataset_not_positive σ self (xs ys : list string) (b : Z) :
  attr_of σ self "batch_size" = Some (VInt b) →
  length xs = length ys → (b ≤ 0)%Z →
  tf_dataset self xs ys σ = (σ, Raise (ValueError "batch_size must be positive")).
Proof.
  intros Hb Hlen Hpos. unfold tf_dataset.
  rewrite Hlen, Nat.eqb_refl. cbn [negb]. do 3 mstep.
  destruct (Z.leb_spec b 0); [|lia]. by mstep.
Qed.

Lemma tf_dataset_mismatch σ self (xs ys : list string) :
  length xs ≠ length ys →
  tf_dataset self xs ys σ = (σ, Raise (ValueError "Dimensions are not compatible")).
Proof.
  intros Hlen. unfold tf_dataset.
  destruct (Nat.eqb_spec (length xs) (length ys)); [done|]. cbn [negb]. by mstep.
Qed.

Lemma calc_train_steps_keeps self a v :
  a ≠ "train_steps" → a ≠ "valid_steps" →
  preserves (λ σ, attr_of σ self a = v) (calc_train_steps self).
Proof.
  intros H1 H2. unfold calc_train_steps.
  method_inv; apply preserves_setattr_other; congruence.
Qed.

Section reproducible.
Context (env : Env) (Hperm : draws_permutations env).

(** The shuffle draws from the global generator, moves it on, and keeps
    the pairs together. *)
Lemma shuffle_ok (xs ys : list string) σ :
  length xs = length ys →
  ∃ xs' ys',
    shuffle env xs ys σ
    = (with_np_random (permutation env (np_random σ) (length xs)).2 σ, Ok (xs', ys')) ∧
    length xs' = length ys' ∧ zip xs' ys' ≡ₚ zip xs ys.
Proof.
  intros Hlen. unfold shuffle. rewrite Hlen, Nat.eqb_refl. cbn [negb].
  set (drawn := permutation env (np_random σ) (length ys)).
  assert (Hind : drawn.1 ≡ₚ seq 0 (length ys)) by apply Hperm.
  pose proof (perm_indices_valid _ _ Hind) as Hvalid.
  destruct (take_indices_valid ys drawn.1 Hvalid) as (ys' & Hys & Hlys).
  rewrite <- Hlen in Hvalid.
  destruct (take_indices_valid xs drawn.1 Hvalid) as (xs' & Hxs & Hlxs).
  exists xs', ys'. split; [|split].
  - do 3 mstep. fold drawn. unfold take_indices. rewrite Hxs, Hys. reflexivity.
  - congruence.
  - eapply take_indices_perm; [|by apply take_indices_zip].
    rewrite length_zip, Hlen, Nat.min_id. done.
Qed.

(** What [prep_data_img_labels] does, given what [load_data] returns. *)
Lemma prep_data_outcome σ self (images masks : list string) (seed b : Z) r :
  attr_of σ self "images" = Some (VStrs images) →
  attr_of σ self "masks" = Some (VStrs masks) →
  attr_of σ self "seed" = Some (VInt seed) →
  attr_of σ self "batch_size" = Some (VInt b) →
  load_data env self images masks (2 # 10) σ = (σ, r) →
  let out := prep_data_img_labels env self σ in
  match r with
  | Raise e => out.2 = Raise e
  | Ok parts =>
      let '(tx, ty) := train_part parts in
      let '(vx, vy) := valid_part parts in
      if negb (length tx =? length ty) then
        out.2 = Raise (ValueError "Found input variables with inconsistent numbers of samples")
      else if (b <=? 0)%Z then
        out.2 = Raise (ValueError "batch_size must be positive")
      else if negb (length vx =? length vy) then
        out.2 = Raise (ValueError "Dimensions are not compatible")
      else
        out.2 = Ok tt ∧
        attr_of out.1 self "valid_dataset"
          = Some (VTfData (batch_scan (Z.to_nat b) [] (zip vx vy))) ∧
        samples_of (attr_of out.1 self "train_dataset") ≡ₚ zip tx ty
  end.
Proof.
  intros Himages Hmasks Hseed Hbatch Hload out. subst out.
  destruct (attr_of_object _ _ _ _ Himages) as [attrs Hattrs].
  unfold prep_data_img_labels. do 4 mstep.
  rewrite bind_unfold, Hload.
  destruct r as [parts|e]; [|done]. cbv beta iota.
  destruct (train_part parts) as [tx ty] eqn:Htrain.
  destruct (valid_part parts) as [vx vy] eqn:Hvalid. cbn [fst snd].
  destruct (Nat.eqb_spec (length tx) (length ty)) as [Hlt|Hlt]; cbn [negb].
  2:{ unfold shuffle. destruct (Nat.eqb_spec (length tx) (length ty)); [done|].
      cbn [negb]. by mstep. }
  destruct (shuffle_ok tx ty σ Hlt) as (tx' & ty' & Hshuffle & Hlt' & Hpairs).
  rewrite bind_unfold, Hshuffle. cbv beta iota. cbn [fst snd].
  set (σ1 := with_np_random _ σ).
  assert (Hbatch1 : attr_of σ1 self "batch_size" = Some (VInt b)) by exact Hbatch.
  destruct (Z.leb_spec b 0) as [Hb|Hb].
  { by rewrite bind_unfold, (tf_dataset_not_positive σ1 self tx' ty' b Hbatch1 Hlt' Hb). }
  rewrite bind_unfold, (tf_dataset_ok σ1 self tx' ty' b Hbatch1 Hlt' Hb).
  cbv beta iota. subst σ1. mstep.
  pose proof Hbatch as Hbatch'. rewrite (attr_of_lookup _ _ _ _ Hattrs) in Hbatch'.
  match goal with |- context [(_ ≫= _) ?s] => set (σ2 := s) end.
  assert (Hbatch2 : attr_of σ2 self "batch_size" = Some (VInt b)) by (subst σ2; solve_attr).
  destruct (Nat.eqb_spec (length vx) (length vy)) as [Hlv|Hlv]; cbn [negb].
  2:{ by rewrite bind_unfold, (tf_dataset_mismatch σ2 self vx vy Hlv). }
  rewrite bind_unfold, (tf_dataset_ok σ2 self vx vy b Hbatch2 Hlv Hb).
  cbv beta iota. subst σ2. mstep.
  match goal with |- context [calc_train_steps self ?s] => set (σ3 := s) end.
  assert (Hb3 : attr_of σ3 self "batch_size" = Some (VInt b)) by (subst σ3; solve_attr).
  assert (Ht3 : attr_of σ3 self "train_dataset"
                = Some (VTfData (batch_scan (Z.to_nat b) [] (zip tx' ty'))))
    by (subst σ3; solve_attr).
  assert (Hv3 : attr_of σ3 self "valid_dataset"
                = Some (VTfData (batch_scan (Z.to_nat b) [] (zip vx vy))))
    by (subst σ3; solve_attr).
  destruct (calc_train_steps_stores σ3 self _ _ b Ht3 Hv3 Hb3 Hb) as (Hret & _ & _).
  split; [exact Hret|]. split.
  - by apply (calc_train_steps_keeps self "valid_dataset").
  - rewrite (calc_train_steps_keeps self "train_dataset" _ ltac:(done) ltac:(done) σ3 Ht3).
    cbn [samples_of]. by rewrite batch_scan_concat.
Qed.

(** C8.  Two runs of the split with the same seed on the same lists of
    images and masks, from any two states of the store and of numpy's
    global generator: [load_data] returns the same three parts, and
    [prep_data_img_labels] ends the same way, with the same validation
    pipeline and with the same pairs in the training pipeline (which the
    unseeded shuffle may order differently). *)
Theorem split_reproducible σ1 σ2 self (images masks : list string) (seed b : Z) :
  attr_of σ1 self "images" = Some (VStrs images) →
  attr_of σ1 self "masks" = Some (VStrs masks) →
  attr_of σ1 self "seed" = Some (VInt seed) →
  attr_of σ1 self "batch_size" = Some (VInt b) →
  attr_of σ2 self "images" = Some (VStrs images) →
  attr_of σ2 self "masks" = Some (VStrs masks) →
  attr_of σ2 self "seed" = Some (VInt seed) →
  attr_of σ2 self "batch_size" = Some (VInt b) →
  (load_data env self images masks (2 # 10) σ1).2
    = (load_data env self images masks (2 # 10) σ2).2 ∧
  let out1 := prep_data_img_labels env self σ1 in
  let out2 := prep_data_img_labels env self σ2 in
  out1.2 = out2.2 ∧
  (out1.2 = Ok tt →
     attr_of out1.1 self "valid_dataset" = attr_of out2.1 self "valid_dataset" ∧
     samples_of (attr_of out1.1 self "train_dataset")
       ≡ₚ samples_of (attr_of out2.1 self "train_dataset")).
Proof.
  intros Hi1 Hm1 Hs1 Hb1 Hi2 Hm2 Hs2 Hb2.
  destruct (load_data_from_seed env images masks (2 # 10) seed) as [r Hr].
  pose proof (Hr σ1 self Hs1) as Hr1. pose proof (Hr σ2 self Hs2) as Hr2.
  split; [by rewrite Hr1, Hr2|].
  pose proof (prep_data_outcome σ1 self images masks seed b r Hi1 Hm1 Hs1 Hb1 Hr1) as H1.
  pose proof (prep_data_outcome σ2 self images masks seed b r Hi2 Hm2 Hs2 Hb2 Hr2) as H2.
  cbv zeta in H1, H2. cbv zeta.
  destruct r as [parts|e]; [|by rewrite H1, H2].
  destruct (train_part parts) as [tx ty]. destruct (valid_part parts) as [vx vy].
  destruct (negb (length tx =? length ty)); [by rewrite H1, H2|].
  destruct (b <=? 0)%Z; [by rewrite H1, H2|].
  destruct (negb (length vx =? length vy)); [by rewrite H1, H2|].
  destruct H1 as (Hret1 & Hvalid1 & Htrain1). destruct H2 as (Hret2 & Hvalid2 & Htrain2).
  split; [by rewrite Hret1, Hret2|]. intros _.
  split; [by rewrite Hvalid1, Hvalid2|]. by rewrite Htrain1, Htrain2.
Qed.

End reproducible.

(** The theorem on two runs over ten samples that start from different
    states of the global generator. *)
Lemma split_reproducible_witness :
  let env := example_env 10 10 in
  let σ1 := prepared_state 42 in
  let σ2 := prepared_state 43 in
  let images := numbered "data/images/" 10 in
  let masks := numbered "data/masks/" 10 in
  attr_of σ1 0 "images" = Some (VStrs images) ∧
  attr_of σ1 0 "masks" = Some (VStrs masks) ∧
  attr_of σ1 0 "seed" = Some (VInt 42) ∧
  attr_of σ1 0 "batch_size" = Some (VInt 4) ∧
  attr_of σ2 0 "images" = Some (VStrs images) ∧
  attr_of σ2 0 "masks" = Some (VStrs masks) ∧
  attr_of σ2 0 "seed" = Some (VInt 42) ∧
  attr_of σ2 0 "batch_size" = Some (VInt 4) ∧
  (load_data env 0 images masks (2 # 10) σ1).2
    = (load_data env 0 images masks (2 # 10) σ2).2 ∧
  let out1 := prep_data_img_labels env 0 σ1 in
  let out2 := prep_data_img_labels env 0 σ2 in
  out1.2 = out2.2 ∧
  (out1.2 = Ok tt →
     attr_of out1.1 0 "valid_dataset" = attr_of out2.1 0 "valid_dataset" ∧
     samples_of (attr_of out1.1 0 "train_dataset")
       ≡ₚ samples_of (attr_of out2.1 0 "train_dataset")).
Proof.
  intros env σ1 σ2 images masks.
  assert (Hi1 : attr_of σ1 0 "images" = Some (VStrs images)) by reflexivity.
  assert (Hm1 : attr_of σ1 0 "masks" = Some (VStrs masks)) by reflexivity.
  assert (Hs1 : attr_of σ1 0 "seed" = Some (VInt 42)) by reflexivity.
  assert (Hb1 : attr_of σ1 0 "batch_size" = Some (VInt 4)) by reflexivity.
  assert (Hi2 : attr_of σ2 0 "images" = Some (VStrs images)) by reflexivity.
  assert (Hm2 : attr_of σ2 0 "masks" = Some (VStrs masks)) by reflexivity.
  assert (Hs2 : attr_of σ2 0 "seed" = Some (VInt 42)) by reflexivity.
  assert (Hb2 : attr_of σ2 0 "batch_size" = Some (VInt 4)) by reflexivity.
  repeat (split; [assumption|]).
  exact (split_reproducible env (example_env_draws_permutations 10 10) σ1 σ2 0
           images masks 42 4 Hi1 Hm1 Hs1 Hb1 Hi2 Hm2 Hs2 Hb2).
Defined.

(** The two runs of the witness differ in the order of the training
    pipeline, and in nothing else of the split. *)
Example shuffle_order_differs :
  let out1 := prep_data_img_labels (example_env 10 10) 0 (prepared_state 42) in
  let out2 := prep_data_img_labels (example_env 10 10) 0 (prepared_state 43) in
  out1.2 = Ok tt ∧ out2.2 = Ok tt ∧
  samples_of (attr_of out1.1 0 "train_dataset")
    = reverse (samples_of (attr_of out2.1 0 "train_dataset")) ∧
  samples_of (attr_of out1.1 0 "train_dataset")
    ≠ samples_of (attr_of out2.1 0 "train_dataset").
Proof. vm_compute. repeat split; discriminate. Qed.

(** ** Resuming from a checkpoint *)

Lemma lookup_delete_delete (present : gmap string string) (p q : string) :
  delete q (delete p present) !! p = None ∧ delete q (delete p present) !! q = None.
Proof.
  split; [|apply lookup_delete_eq].
  destruct (decide (q = p)) as [->|Hne]; [apply lookup_delete_eq|].
  rewrite lookup_delete_ne by done. apply lookup_delete_eq.
Qed.

(** C9.  In resume mode [make_callbacks] returns; the run is fresh exactly
    when the checkpoint or the history file is missing; then both paths
    are cleared and the network keeps the weights it was built with; and
    when both files are there the network takes the content of the
    checkpoint, and the files stay. *)
Theorem make_callbacks_resume σ self (model_path model_name : string) (weights : option string) :
  attr_of σ self "model_path" = Some (VStr model_path) →
  attr_of σ self "model_name" = Some (VStr model_name) →
  attr_of σ self "train_fresh" = Some (VBool false) →
  attr_of σ self "model" = Some (VModel weights) →
  let trained := checkpoint_path model_path model_name in
  let csv := history_path model_path model_name in
  let missing := negb (bool_decide (is_Some (files σ !! trained)) &&
                       bool_decide (is_Some (files σ !! csv))) in
  let out := make_callbacks self σ in
  out.2 = Ok tt ∧
  attr_of out.1 self "train_fresh" = Some (VBool missing) ∧
  (missing = true →
     files out.1 !! trained = None ∧ files out.1 !! csv = None ∧
     attr_of out.1 self "model" = Some (VModel weights)) ∧
  (missing = false →
     files out.1 = files σ ∧
     ∃ content, files σ !! trained = Some content ∧
                attr_of out.1 self "model" = Some (VModel (Some content))).
Proof.
  intros Hpath Hname Hfresh Hmodel trained csv missing out.
  subst out missing trained csv.
  destruct (attr_of_object _ _ _ _ Hpath) as [attrs Hattrs].
  pose proof Hfresh as Hfresh'. pose proof Hmodel as Hmodel'.
  rewrite (attr_of_lookup _ _ _ _ Hattrs) in Hfresh'.
  rewrite (attr_of_lookup _ _ _ _ Hattrs) in Hmodel'.
  unfold make_callbacks, checkpoint_path, history_path.
  do 4 mstep. cbv zeta.
  generalize (os_path_join model_path ("trained_model_" +:+ model_name +:+ ".h5")).
  generalize (os_path_join model_path ("training_history_" +:+ model_name +:+ ".csv")).
  intros csv trained.
  do 2 mstep. cbn [negb]. mstep.
  destruct (files σ !! trained) as [content|] eqn:Htrained;
    destruct (files σ !! csv) as [log|] eqn:Hcsv;
    repeat first
      [ progress cbn [bool_decide decide_rel is_Some_dec negb andb]
      | rewrite Htrained | rewrite Hcsv | mstep
      | progress unfold load_weights ];
    mlast; cbn [fst snd files];
    (split; [done|]); (split; [solve_attr|]);
    (split; [try done|try done]).
  - intros _. split; [done|]. exists content. split; [done|solve_attr].
  - intros _. destruct (lookup_delete_delete (files σ) trained csv) as [? ?].
    repeat split; [done|done|solve_attr].
  - intros _. destruct (lookup_delete_delete (files σ) trained csv) as [? ?].
    repeat split; [done|done|solve_attr].
  - intros _. destruct (lookup_delete_delete (files σ) trained csv) as [? ?].
    repeat split; [done|done|solve_attr].
Qed.

(** The theorem on an output directory that holds both files. *)
Lemma make_callbacks_resume_witness :
  let σ := resume_state [("out/unet/trained_model_unet.h5", "saved weights");
                         ("out/unet/training_history_unet.csv", "epoch,loss")] in
  let trained := checkpoint_path "out/unet" "unet" in
  let csv := history_path "out/unet" "unet" in
  attr_of σ 0 "model_path" = Some (VStr "out/unet") ∧
  attr_of σ 0 "model_name" = Some (VStr "unet") ∧
  attr_of σ 0 "train_fresh" = Some (VBool false) ∧
  attr_of σ 0 "model" = Some (VModel None) ∧
  let missing := negb (bool_decide (is_Some (files σ !! trained)) &&
                       bool_decide (is_Some (files σ !! csv))) in
  let out := make_callbacks 0 σ in
  out.2 = Ok tt ∧
  attr_of out.1 0 "train_fresh" = Some (VBool missing) ∧
  (missing = true →
     files out.1 !! trained = None ∧ files out.1 !! csv = None ∧
     attr_of out.1 0 "model" = Some (VModel None)) ∧
  (missing = false →
     files out.1 = files σ ∧
     ∃ content, files σ !! trained = Some content ∧
                attr_of out.1 0 "model" = Some (VModel (Some content))).
Proof.
  intros σ trained csv.
  assert (H1 : attr_of σ 0 "model_path" = Some (VStr "out/unet")) by reflexivity.
  assert (H2 : attr_of σ 0 "model_name" = Some (VStr "unet")) by reflexivity.
  assert (H3 : attr_of σ 0 "train_fresh" = Some (VBool false)) by reflexivity.
  assert (H4 : attr_of σ 0 "model" = Some (VModel None)) by reflexivity.
  split; [exact H1|]. split; [exact H2|]. split; [exact H3|]. split; [exact H4|].
  exact (make_callbacks_resume σ 0 "out/unet" "unet" None H1 H2 H3 H4).
Defined.

(** With both files the weights are loaded; with the history file alone
    missing the stale checkpoint is removed and nothing is loaded. *)
Example resume_loads :
  let out := make_callbacks 0
               (resume_state [("out/unet/trained_model_unet.h5", "saved weights");
                              ("out/unet/training_history_unet.csv", "epoch,loss")]) in
  out.2 = Ok tt ∧ attr_of out.1 0 "train_fresh" = Some (VBool false) ∧
  attr_of out.1 0 "model" = Some (VModel (Some "saved weights")).
Proof. vm_compute. done. Qed.

Example resume_without_history :
  let out := make_callbacks 0
               (resume_state [("out/unet/trained_model_unet.h5", "saved weights")]) in
  out.2 = Ok tt ∧ attr_of out.1 0 "train_fresh" = Some (VBool true) ∧
  attr_of out.1 0 "model" = Some (VModel None) ∧
  files out.1 !! "out/unet/trained_model_unet.h5" = None.
Proof. vm_compute. done. Qed.

(** ** Debug mode *)



(** In [__init__] the defaults are set before debug mode is entered, so
    the single epoch stands; a pipeline shorter than 16 batches is kept
    whole, and the validation data held before is gone. *)
Example debug_after_defaults :
  let out := (set_default_optimization_params 1 ;; set_run_debug 1) (debug_state 3) in
  out.2 = Ok tt ∧
  attr_of out.1 1 "num_epochs" = Some (VInt 1) ∧
  attr_of out.1 0 "valid_dataset" = Some (VTfData (replicate 3 [("x.png", "y.png")])).
Proof. vm_compute. done. Qed.

(** A Keras iterator, the pipeline of a label dataset, has no [take]. *)
Example debug_on_iterator :
  (set_run_debug 1
     (mkState {[ 0 := {[ "train_dataset" := VIterator [] ]};
                 1 := {[ "dataset" := VRef 0 ]} ]} ∅ 0%N 0)).2
    = Raise (AttributeError "take").
Proof. vm_compute. done. Qed.

(** ** Escaping local minima *)

Lemma Qgtb_zero_zero : Qgtb 0 0 = false.
Proof. reflexivity. Qed.

(** The comparison value of [pick_best_model] stays at its initial 0, so
    its loop ends on the last record with a positive metric. *)
Lemma pick_loop_from (backup_models : dict BackupRecord) (found : string) :
  foldl pick_step (0%Q, found) backup_models
  = (0%Q, foldl (λ found entry, if Qgtb (rec_metric entry.2) 0 then entry.1 else found)
                found backup_models).
Proof.
  revert found. induction backup_models as [|entry rest IH]; intros found; [done|].
  cbn [foldl]. unfold pick_step at 2. rewrite Qgtb_zero_zero.
  destruct (Qgtb (rec_metric entry.2) 0); apply IH.
Qed.

Lemma pick_loop_last_positive (backup_models : dict BackupRecord) :
  pick_loop backup_models = (0%Q, last_positive backup_models).
Proof. apply pick_loop_from. Qed.

(** C1 (the code departs from the claim).  After a first run ending at
    0.5 and two attempts ending at 0.9 and 0.7, three records are
    collected and the highest metric is that of [jump_iter1]; the files
    copied over the checkpoint and the history are those of [jump_iter2],
    the last record with a positive metric. *)
Theorem escape_restores_last_positive :
  let ckpt := "out/unet/trained_model_unet.h5" in
  let csv := "out/unet/training_history_unet.csv" in
  let records :=
    [("jump_iter0", mkBackup ckpt csv (500 # 1000));
     ("jump_iter1", mkBackup "out/unet/trained_model_unet_backup1.h5"
                             "out/unet/training_history_unet_backup1.csv" (900 # 1000));
     ("jump_iter2", mkBackup "out/unet/trained_model_unet_backup2.h5"
                             "out/unet/training_history_unet_backup2.csv" (700 # 1000))] in
  (collect_backups escape_env 0 2 escape_state).2 = Ok records ∧
  highest_metric records "jump_iter1" ∧
  (pick_loop records).2 = "jump_iter2" ∧
  let out := try_bypass_local_minimum escape_env 0 2 escape_state in
  out.2 = Ok tt ∧
  files out.1 !! ckpt = files out.1 !! "out/unet/trained_model_unet_backup2.h5" ∧
  files out.1 !! csv = files out.1 !! "out/unet/training_history_unet_backup2.csv" ∧
  files out.1 !! ckpt ≠ files out.1 !! "out/unet/trained_model_unet_backup1.h5" ∧
  files out.1 !! csv ≠ files out.1 !! "out/unet/training_history_unet_backup1.csv".
Proof.
  intros ckpt csv records.
  split; [vm_compute; reflexivity|].
  split.
  { eexists. split; [reflexivity|]. repeat constructor; by vm_compute. }
  split; [vm_compute; reflexivity|].
  vm_compute. repeat split; discriminate.
Qed.

(** ** The resolver, the model type and the import statement *)

Lemma catalog_kind (base : string) :
  base ∈ dict_keys valid_model_names_all →
  dict_get valid_model_names_all base
    = Some (if String.eqb base "unet" then "segm" else "class").
Proof.
  intros Hin. vm_compute in Hin.
  repeat (apply elem_of_cons in Hin as [->|Hin]; [reflexivity|]).
  by apply not_elem_of_nil in Hin.
Qed.

(** X1. Whenever the resolver returns on the catalog of the module, the
    base name it stored is a catalog key, the complexity token it stored has
    at most 12 characters, and [set_model_type], which [__init__] runs
    next, returns too and stores [segm] for [unet] and [class] for every
    other base. *)
Theorem resolve_then_type σ self (name : string) :
  attr_of σ self "model_name" = Some (VStr name) →
  let out := get_complexity_from_model_name valid_model_names_all self σ in
  out.2 = Ok tt →
  ∃ base complexity,
    attr_of out.1 self "model_name_base" = Some (VStr base) ∧
    base ∈ dict_keys valid_model_names_all ∧
    attr_of out.1 self "model_complexity" = Some (VStr complexity) ∧
    String.length complexity ≤ 12 ∧
    let typed := set_model_type valid_model_names_all self out.1 in
    typed.2 = Ok tt ∧
    attr_of typed.1 self "model_type"
      = Some (VStr (if String.eqb base "unet" then "segm" else "class")).
Proof.
  intros Hname out. subst out.
  destruct (attr_of_object _ _ _ _ Hname) as [attrs Hattrs].
  unfold get_complexity_from_model_name.
  do 2 mstep.
  set (matches := List.filter _ _).
  assert (Hsub : ∀ k, k ∈ matches → k ∈ dict_keys valid_model_names_all).
  { intros k Hk. by apply elem_of_filter_bool in Hk as [Hk _]. }
  destruct matches as [|m0 ms] eqn:Hm; [done|].
  destruct (max_key_len_spec (m0 :: ms)) as (base & Hmax & Hin & _); [done|].
  rewrite Hmax. do 2 mstep.
  destruct (PyStr.split name base) as [pieces|]; [|mstep; intros [=]].
  mstep.
  unfold index_m1.
  destruct (last pieces) as [token|] eqn:Hlast; [|mstep; intros [=]].
  do 10 mstep.
  set (complexity := PyStr.replace _ "large" "Large").
  destruct (12 <? String.length complexity) eqn:Hlen; [intros [=]|].
  intros _. exists base, complexity.
  apply Nat.ltb_ge in Hlen. specialize (Hsub base Hin).
  split; [cbn [fst mret M_ret]; solve_attr|].
  split; [done|].
  split; [cbn [fst mret M_ret]; solve_attr|].
  split; [done|].
  cbn [fst mret M_ret]. unfold set_model_type.
  do 2 mstep. rewrite (catalog_kind base Hsub).
  destruct (String.eqb base "unet"); cbn [String.eqb Ascii.eqb Bool.eqb];
    mlast; (split; [done|solve_attr]).
Qed.

(** The theorem for the request [efficientnetb2]. *)
Lemma resolve_then_type_witness :
  let σ := resolver_state "efficientnetb2" in
  let out := get_complexity_from_model_name valid_model_names_all 0 σ in
  attr_of σ 0 "model_name" = Some (VStr "efficientnetb2") ∧
  out.2 = Ok tt ∧
  ∃ base complexity,
    attr_of out.1 0 "model_name_base" = Some (VStr base) ∧
    base ∈ dict_keys valid_model_names_all ∧
    attr_of out.1 0 "model_complexity" = Some (VStr complexity) ∧
    String.length complexity ≤ 12 ∧
    let typed := set_model_type valid_model_names_all 0 out.1 in
    typed.2 = Ok tt ∧
    attr_of typed.1 0 "model_type"
      = Some (VStr (if String.eqb base "unet" then "segm" else "class")).
Proof.
  assert (H1 : attr_of (resolver_state "efficientnetb2") 0 "model_name"
               = Some (VStr "efficientnetb2")) by reflexivity.
  assert (H2 : (get_complexity_from_model_name valid_model_names_all 0
                  (resolver_state "efficientnetb2")).2 = Ok tt) by reflexivity.
  split; [exact H1|]. split; [exact H2|].
  exact (resolve_then_type (resolver_state "efficientnetb2") 0 "efficientnetb2" H1 H2).
Defined.


Lemma str_app_not_empty_r (a b : string) : b ≠ EmptyString → a +:+ b ≠ EmptyString.
Proof. destruct a; [done|]. by rewrite str_app_cons. Qed.

Lemma str_app_not_empty_l (a b : string) : a ≠ EmptyString → a +:+ b ≠ EmptyString.
Proof. destruct a; [done|]. by rewrite str_app_cons. Qed.

Lemma os_path_join_not_empty (a b : string) : b ≠ EmptyString → os_path_join a b ≠ EmptyString.
Proof.
  intros Hb. unfold os_path_join.
  destruct (PyStr.startswith b "/"); [done|].
  destruct (_ || _); [by apply str_app_not_empty_r|].
  apply str_app_not_empty_r. by apply str_app_not_empty_l.
Qed.

(** The conditions on closed strings, evaluated. *)
Ltac eval_bool t :=
  let v := eval vm_compute in t in
  match v with
  | true => change t with true
  | false => change t with false
  end.

Ltac eval_conditions :=
  repeat match goal with
    | |- context [PyStr.startswith ?a ?b] => eval_bool (PyStr.startswith a b)
    | |- context [PyStr.contains ?a ?b] => eval_bool (PyStr.contains a b)
    | |- context [String.eqb ?a ?b] => eval_bool (String.eqb a b)
    | |- context [dict_get valid_models_builtin ?b] =>
        let v := eval vm_compute in (dict_get valid_models_builtin b) in
        match v with
        | Some _ => change (dict_get valid_models_builtin b) with v
        | None => change (dict_get valid_models_builtin b) with v
        end
    end.

(** X2. For every state the resolver can leave on the catalog of the
    module (a base name that is a catalog key and a prefix of the model
    name), [make_import_statement] fails in one way only: when the base is
    one of those that need a size and the complexity token is empty, with
    the must-specify-complexity error.  Otherwise it returns a module and a
    symbol, neither empty: the errors on a failed split and on a failed
    import statement cannot occur. *)
Theorem import_statement_for_resolved (top : string) σ self (name base complexity : string) :
  attr_of σ self "model_name" = Some (VStr name) →
  attr_of σ self "model_name_base" = Some (VStr base) →
  attr_of σ self "model_complexity" = Some (VStr complexity) →
  base ∈ dict_keys valid_model_names_all →
  PyStr.startswith name base = true →
  let out := make_import_statement top self σ in
  if needs_size base && String.eqb complexity EmptyString
  then ∃ method_name, out.2 = Raise (ValueError (must_specify_msg method_name))
  else ∃ import_statement method_name,
         out.2 = Ok (import_statement, method_name) ∧
         import_statement ≠ EmptyString ∧ method_name ≠ EmptyString.
Proof.
  intros Hname Hbase Hcomplexity Hin Hprefix out. subst out.
  destruct (attr_of_object _ _ _ _ Hname) as [attrs Hattrs].
  vm_compute in Hin.
  unfold make_import_statement.
  do 4 mstep.
  repeat (apply elem_of_cons in Hin as [->|Hin]); [..|by apply not_elem_of_nil in Hin].
  all: try (change (needs_size _) with true); try (change (needs_size _) with false).
  all: cbn [andb].
  15: { rewrite Hprefix. eval_conditions. unfold make_path_to_custom_models.
        do 3 mstep.
        set (path := os_path_join _ (name +:+ "_model.py")).
        assert (Hpath : path ≠ EmptyString)
          by (by apply os_path_join_not_empty, str_app_not_empty_r).
        apply String.eqb_neq in Hpath as Heqb. mstep. rewrite Heqb. eval_conditions.
        cbn [orb]. by eexists _, _. }
  all: unfold make_import_statement_builtin, append_version, check_model_complexity_spec.
  all: destruct complexity as [|c s]; cbn [String.eqb].
  all: repeat first [mstep | progress eval_conditions].
  all: try (eexists; reflexivity).
  all: try (eexists _, _; split; [reflexivity|split; done]).
Qed.

(** The theorem for [resnet_v2] with the size [50]. *)
Lemma import_statement_for_resolved_witness :
  let σ := resolved_state "resnet_v250" "resnet_v2" "50" in
  attr_of σ 0 "model_name" = Some (VStr "resnet_v250") ∧
  attr_of σ 0 "model_name_base" = Some (VStr "resnet_v2") ∧
  attr_of σ 0 "model_complexity" = Some (VStr "50") ∧
  "resnet_v2" ∈ dict_keys valid_model_names_all ∧
  PyStr.startswith "resnet_v250" "resnet_v2" = true ∧
  ∃ import_statement method_name,
    (make_import_statement "/opt/sandbox" 0 σ).2 = Ok (import_statement, method_name) ∧
    import_statement ≠ EmptyString ∧ method_name ≠ EmptyString.
Proof.
  set (σ := resolved_state "resnet_v250" "resnet_v2" "50").
  assert (H1 : attr_of σ 0 "model_name" = Some (VStr "resnet_v250")) by reflexivity.
  assert (H2 : attr_of σ 0 "model_name_base" = Some (VStr "resnet_v2")) by reflexivity.
  assert (H3 : attr_of σ 0 "model_complexity" = Some (VStr "50")) by reflexivity.
  assert (H4 : "resnet_v2" ∈ dict_keys valid_model_names_all)
    by (vm_compute; repeat constructor).
  assert (H5 : PyStr.startswith "resnet_v250" "resnet_v2" = true) by reflexivity.
  do 5 (split; [assumption|]).
  exact (import_statement_for_resolved "/opt/sandbox" σ 0 _ _ _ H1 H2 H3 H4 H5).
Defined.

(** From the stored name to the import statement: the version follows the
    size for the residual networks and precedes it elsewhere; a size is
    appended to the fixed symbols of the inception family as well. *)
Example import_resnet_v2 :
  (resolve_and_import "resnet_v250").2
    = Ok ("tensorflow.keras.applications.resnet_v2", "ResNet50V2").
Proof. reflexivity. Qed.

Example import_efficientnet :
  (resolve_and_import "efficientnet_v2b0").2
    = Ok ("tensorflow.keras.applications.efficientnet_v2", "EfficientNetV2B0").
Proof. reflexivity. Qed.

Example import_mobilenet :
  (resolve_and_import "mobilenet_v3small").2
    = Ok ("tensorflow.keras.applications", "MobileNetV3Small").
Proof. reflexivity. Qed.

Example import_inception :
  (resolve_and_import "inceptionv3").2
    = Ok ("tensorflow.keras.applications.inception_v3", "InceptionV3v3").
Proof. reflexivity. Qed.

Example import_unet :
  (resolve_and_import "unet").2
    = Ok ("/opt/sandbox/common_models/unet/unet_model.py", "build_unet").
Proof. reflexivity. Qed.

Example import_without_size :
  (resolve_and_import "resnet").2 = Raise (ValueError (must_specify_msg "ResNet")).
Proof. reflexivity. Qed.

(** ** The optimization settings *)

Lemma dict_get_is_Some {V} (d : dict V) (k : string) :
  k ∈ dict_keys d → is_Some (dict_get d k).
Proof.
  unfold dict_keys. induction d as [|[k' v'] d IH]; simpl.
  - intros Hin. by apply not_elem_of_nil in Hin.
  - intros Hin. destruct (String.eqb k' k) eqn:Heq; [eauto|].
    apply String.eqb_neq in Heq.
    apply elem_of_cons in Hin as [->|Hin]; [done|]. by apply IH.
Qed.

(** The loop of [set_optimization_params] over some of the keys. *)
Lemma set_optimization_params_loop self (opt_params : dict pyval) (keys : list string) σ :
  is_Some (heap σ !! self) →
  (∀ k, k ∈ keys → is_Some (dict_get opt_params k)) →
  let out :=
    for_each keys (λ key,
      if bool_decide (key ∈ valid_opt_params) then
        value ← from_option (KeyError key) (dict_get opt_params key);
        setattr self key value
      else mret tt) σ in
  out.2 = Ok tt ∧
  files out.1 = files σ ∧
  (∀ a, a ∈ valid_opt_params → a ∈ keys → attr_of out.1 self a = dict_get opt_params a) ∧
  (∀ o a, o ≠ self ∨ a ∉ valid_opt_params ∨ a ∉ keys → attr_of out.1 o a = attr_of σ o a).
Proof.
  revert σ. induction keys as [|k keys IH]; intros σ [attrs Hattrs] Hkeys.
  - simpl. split; [done|]. split; [done|]. split; [|done].
    intros a _ Hin. by apply not_elem_of_nil in Hin.
  - cbn [for_each]. rewrite bind_unfold.
    assert (Hrest : ∀ k', k' ∈ keys → is_Some (dict_get opt_params k'))
      by (intros k' Hk'; apply Hkeys; by right).
    destruct (bool_decide (k ∈ valid_opt_params)) eqn:Hvalid.
    + apply bool_decide_eq_true in Hvalid.
      destruct (Hkeys k) as [v Hv]; [by left|]. rewrite Hv.
      cbn [from_option].
      change ((mret v ≫= λ value, setattr self k value) σ) with (setattr self k v σ).
      rewrite (setattr_ok _ _ _ _ _ Hattrs).
      set (σ1 := with_heap _ σ).
      destruct (IH σ1) as (Hok & Hfiles & Hset & Hkeep); [by eexists; apply lookup_insert_eq|done|].
      split; [done|]. split; [done|]. split.
      * intros a Ha Hin.
        destruct (decide (a ∈ keys)) as [Hin'|Hout]; [by apply Hset|].
        apply elem_of_cons in Hin as [->|Hin]; [|done].
        rewrite Hkeep by (right; by right). subst σ1.
        by rewrite attr_of_with_heap_eq.
      * intros o a Hcase. rewrite Hkeep.
        2:{ destruct Hcase as [?|[?|Hout]]; [by left|right; by left|].
            right; right. intros Hin. apply Hout. by right. }
        subst σ1. unfold attr_of. cbn [heap with_heap].
        destruct (decide (o = self)) as [->|Hne]; [|by rewrite lookup_insert_ne].
        rewrite lookup_insert_eq, Hattrs. cbn [mbind option_bind].
        rewrite lookup_insert_ne; [done|].
        intros ->. destruct Hcase as [?|[?|Hout]]; [done|done|]. apply Hout. by left.
    + apply bool_decide_eq_false in Hvalid.
      change ((mret tt : M unit) σ) with (σ, Ok tt). cbv beta iota.
      destruct (IH σ) as (Hok & Hfiles & Hset & Hkeep); [by eexists|done|].
      split; [done|]. split; [done|]. split.
      * intros a Ha Hin. apply Hset; [done|].
        apply elem_of_cons in Hin as [->|Hin]; done.
      * intros o a Hcase. apply Hkeep.
        destruct Hcase as [?|[?|Hout]]; [by left|right; by left|].
        right; right. intros Hin. apply Hout. by right.
Qed.

(** X3. [set_optimization_params] never raises on an orchestrator: of the
    settings given it stores [learning_rate] and [num_epochs] under these
    two names, each with the value given for it, and leaves every other
    attribute of every object, and the files, as they were; a key that is
    not recognized creates no attribute. *)
Theorem set_optimization_params_sets σ self (opt_params : dict pyval) :
  is_Some (heap σ !! self) →
  let out := set_optimization_params self opt_params σ in
  out.2 = Ok tt ∧
  files out.1 = files σ ∧
  (∀ a, a ∈ valid_opt_params →
        attr_of out.1 self a
        = match dict_get opt_params a with Some v => Some v | None => attr_of σ self a end) ∧
  (∀ o a, o ≠ self ∨ a ∉ valid_opt_params → attr_of out.1 o a = attr_of σ o a).
Proof.
  intros Hself out. subst out. unfold set_optimization_params.
  destruct (set_optimization_params_loop self opt_params (dict_keys opt_params) σ Hself)
    as (Hok & Hfiles & Hset & Hkeep); [by intros k; apply dict_get_is_Some|].
  split; [done|]. split; [done|]. split.
  - intros a Ha. destruct (decide (a ∈ dict_keys opt_params)) as [Hin|Hout].
    + rewrite Hset by done. by destruct (dict_get_is_Some opt_params a Hin) as [v ->].
    + rewrite Hkeep by (right; by right).
      destruct (dict_get opt_params a) as [v|] eqn:Hget; [|done].
      exfalso. apply Hout. clear -Hget. unfold dict_keys.
      induction opt_params as [|[k' v'] d IH]; [done|]. simpl in *.
      destruct (String.eqb k' a) eqn:Heq; [apply String.eqb_eq in Heq as ->; by left|].
      right. by apply IH.
  - intros o a Hcase. apply Hkeep. destruct Hcase; [by left|right; by left].
Qed.

(** The theorem for an orchestrator given a learning rate, a number of
    epochs and a batch size. *)
Lemma set_optimization_params_sets_witness :
  let σ := debug_state 3 in
  let opt_params := [("learning_rate", VFloat (1 # 100)); ("num_epochs", VInt 5);
                     ("batch_size", VInt 8)] in
  let out := set_optimization_params 1 opt_params σ in
  is_Some (heap σ !! 1) ∧
  out.2 = Ok tt ∧
  files out.1 = files σ ∧
  (∀ a, a ∈ valid_opt_params →
        attr_of out.1 1 a
        = match dict_get opt_params a with Some v => Some v | None => attr_of σ 1 a end) ∧
  (∀ o a, o ≠ 1 ∨ a ∉ valid_opt_params → attr_of out.1 o a = attr_of σ o a).
Proof.
  assert (H1 : is_Some (heap (debug_state 3) !! 1)) by (by eexists).
  split; [exact H1|].
  exact (set_optimization_params_sets (debug_state 3) 1
           [("learning_rate", VFloat (1 # 100)); ("num_epochs", VInt 5);
            ("batch_size", VInt 8)] H1).
Defined.

(** X4. The learning rate given to [set_optimization_params] never reaches
    the optimizer: the setting is stored as [learning_rate], and
    [set_optimizer] builds the optimizer at [learning_rate_base], which no
    setting changes. *)
Theorem learning_rate_setting_unused σ self (opt_params : dict pyval) (rate : pyval) :
  attr_of σ self "learning_rate_base" = Some rate →
  let out := (set_optimization_params self opt_params ;; set_optimizer self) σ in
  out.2 = Ok tt ∧
  attr_of out.1 self "optimizer" = Some rate ∧
  attr_of out.1 self "learning_rate_base" = Some rate.
Proof.
  intros Hrate out. subst out.
  destruct (attr_of_object _ _ _ _ Hrate) as [attrs Hattrs].
  destruct (set_optimization_params_loop self opt_params (dict_keys opt_params) σ)
    as (Hok & _ & _ & Hkeep); [by eexists|by intros k; apply dict_get_is_Some|].
  fold (set_optimization_params self opt_params) in Hok, Hkeep.
  rewrite bind_unfold.
  destruct (set_optimization_params self opt_params σ) as [σ1 r] eqn:Hrun.
  cbn [fst snd] in *. subst r.
  assert (Hrate1 : attr_of σ1 self "learning_rate_base" = Some rate).
  { rewrite Hkeep; [done|]. right; left. unfold valid_opt_params.
    intros Hin. repeat (apply elem_of_cons in Hin as [?|Hin]; [done|]).
    by apply not_elem_of_nil in Hin. }
  destruct (attr_of_object _ _ _ _ Hrate1) as [attrs1 Hattrs1].
  unfold set_optimizer. mstep. mlast.
  rewrite (attr_of_lookup _ _ _ _ Hattrs1) in Hrate1.
  split; [done|]. split; solve_attr.
Qed.

(** The theorem for an orchestrator at the default rate that is given the
    rate 0.01. *)
Lemma learning_rate_setting_unused_witness :
  let σ := debug_state 3 in
  let out := (set_optimization_params 1 [("learning_rate", VFloat (1 # 100))] ;;
              set_optimizer 1) σ in
  attr_of σ 1 "learning_rate_base" = Some (VFloat (1 # 1000)) ∧
  out.2 = Ok tt ∧
  attr_of out.1 1 "optimizer" = Some (VFloat (1 # 1000)) ∧
  attr_of out.1 1 "learning_rate_base" = Some (VFloat (1 # 1000)).
Proof.
  assert (H1 : attr_of (debug_state 3) 1 "learning_rate_base" = Some (VFloat (1 # 1000)))
    by reflexivity.
  split; [exact H1|].
  exact (learning_rate_setting_unused (debug_state 3) 1
           [("learning_rate", VFloat (1 # 100))] (VFloat (1 # 1000)) H1).
Defined.

(** ** What [make_callbacks] does to the files *)

Lemma preserves_as_bool P v : preserves P (as_bool v).
Proof. destruct v; by intros σ HP. Qed.

(** Assignments leave the files. *)
Lemma preserves_setattr_files (Q : gmap string string → Prop) o a v :
  preserves (λ σ, Q (files σ)) (setattr o a v).
Proof. intros σ HQ. unfold setattr. by destruct (heap σ !! o). Qed.

Lemma only_removed_delete removable before path :
  path ∈ removable →
  preserves (λ σ, only_removed removable before (files σ)) (delete_file path).
Proof.
  intros Hin σ HQ p. unfold delete_file. cbn [fst files with_files].
  destruct (decide (p = path)) as [->|Hne].
  - right. split; [done|]. apply lookup_delete_eq.
  - rewrite lookup_delete_ne by done. apply HQ.
Qed.

(** X5. [make_callbacks] writes no file and removes none but the
    checkpoint and the history file of the run: in every state, whatever
    the mode and whether it returns or raises, each path either holds what
    it held or is one of these two and is absent. *)
Theorem make_callbacks_only_removes σ self (model_path model_name : string) :
  attr_of σ self "model_path" = Some (VStr model_path) →
  attr_of σ self "model_name" = Some (VStr model_name) →
  let out := make_callbacks self σ in
  ∀ p, files out.1 !! p = files σ !! p ∨
       (p ∈ [checkpoint_path model_path model_name; history_path model_path model_name] ∧
        files out.1 !! p = None).
Proof.
  intros Hpath Hname out. subst out.
  destruct (attr_of_object _ _ _ _ Hpath) as [attrs Hattrs].
  unfold make_callbacks, checkpoint_path, history_path.
  do 4 mstep. cbv zeta.
  generalize (os_path_join model_path ("trained_model_" +:+ model_name +:+ ".h5")).
  generalize (os_path_join model_path ("training_history_" +:+ model_name +:+ ".csv")).
  intros csv trained.
  match goal with |- ∀ p, files (?m σ).1 !! p = _ ∨ _ =>
    enough (Hinv : preserves (λ σ', only_removed [trained; csv] (files σ) (files σ')) m)
      by (apply (Hinv σ); intros p; by left)
  end.
  unfold load_weights.
  repeat first
    [ apply preserves_as_bool
    | apply (preserves_setattr_files (only_removed [trained; csv] (files σ)))
    | apply only_removed_delete; [set_solver]
    | method_inv_step ].
Qed.

(** The theorem for an orchestrator in resume mode whose history file is
    missing. *)
Lemma make_callbacks_only_removes_witness :
  let σ := resume_state [("out/unet/trained_model_unet.h5", "saved weights");
                         ("notes.txt", "kept")] in
  attr_of σ 0 "model_path" = Some (VStr "out/unet") ∧
  attr_of σ 0 "model_name" = Some (VStr "unet") ∧
  ∀ p, files (make_callbacks 0 σ).1 !! p = files σ !! p ∨
       (p ∈ [checkpoint_path "out/unet" "unet"; history_path "out/unet" "unet"] ∧
        files (make_callbacks 0 σ).1 !! p = None).
Proof.
  set (σ := resume_state _).
  assert (H1 : attr_of σ 0 "model_path" = Some (VStr "out/unet")) by reflexivity.
  assert (H2 : attr_of σ 0 "model_name" = Some (VStr "unet")) by reflexivity.
  split; [exact H1|]. split; [exact H2|].
  exact (make_callbacks_only_removes σ 0 "out/unet" "unet" H1 H2).
Defined.

(** X6. In fresh mode [make_callbacks] returns without looking at the
    files: the checkpoint and the history file are removed if they are
    there, no weights are loaded (the network is not even read), the mode
    stays fresh, and the two paths are stored for the run. *)
Theorem make_callbacks_fresh σ self (model_path model_name : string) :
  attr_of σ self "model_path" = Some (VStr model_path) →
  attr_of σ self "model_name" = Some (VStr model_name) →
  attr_of σ self "train_fresh" = Some (VBool true) →
  let trained := checkpoint_path model_path model_name in
  let csv := history_path model_path model_name in
  let out := make_callbacks self σ in
  out.2 = Ok tt ∧
  files out.1 = delete csv (delete trained (files σ)) ∧
  attr_of out.1 self "train_fresh" = Some (VBool true) ∧
  attr_of out.1 self "model" = attr_of σ self "model" ∧
  attr_of out.1 self "trained_model_file" = Some (VStr trained) ∧
  attr_of out.1 self "history_file" = Some (VStr csv).
Proof.
  intros Hpath Hname Hfresh trained csv out. subst out trained csv.
  destruct (attr_of_object _ _ _ _ Hpath) as [attrs Hattrs].
  pose proof Hfresh as Hfresh'.
  rewrite (attr_of_lookup _ _ _ _ Hattrs) in Hfresh'.
  rewrite (attr_of_lookup σ self "model" attrs Hattrs).
  unfold make_callbacks, checkpoint_path, history_path.
  do 4 mstep. cbv zeta.
  generalize (os_path_join model_path ("trained_model_" +:+ model_name +:+ ".h5")).
  generalize (os_path_join model_path ("training_history_" +:+ model_name +:+ ".csv")).
  intros csv trained.
  do 2 mstep. cbn [negb]. repeat mstep. mlast. cbn [fst snd files].
  split; [done|]. split; [done|]. repeat split; solve_attr.
Qed.

(** The theorem for a fresh run over a directory that holds the files of
    an earlier run. *)
Lemma make_callbacks_fresh_witness :
  let σ := fresh_run_state in
  let trained := checkpoint_path "out/unet" "unet" in
  let csv := history_path "out/unet" "unet" in
  let out := make_callbacks 0 σ in
  attr_of σ 0 "model_path" = Some (VStr "out/unet") ∧
  attr_of σ 0 "model_name" = Some (VStr "unet") ∧
  attr_of σ 0 "train_fresh" = Some (VBool true) ∧
  out.2 = Ok tt ∧
  files out.1 = delete csv (delete trained (files σ)) ∧
  attr_of out.1 0 "train_fresh" = Some (VBool true) ∧
  attr_of out.1 0 "model" = attr_of σ 0 "model" ∧
  attr_of out.1 0 "trained_model_file" = Some (VStr trained) ∧
  attr_of out.1 0 "history_file" = Some (VStr csv).
Proof.
  assert (H1 : attr_of fresh_run_state 0 "model_path" = Some (VStr "out/unet"))
    by reflexivity.
  assert (H2 : attr_of fresh_run_state 0 "model_name" = Some (VStr "unet")) by reflexivity.
  assert (H3 : attr_of fresh_run_state 0 "train_fresh" = Some (VBool true)) by reflexivity.
  split; [exact H1|]. split; [exact H2|]. split; [exact H3|].
  exact (make_callbacks_fresh fresh_run_state 0 "out/unet" "unet" H1 H2 H3).
Defined.

(** ** Backup files *)



Lemma prefix_cons (c d : ascii) (p s : string) :
  String.prefix (String c p) (String d s) = true → c = d ∧ String.prefix p s = true.
Proof. simpl. by destruct (ascii_dec c d). Qed.

Lemma prefix_cons_same (c : ascii) (p s : string) :
  String.prefix (String c p) (String c s) = String.prefix p s.
Proof. simpl. by destruct (ascii_dec c c). Qed.

Lemma prefix_nil (s : string) : String.prefix EmptyString s = true.
Proof. by destruct s. Qed.

(** A text without a dot holds nothing that starts with one. *)
Lemma contains_dot_first (e s : string) :
  PyStr.contains "." s = false → PyStr.contains (String "." e) s = false.
Proof.
  induction s as [|c s IH]; [done|]. cbn [PyStr.contains].
  intros Hc. apply orb_false_iff in Hc as [Hp Hc]. rewrite (IH Hc), orb_false_r.
  destruct (String.prefix (String "." e) (String c s)) eqn:Hpre; [|done].
  apply prefix_cons in Hpre as [<- _]. by rewrite prefix_cons_same, prefix_nil in Hp.
Qed.






(** X8. A path without a dot has no extension to split at: for such a
    file [make_backup_file] raises [IndexError], in every state, and copies
    nothing. *)
Theorem make_backup_file_without_dot σ (filename : string) (i : nat) :
  PyStr.contains "." filename = false →
  make_backup_file filename i σ = (σ, Raise IndexError).
Proof.
  intros Hdot. unfold make_backup_file.
  change (PyStr.split filename ".") with (Some (PyStr.split_scan "." 0 EmptyString filename)).
  rewrite split_scan_no_occurrence by done. mstep. mstep. cbv zeta.
  change ("." +:+ (EmptyString +:+ filename)) with (String "." filename).
  change (PyStr.split filename (String "." filename))
    with (Some (PyStr.split_scan (String "." filename) 0 EmptyString filename)).
  rewrite split_scan_no_occurrence by (done || by apply contains_dot_first).
  by mstep.
Qed.

(** The theorem for a checkpoint saved without an extension. *)
Lemma make_backup_file_without_dot_witness :
  PyStr.contains "." "out/unet/checkpoint" = false ∧
  make_backup_file "out/unet/checkpoint" 1 fresh_run_state
    = (fresh_run_state, Raise IndexError).
Proof.
  assert (H1 : PyStr.contains "." "out/unet/checkpoint" = false) by reflexivity.
  split; [exact H1|].
  exact (make_backup_file_without_dot fresh_run_state "out/unet/checkpoint" 1 H1).
Defined.

(** ** Choosing among the backups *)

Lemma Qgtb_positive (a : Q) : (0 < a)%Q → Qgtb a 0 = true.
Proof.
  intros Ha. unfold Qgtb. destruct (Qle_bool a 0) eqn:Hle; [|done].
  apply Qle_bool_iff in Hle. exfalso. by apply (Qlt_not_le 0 a).
Qed.

Lemma Qgtb_not_positive (a : Q) : (a <= 0)%Q → Qgtb a 0 = false.
Proof. intros Ha. unfold Qgtb. apply Qle_bool_iff in Ha. by rewrite Ha. Qed.

Lemma last_positive_keeps (found : string) (records : dict BackupRecord) :
  Forall (λ entry, (rec_metric entry.2 <= 0)%Q) records →
  foldl (λ found entry, if Qgtb (rec_metric entry.2) 0 then entry.1 else found)
        found records = found.
Proof.
  revert found. induction records as [|entry records IH]; intros found Hall; [done|].
  apply Forall_cons in Hall as [Hentry Hall]. cbn [foldl].
  rewrite (Qgtb_not_positive _ Hentry). by apply IH.
Qed.

Lemma last_positive_found (before after : dict BackupRecord) (key : string) (r : BackupRecord) :
  (0 < rec_metric r)%Q →
  Forall (λ entry, (rec_metric entry.2 <= 0)%Q) after →
  last_positive (before ++ (key, r) :: after) = key.
Proof.
  intros Hr Hafter. unfold last_positive. rewrite foldl_app. cbn [foldl fst snd].
  rewrite (Qgtb_positive _ Hr). by apply last_positive_keeps.
Qed.

Lemma dict_get_first {V} (before after : dict V) (key : string) (v : V) :
  key ∉ dict_keys before → dict_get (before ++ (key, v) :: after) key = Some v.
Proof.
  unfold dict_keys. induction before as [|[k' v'] before IH]; intros Hout; simpl.
  - by rewrite String.eqb_refl.
  - apply not_elem_of_cons in Hout as [Hne Hout].
    assert (Heqb : String.eqb k' key = false) by (by apply String.eqb_neq, not_eq_sym).
    rewrite Heqb. by apply IH.
Qed.

(** X9. When no record has a positive metric, [pick_best_model] keeps the
    files of the last run: it returns and changes nothing. *)
Theorem pick_best_model_none_positive σ self (backup_models : dict BackupRecord) :
  Forall (λ entry, (rec_metric entry.2 <= 0)%Q) backup_models →
  pick_best_model self backup_models σ = (σ, Ok tt).
Proof.
  intros Hall. unfold pick_best_model. rewrite pick_loop_last_positive. cbn [snd].
  unfold last_positive. by rewrite last_positive_keeps.
Qed.

(** The theorem for two runs that both ended at a dice coefficient of 0. *)
Lemma pick_best_model_none_positive_witness :
  let records := [("jump_iter0", mkBackup "m.h5" "h.csv" 0);
                  ("jump_iter1", mkBackup "m_backup1.h5" "h_backup1.csv" 0)] in
  Forall (λ entry, (rec_metric entry.2 <= 0)%Q) records ∧
  pick_best_model 0 records fresh_run_state = (fresh_run_state, Ok tt).
Proof.
  assert (H1 : Forall (λ entry : string * BackupRecord, (rec_metric entry.2 <= 0)%Q)
                 [("jump_iter0", mkBackup "m.h5" "h.csv" 0);
                  ("jump_iter1", mkBackup "m_backup1.h5" "h_backup1.csv" 0)])
    by (repeat constructor; by vm_compute).
  split; [exact H1|].
  exact (pick_best_model_none_positive fresh_run_state 0 _ H1).
Defined.

(** X10. [pick_best_model] restores the last record whose metric is
    positive, whatever the metrics of the records before it: its model file
    is copied over the checkpoint and its history file over the history of
    the run, and nothing else changes. *)
Theorem pick_best_model_restores_last_positive σ self
    (before after : dict BackupRecord) (key : string) (r : BackupRecord)
    (trained_model_file history_file weights log : string) :
  key ≠ EmptyString → key ∉ dict_keys before →
  (0 < rec_metric r)%Q →
  Forall (λ entry, (rec_metric entry.2 <= 0)%Q) after →
  attr_of σ self "trained_model_file" = Some (VStr trained_model_file) →
  attr_of σ self "history_file" = Some (VStr history_file) →
  rec_model_file r ≠ trained_model_file →
  rec_history_file r ≠ history_file →
  rec_history_file r ≠ trained_model_file →
  files σ !! rec_model_file r = Some weights →
  files σ !! rec_history_file r = Some log →
  pick_best_model self (before ++ (key, r) :: after) σ
  = (with_files (<[history_file := log]> (<[trained_model_file := weights]> (files σ))) σ,
     Ok tt).
Proof.
  intros Hkey Hfirst Hr Hafter Htrained Hhistory Hne1 Hne2 Hne3 Hweights Hlog.
  unfold pick_best_model. rewrite pick_loop_last_positive. cbn [snd].
  rewrite (last_positive_found before after key r Hr Hafter).
  apply String.eqb_neq in Hkey as Hkeyb. rewrite Hkeyb.
  rewrite (dict_get_first before after key r Hfirst).
  do 3 mstep. rewrite bind_unfold. unfold shutil_copy at 1.
  apply String.eqb_neq in Hne1 as Hb1. rewrite Hb1, Hweights.
  do 2 mstep. unfold shutil_copy.
  apply String.eqb_neq in Hne2 as Hb2. rewrite Hb2.
  cbn [files with_files]. rewrite lookup_insert_ne by done. by rewrite Hlog.
Qed.

(** The theorem for a first run that ended at 0.9 and a repeat that ended
    at 0.4: the record of the repeat is the one restored. *)
Lemma pick_best_model_restores_last_positive_witness :
  let r := mkBackup "out/unet/trained_model_unet_backup1.h5"
                    "out/unet/training_history_unet_backup1.csv" (4 # 10) in
  let before := [("jump_iter0", mkBackup "out/unet/trained_model_unet.h5"
                                         "out/unet/training_history_unet.csv" (9 # 10))] in
  let ckpt := "out/unet/trained_model_unet.h5" in
  let csv := "out/unet/training_history_unet.csv" in
  "jump_iter1" ≠ EmptyString ∧ ("jump_iter1" ∉ dict_keys before) ∧
  (0 < rec_metric r)%Q ∧
  Forall (λ entry : string * BackupRecord, (rec_metric entry.2 <= 0)%Q) [] ∧
  attr_of repeated_state 0 "trained_model_file" = Some (VStr ckpt) ∧
  attr_of repeated_state 0 "history_file" = Some (VStr csv) ∧
  rec_model_file r ≠ ckpt ∧ rec_history_file r ≠ csv ∧ rec_history_file r ≠ ckpt ∧
  files repeated_state !! rec_model_file r = Some "weights of run 0" ∧
  files repeated_state !! rec_history_file r = Some "log of run 0" ∧
  pick_best_model 0 (before ++ [("jump_iter1", r)]) repeated_state
  = (with_files (<[csv := "log of run 0"]>
                   (<[ckpt := "weights of run 0"]> (files repeated_state))) repeated_state,
     Ok tt).
Proof.
  set (r := mkBackup "out/unet/trained_model_unet_backup1.h5"
                     "out/unet/training_history_unet_backup1.csv" (4 # 10)).
  set (before := [("jump_iter0", mkBackup "out/unet/trained_model_unet.h5"
                                          "out/unet/training_history_unet.csv" (9 # 10))]).
  assert (H1 : "jump_iter1" ≠ EmptyString) by discriminate.
  assert (H2 : "jump_iter1" ∉ dict_keys before)
    by (intros Hin; apply elem_of_cons in Hin as [Hin|Hin];
        [discriminate Hin|by apply not_elem_of_nil in Hin]).
  assert (H3 : (0 < rec_metric r)%Q) by reflexivity.
  assert (H4 : Forall (λ entry : string * BackupRecord, (rec_metric entry.2 <= 0)%Q) [])
    by constructor.
  assert (H5 : attr_of repeated_state 0 "trained_model_file"
               = Some (VStr "out/unet/trained_model_unet.h5")) by reflexivity.
  assert (H6 : attr_of repeated_state 0 "history_file"
               = Some (VStr "out/unet/training_history_unet.csv")) by reflexivity.
  assert (H7 : rec_model_file r ≠ "out/unet/trained_model_unet.h5") by discriminate.
  assert (H8 : rec_history_file r ≠ "out/unet/training_history_unet.csv") by discriminate.
  assert (H9 : rec_history_file r ≠ "out/unet/trained_model_unet.h5") by discriminate.
  assert (H10 : files repeated_state !! rec_model_file r = Some "weights of run 0")
    by reflexivity.
  assert (H11 : files repeated_state !! rec_history_file r = Some "log of run 0")
    by reflexivity.
  do 11 (split; [assumption|]).
  exact (pick_best_model_restores_last_positive repeated_state 0 before [] "jump_iter1" r
           _ _ _ _ H1 H2 H3 H4 H5 H6 H7 H8 H9 H10 H11).
Defined.



(** ** The nearest power of two and the memory bound *)

Lemma pow2_log2_up_bounds (b : Z) :
  (1 ≤ b)%Z → (b ≤ 2 ^ Z.log2_up b < 2 * b)%Z.
Proof.
  intros Hb. destruct (decide (b = 1%Z)) as [->|Hne]; [by vm_compute|].
  assert (Hb1 : (1 < b)%Z) by lia.
  pose proof (Z.log2_up_spec b Hb1) as [Hlow Hhigh].
  pose proof (Z.log2_up_pos b Hb1) as Hpos.
  replace (Z.log2_up b) with (Z.succ (Z.pred (Z.log2_up b))) at 2 by lia.
  rewrite Z.pow_succ_r by lia. lia.
Qed.

Lemma pow2_log2_bounds (b : Z) :
  (1 ≤ b)%Z → (2 ^ Z.log2 b ≤ b < 2 * 2 ^ Z.log2 b)%Z.
Proof.
  intros Hb. pose proof (Z.log2_spec b ltac:(lia)) as [Hlow Hhigh].
  rewrite Z.pow_succ_r in Hhigh by apply Z.log2_nonneg. lia.
Qed.


Lemma Qgtb_true (a b : Q) : Qgtb a b = true → (b < a)%Q.
Proof.
  unfold Qgtb. intros H. apply Qnot_le_lt. intros Hle.
  apply Qle_bool_iff in Hle. by rewrite Hle in H.
Qed.




(** X14. On a machine where TensorFlow sees a GPU, the batch size cannot be
    set: [set_batch_size], for every request, and [set_max_batch_size]
    raise [UnboundLocalError] (the branch taken for a GPU never assigns
    the bound that is returned) and leave the dataset as it was. *)
Theorem set_batch_size_with_gpu env σ self (b n : Z) :
  gpus env = true →
  attr_of σ self "num_examples" = Some (VInt n) →
  set_batch_size env self b σ = (σ, Raise (UnboundLocalError "max_batch_size")) ∧
  set_max_batch_size env self σ = (σ, Raise (UnboundLocalError "max_batch_size")).
Proof.
  intros Hgpu Hn.
  assert (Hset : ∀ b', set_batch_size env self b' σ
                       = (σ, Raise (UnboundLocalError "max_batch_size"))).
  { intros b'. unfold set_batch_size, set_batch_size_private,
      get_batch_max_batch_size_for_system_memory.
    rewrite Hgpu. by repeat mstep. }
  split; [apply Hset|]. unfold set_max_batch_size. do 2 mstep. apply Hset.
Qed.

(** The theorem for the dataset of 95 examples, moved to a machine with a
    GPU, and a request of 32. *)
Lemma set_batch_size_with_gpu_witness :
  let env := gpu_env 95 95 in
  let σ := constructed 95 in
  gpus env = true ∧
  attr_of σ 0 "num_examples" = Some (VInt 95) ∧
  set_batch_size env 0 32 σ = (σ, Raise (UnboundLocalError "max_batch_size")) ∧
  set_max_batch_size env 0 σ = (σ, Raise (UnboundLocalError "max_batch_size")).
Proof.
  assert (H1 : gpus (gpu_env 95 95) = true) by reflexivity.
  assert (H2 : attr_of (constructed 95) 0 "num_examples" = Some (VInt 95))
    by (vm_compute; reflexivity).
  split; [exact H1|]. split; [exact H2|].
  exact (set_batch_size_with_gpu (gpu_env 95 95) (constructed 95) 0 32 95 H1 H2).
Defined.

(** X15. The memory bound never reflects less than 50 GB: whenever
    [get_batch_max_batch_size_for_system_memory] returns a bound, the bound
    times the mean file size is the larger of 50 GB and the share of the
    free memory, however little memory is free. *)
Theorem batch_limit_assumes_50_gb env σ self (memory_factor limit : Q) :
  (get_batch_max_batch_size_for_system_memory env self memory_factor σ).2 = Ok limit →
  ∃ mean,
    (get_mean_file_size env self σ).2 = Ok mean ∧
    (50000000000 <= limit * mean)%Q ∧
    (memory_factor * virtual_memory_available env <= limit * mean)%Q ∧
    (limit * mean == 50000000000 ∨
     limit * mean == memory_factor * virtual_memory_available env)%Q.
Proof.
  unfold get_batch_max_batch_size_for_system_memory.
  destruct (gpus env); [done|]. rewrite bind_unfold.
  destruct (get_mean_file_size env self σ) as [σ1 [mean|e]]; [|done].
  destruct (Qeq_bool mean 0) eqn:Hzero; [done|].
  apply Qeq_bool_neq in Hzero. intros [= <-]. exists mean. split; [done|].
  set (available := (memory_factor * virtual_memory_available env)%Q).
  assert (Hmul : ∀ x : Q, (x / mean * mean == x)%Q).
  { intros x. rewrite Qmult_comm. by apply Qmult_div_r. }
  destruct (Qgtb 50000000000 available) eqn:Hsmall; rewrite !Hmul.
  - apply Qgtb_true in Hsmall. split; [apply Qle_refl|].
    split; [by apply Qlt_le_weak|]. by left.
  - apply Qgtb_false in Hsmall. split; [done|]. split; [apply Qle_refl|]. by right.
Qed.

(** The theorem for the dataset of 95 examples on a machine with 16 GB
    free. *)
Lemma batch_limit_assumes_50_gb_witness :
  let env := example_env 95 95 in
  let σ := constructed 95 in
  (get_batch_max_batch_size_for_system_memory env 0 (8 # 10) σ).2
    = Ok (50000000000 / (inject_Z 19000000 / inject_Z 95))%Q ∧
  ∃ mean,
    (get_mean_file_size env 0 σ).2 = Ok mean ∧
    (50000000000 <= 50000000000 / (inject_Z 19000000 / inject_Z 95) * mean)%Q ∧
    ((8 # 10) * virtual_memory_available env
       <= 50000000000 / (inject_Z 19000000 / inject_Z 95) * mean)%Q ∧
    (50000000000 / (inject_Z 19000000 / inject_Z 95) * mean == 50000000000 ∨
     50000000000 / (inject_Z 19000000 / inject_Z 95) * mean
       == (8 # 10) * virtual_memory_available env)%Q.
Proof.
  assert (H1 : (get_batch_max_batch_size_for_system_memory (example_env 95 95) 0 (8 # 10)
                  (constructed 95)).2
               = Ok (50000000000 / (inject_Z 19000000 / inject_Z 95))%Q)
    by (vm_compute; reflexivity).
  split; [exact H1|].
  exact (batch_limit_assumes_50_gb (example_env 95 95) (constructed 95) 0 (8 # 10) _ H1).
Defined.

(** X16. [set_max_batch_size] asks for the number of examples; when the
    request goes through, the batch size left is that number if the next
    power of two fits the memory bound, and else the largest power of two
    that is not above it. *)
Theorem set_max_batch_size_stores env σ σ1 self (n : Z) :
  attr_of σ self "num_examples" = Some (VInt n) →
  set_batch_size_private env self n σ = (σ1, Ok tt) →
  ∃ (limit : Q) (stored : Z),
    (get_batch_max_batch_size_for_system_memory env self (8 # 10) σ).2 = Ok limit ∧
    attr_of (set_max_batch_size env self σ).1 self "batch_size" = Some (VInt stored) ∧
    stored = (if Qle_bool (inject_Z (2 ^ Z.log2_up n)) limit then n else 2 ^ Z.log2 n)%Z ∧
    (stored ≤ n < 2 * stored)%Z.
Proof.
  intros Hn Hret.
  destruct (attr_of_object _ _ _ _ Hn) as [attrs Hattrs].
  unfold set_max_batch_size. do 2 mstep.
  unfold set_batch_size. rewrite bind_unfold, Hret.
  revert Hret. unfold set_batch_size_private. do 2 mstep.
  rewrite bind_unfold.
  pose proof (get_batch_max_pure env self (8 # 10) σ) as Hpure.
  destruct (get_batch_max_batch_size_for_system_memory env self (8 # 10) σ)
    as [σ2 [limit|e]]; [|done].
  simpl in Hpure. subst σ2.
  unfold calc_nearest_power_of_two, ceil_log2, floor_log2, Qgtb.
  destruct (Z.leb_spec n 0) as [?|Hpos]; [done|].
  assert (Hn1 : (1 ≤ n)%Z) by lia.
  pose proof (pow2_log2_up_bounds n Hn1) as Hup.
  pose proof (pow2_log2_bounds n Hn1) as Hdown.
  destruct (Qle_bool (inject_Z (2 ^ Z.log2_up n)) limit) eqn:Hfits; cbn [negb].
  - rewrite Hfits. cbn [negb]. mstep. mlast. intros [= <-]. exists limit, n.
    split; [done|]. split; [|split; [by rewrite Hfits|lia]].
    apply calc_train_steps_keeps_batch_size.
    destruct (Z.ltb_spec n (2 ^ Z.log2_up n)); [solve_attr|].
    replace (2 ^ Z.log2_up n)%Z with n by lia. solve_attr.
  - destruct (Qle_bool (inject_Z (2 ^ Z.log2 n)) limit); cbn [negb]; [|done].
    mstep. mlast. intros [= <-]. exists limit, (2 ^ Z.log2 n)%Z.
    split; [done|]. split; [|split; [by rewrite Hfits|lia]].
    apply calc_train_steps_keeps_batch_size.
    destruct (Z.ltb_spec n (2 ^ Z.log2 n)); [lia|]. solve_attr.
Qed.

(** The theorem for the dataset of 95 examples. *)
Lemma set_max_batch_size_stores_witness :
  let env := example_env 95 95 in
  let σ := constructed 95 in
  attr_of σ 0 "num_examples" = Some (VInt 95) ∧
  set_batch_size_private env 0 95 σ = ((set_batch_size_private env 0 95 σ).1, Ok tt) ∧
  ∃ (limit : Q) (stored : Z),
    (get_batch_max_batch_size_for_system_memory env 0 (8 # 10) σ).2 = Ok limit ∧
    attr_of (set_max_batch_size env 0 σ).1 0 "batch_size" = Some (VInt stored) ∧
    stored = (if Qle_bool (inject_Z (2 ^ Z.log2_up 95)) limit then 95 else 2 ^ Z.log2 95)%Z ∧
    (stored ≤ 95 < 2 * stored)%Z.
Proof.
  assert (H1 : attr_of (constructed 95) 0 "num_examples" = Some (VInt 95))
    by (vm_compute; reflexivity).
  assert (H2 : set_batch_size_private (example_env 95 95) 0 95 (constructed 95)
               = ((set_batch_size_private (example_env 95 95) 0 95 (constructed 95)).1,
                  Ok tt))
    by (vm_compute; reflexivity).
  split; [exact H1|]. split; [exact H2|].
  exact (set_max_batch_size_stores (example_env 95 95) (constructed 95) _ 0 95 H1 H2).
Defined.

(** ** Batches and step counts *)

Lemma batch_scan_count {A} (n : nat) (cur l : list A) :
  0 < n → length cur < n →
  Z.of_nat (length (batch_scan n cur l))
  = ceil_steps (Z.of_nat (length cur + length l)) (Z.of_nat n).
Proof.
  intros Hn. rewrite ceil_steps_div by lia.
  revert cur. induction l as [|x l IH]; intros cur Hcur.
  - cbn [batch_scan length]. rewrite Nat.add_0_r.
    rewrite Z.div_small, Z.mod_small by lia.
    destruct cur as [|y cur]; [done|]. cbn [length] in *.
    destruct (Z.eqb_spec (Z.of_nat (S (length cur))) 0); [lia|done].
  - cbn [batch_scan]. rewrite length_app. cbn [length].
    destruct (Nat.eqb_spec (length cur + 1) n) as [Hfull|Hmore].
    + cbn [length]. rewrite Nat2Z.inj_succ, (IH []) by (cbn [length]; lia).
      cbn [length]. rewrite Nat.add_0_l.
      replace (Z.of_nat (length cur + S (length l)))
        with (Z.of_nat (length l) + 1 * Z.of_nat n)%Z by lia.
      rewrite Z.div_add, Z.mod_add by lia. lia.
    + rewrite IH by (rewrite length_app; cbn [length]; lia).
      rewrite length_app. cbn [length].
      by replace (length cur + 1 + length l) with (length cur + S (length l)) by lia.
Qed.

Lemma batch_scan_sizes {A} (n : nat) (cur l : list A) :
  0 < n → length cur < n →
  Forall (λ b, 0 < length b ≤ n) (batch_scan n cur l).
Proof.
  intros Hn. revert cur. induction l as [|x l IH]; intros cur Hcur.
  - cbn [batch_scan]. destruct cur as [|y cur]; [constructor|].
    constructor; [|constructor]. cbn [length] in *. lia.
  - cbn [batch_scan]. rewrite length_app. cbn [length].
    destruct (Nat.eqb_spec (length cur + 1) n) as [Hfull|Hmore].
    + constructor; [rewrite length_app; cbn [length]; lia|].
      apply IH. cbn [length]. lia.
    + apply IH. rewrite length_app. cbn [length]. lia.
Qed.

(** X17. The pipeline [tf_dataset] builds from two lists of one length
    holds their pairs in the order given, in batches that are not empty
    and not larger than the batch size; the number of batches is the
    number of pairs over the batch size, rounded up.  Nothing of the
    dataset changes. *)
Theorem tf_dataset_batches σ self (xs ys : list string) (b : Z) :
  attr_of σ self "batch_size" = Some (VInt b) →
  length xs = length ys → (0 < b)%Z →
  ∃ batches,
    tf_dataset self xs ys σ = (σ, Ok (VTfData batches)) ∧
    concat batches = zip xs ys ∧
    Forall (λ batch, (0 < Z.of_nat (length batch) ≤ b)%Z) batches ∧
    Z.of_nat (length batches) = ceil_steps (Z.of_nat (length xs)) b.
Proof.
  intros Hb Hlen Hpos. eexists. split; [by apply tf_dataset_ok|].
  split; [apply batch_scan_concat|]. split.
  - eapply Forall_impl; [apply batch_scan_sizes; cbn [length]; lia|].
    intros batch. cbn beta. lia.
  - etrans; [apply (batch_scan_count (Z.to_nat b) [] (zip xs ys)); cbn [length]; lia|].
    cbn [length]. rewrite Nat.add_0_l, length_zip, <- Hlen, Nat.min_id.
    by rewrite Z2Nat.id by lia.
Qed.

(** The theorem for ten pairs in batches of four. *)
Lemma tf_dataset_batches_witness :
  let σ := prepared_state 42 in
  let xs := numbered "data/images/" 10 in
  let ys := numbered "data/masks/" 10 in
  attr_of σ 0 "batch_size" = Some (VInt 4) ∧
  length xs = length ys ∧ (0 < 4)%Z ∧
  ∃ batches,
    tf_dataset 0 xs ys σ = (σ, Ok (VTfData batches)) ∧
    concat batches = zip xs ys ∧
    Forall (λ batch, (0 < Z.of_nat (length batch) ≤ 4)%Z) batches ∧
    Z.of_nat (length batches) = ceil_steps (Z.of_nat (length xs)) 4.
Proof.
  assert (H1 : attr_of (prepared_state 42) 0 "batch_size" = Some (VInt 4)) by reflexivity.
  assert (H2 : length (numbered "data/images/" 10) = length (numbered "data/masks/" 10))
    by reflexivity.
  assert (H3 : (0 < 4)%Z) by lia.
  split; [exact H1|]. split; [exact H2|]. split; [exact H3|].
  exact (tf_dataset_batches (prepared_state 42) 0 _ _ 4 H1 H2 H3).
Defined.

(** X18. For pipelines of batches and a positive batch size,
    [calc_train_steps] returns, and each count it stores is the length of
    its pipeline over the batch size, rounded up, or one more: never too
    few steps, at most one too many, and the exact quotient when the batch
    size divides the length. *)
Theorem calc_train_steps_bounds σ self (train valid : list batch) (b : Z) :
  attr_of σ self "train_dataset" = Some (VTfData train) →
  attr_of σ self "valid_dataset" = Some (VTfData valid) →
  attr_of σ self "batch_size" = Some (VInt b) →
  (0 < b)%Z →
  let out := calc_train_steps self σ in
  ∃ train_steps valid_steps,
    out.2 = Ok tt ∧
    attr_of out.1 self "train_steps" = Some (VInt train_steps) ∧
    attr_of out.1 self "valid_steps" = Some (VInt valid_steps) ∧
    (ceil_steps (Z.of_nat (length train)) b ≤ train_steps
       ≤ ceil_steps (Z.of_nat (length train)) b + 1)%Z ∧
    (ceil_steps (Z.of_nat (length valid)) b ≤ valid_steps
       ≤ ceil_steps (Z.of_nat (length valid)) b + 1)%Z ∧
    ((Z.of_nat (length train) mod b = 0)%Z → train_steps = (Z.of_nat (length train) / b)%Z) ∧
    ((Z.of_nat (length valid) mod b = 0)%Z → valid_steps = (Z.of_nat (length valid) / b)%Z).
Proof.
  intros Htrain Hvalid Hb Hpos out.
  destruct (calc_train_steps_stores σ self train valid b Htrain Hvalid Hb Hpos)
    as (Hok & Hts & Hvs).
  assert (Hbound : ∀ a, (ceil_steps a b ≤ steps_stored a b ≤ ceil_steps a b + 1)%Z).
  { intros a. rewrite (steps_stored_ceiling a b Hpos).
    destruct (2 * (a mod b) ?= b)%Z; [destruct (Z.even (a / b))| |]; lia. }
  eexists _, _. split; [exact Hok|]. split; [exact Hts|]. split; [exact Hvs|].
  split; [apply Hbound|]. split; [apply Hbound|].
  split; intros Hmod; by apply steps_stored_exact.
Qed.

(** The theorem for pipelines of 76 and of 19 batches at a batch size of
    8. *)
Lemma calc_train_steps_bounds_witness :
  let σ := pipeline_state (replicate 76 []) (replicate 19 []) 8 in
  let train : list batch := replicate 76 [] in
  let valid : list batch := replicate 19 [] in
  let out := calc_train_steps 0 σ in
  attr_of σ 0 "train_dataset" = Some (VTfData train) ∧
  attr_of σ 0 "valid_dataset" = Some (VTfData valid) ∧
  attr_of σ 0 "batch_size" = Some (VInt 8) ∧
  (0 < 8)%Z ∧
  ∃ train_steps valid_steps,
    out.2 = Ok tt ∧
    attr_of out.1 0 "train_steps" = Some (VInt train_steps) ∧
    attr_of out.1 0 "valid_steps" = Some (VInt valid_steps) ∧
    (ceil_steps (Z.of_nat (length train)) 8 ≤ train_steps
       ≤ ceil_steps (Z.of_nat (length train)) 8 + 1)%Z ∧
    (ceil_steps (Z.of_nat (length valid)) 8 ≤ valid_steps
       ≤ ceil_steps (Z.of_nat (length valid)) 8 + 1)%Z ∧
    ((Z.of_nat (length train) mod 8 = 0)%Z → train_steps = (Z.of_nat (length train) / 8)%Z) ∧
    ((Z.of_nat (length valid) mod 8 = 0)%Z → valid_steps = (Z.of_nat (length valid) / 8)%Z).
Proof.
  set (σ := pipeline_state (replicate 76 []) (replicate 19 []) 8).
  assert (H1 : attr_of σ 0 "train_dataset" = Some (VTfData (replicate 76 []))) by reflexivity.
  assert (H2 : attr_of σ 0 "valid_dataset" = Some (VTfData (replicate 19 []))) by reflexivity.
  assert (H3 : attr_of σ 0 "batch_size" = Some (VInt 8)) by reflexivity.
  assert (H4 : (0 < 8)%Z) by lia.
  do 4 (split; [assumption|]).
  exact (calc_train_steps_bounds σ 0 (replicate 76 []) (replicate 19 []) 8 H1 H2 H3 H4).
Defined.

(** ** The split keeps each image with its mask *)

Section pairs.
Context (env : Env) (Hperm : draws_permutations env).

(** Splitting two lists of one length with one seed is splitting the list
    of their pairs. *)
Lemma train_test_split_pairs {A B} (xs : list A) (ys : list B) (size seed : Z)
    tx vx ty vy σ σ1 σ2 :
  length xs = length ys →
  train_test_split env xs size seed σ = (σ1, Ok (tx, vx)) →
  train_test_split env ys size seed σ = (σ2, Ok (ty, vy)) →
  train_test_split env (zip xs ys) size seed σ = (σ, Ok (zip tx ty, zip vx vy)).
Proof.
  intros Hlen. unfold train_test_split, take_indices.
  rewrite length_zip, <- Hlen, Nat.min_id.
  destruct (_ || _); [done|].
  set (indices := (permutation env (seeded env seed) (length xs)).1).
  rewrite !bind_unfold.
  destruct (mapM (λ i, xs !! i) (take _ (drop _ indices))) as [tx0|] eqn:Htx; [|done].
  destruct (mapM (λ i, ys !! i) (take _ (drop _ indices))) as [ty0|] eqn:Hty; [|done].
  cbn [from_option mret M_ret]. rewrite !bind_unfold.
  destruct (mapM (λ i, xs !! i) (take _ indices)) as [vx0|] eqn:Hvx; [|done].
  destruct (mapM (λ i, ys !! i) (take _ indices)) as [vy0|] eqn:Hvy; [|done].
  cbn [from_option mret M_ret]. intros [= _ <- <-] [= _ <- <-].
  by rewrite (take_indices_zip _ _ _ _ _ Htx Hty), (take_indices_zip _ _ _ _ _ Hvx Hvy).
Qed.

(** A split that returns was asked for a part of the list, and gives the
    two parts their sizes. *)
Lemma train_test_split_lengths {A} (arr : list A) (size seed : Z) σ σ' train test :
  train_test_split env arr size seed σ = (σ', Ok (train, test)) →
  (0 < size < Z.of_nat (length arr))%Z ∧
  length test = Z.to_nat size ∧ length train = length arr - Z.to_nat size.
Proof.
  intros Hret.
  assert (Hsize : (0 < size < Z.of_nat (length arr))%Z).
  { revert Hret. unfold train_test_split.
    destruct (Z.leb_spec (Z.of_nat (length arr)) size);
      destruct (Z.leb_spec size 0); cbn [orb]; try done; lia. }
  split; [done|].
  destruct (train_test_split_ok env Hperm arr size seed Hsize)
    as (train0 & test0 & Heq & Htest & Htrain & _).
  rewrite Heq in Hret. by injection Hret as _ <- <-.
Qed.

(** What [load_data] returns for as many masks as images, five at least. *)
Lemma load_data_parts σ self (images masks : list string) (seed : Z) :
  attr_of σ self "seed" = Some (VInt seed) →
  length masks = length images →
  5 ≤ length images →
  ∃ tx ty vx vy ex ey,
    load_data env self images masks (2 # 10) σ
      = (σ, Ok (mkSplits (tx, ty) (vx, vy) (ex, ey))) ∧
    let size := Z.to_nat (Z.of_nat (length images) / 5) in
    length vx = size ∧ length vy = size ∧ length ex = size ∧ length ey = size ∧
    length tx = length images - 2 * size ∧ length ty = length images - 2 * size ∧
    zip tx ty ++ zip vx vy ++ zip ex ey ≡ₚ zip images masks.
Proof.
  intros Hseed Hmasks Hfive.
  unfold load_data. rewrite py_int_fifth.
  set (size := (Z.of_nat (length images) / 5)%Z).
  assert (Hsize : (1 ≤ size ∧ 2 * size < Z.of_nat (length images))%Z).
  { subst size. split.
    - apply Z.div_le_lower_bound; lia.
    - pose proof (Z.mul_div_le (Z.of_nat (length images)) 5 ltac:(lia)). lia. }
  destruct (train_test_split_ok env Hperm images size seed) as (tx & vx & Hx & Hvx & Htx & _);
    [lia|].
  destruct (train_test_split_ok env Hperm masks size seed) as (ty & vy & Hy & Hvy & Hty & _);
    [lia|].
  destruct (train_test_split_ok env Hperm tx size seed) as (tx' & ex & Hx' & Hex & Htx' & _);
    [lia|].
  destruct (train_test_split_ok env Hperm ty size seed) as (ty' & ey & Hy' & Hey & Hty' & _);
    [lia|].
  exists tx', ty', vx, vy, ex, ey. split.
  - do 2 mstep. rewrite bind_unfold, Hx. cbv beta iota.
    rewrite bind_unfold, Hy. cbv beta iota. cbn [fst snd].
    rewrite bind_unfold, Hx'. cbv beta iota.
    rewrite bind_unfold, Hy'. cbv beta iota. reflexivity.
  - cbv zeta. do 6 (split; [lia|]).
    assert (Hlen1 : length images = length masks) by done.
    assert (Hlen2 : length tx = length ty) by lia.
    pose proof (train_test_split_pairs images masks size seed _ _ _ _ σ _ _
                  Hlen1 (Hx σ) (Hy σ)) as Hfirst.
    pose proof (train_test_split_pairs tx ty size seed _ _ _ _ σ _ _
                  Hlen2 (Hx' σ) (Hy' σ)) as Hsecond.
    destruct (train_test_split_ok env Hperm (zip images masks) size seed)
      as (tz & vz & Hz & _ & _ & Hperm1); [rewrite length_zip; lia|].
    destruct (train_test_split_ok env Hperm (zip tx ty) size seed)
      as (tz' & ez & Hz' & _ & _ & Hperm2); [rewrite length_zip; lia|].
    rewrite Hz in Hfirst. injection Hfirst as -> ->.
    rewrite Hz' in Hsecond. injection Hsecond as -> ->.
    rewrite <- Hperm1, <- Hperm2.
    rewrite <- (assoc (++)). by rewrite (comm (++) (zip vx vy)).
Qed.

(** X19. For as many masks as images, five at least, the three parts
    [load_data] returns hold every (image, mask) pair once: an image keeps
    its mask through both splits, and no sample lies in two of training,
    validation and test, or in none. *)
Theorem load_data_keeps_pairs σ self (images masks : list string) (seed : Z) :
  attr_of σ self "seed" = Some (VInt seed) →
  length masks = length images →
  5 ≤ length images →
  ∃ parts,
    load_data env self images masks (2 # 10) σ = (σ, Ok parts) ∧
    let pairs (part : list string * list string) := zip part.1 part.2 in
    length (train_part parts).1 = length (train_part parts).2 ∧
    length (valid_part parts).1 = length (valid_part parts).2 ∧
    length (test_part parts).1 = length (test_part parts).2 ∧
    pairs (train_part parts) ++ pairs (valid_part parts) ++ pairs (test_part parts)
      ≡ₚ zip images masks.
Proof.
  intros Hseed Hmasks Hfive.
  destruct (load_data_parts σ self images masks seed Hseed Hmasks Hfive)
    as (tx & ty & vx & vy & ex & ey & Hload & Hvx & Hvy & Hex & Hey & Htx & Hty & Hpairs).
  eexists. split; [exact Hload|].
  cbn [train_part valid_part test_part fst snd].
  repeat split; [congruence..|exact Hpairs].
Qed.

(** X20. With fewer than five images the share of a fifth is empty, and
    [load_data] raises on its first split, whatever the masks. *)
Theorem load_data_too_few σ self (images masks : list string) (seed : Z) :
  attr_of σ self "seed" = Some (VInt seed) →
  length images < 5 →
  load_data env self images masks (2 # 10) σ
  = (σ, Raise (ValueError
          "test_size should be positive and smaller than the number of samples")).
Proof.
  intros Hseed Hfew. unfold load_data. rewrite py_int_fifth.
  rewrite Z.div_small by lia. do 2 mstep.
  unfold train_test_split. change (0 <=? 0)%Z with true.
  rewrite (orb_true_r (Z.of_nat (length images) <=? 0)%Z). by mstep.
Qed.

End pairs.

(** The theorem on ten images and ten masks. *)
Lemma load_data_keeps_pairs_witness :
  let env := example_env 10 10 in
  let images := numbered "data/images/" 10 in
  let masks := numbered "data/masks/" 10 in
  attr_of seeded_state 0 "seed" = Some (VInt 42) ∧
  length masks = length images ∧
  5 ≤ length images ∧
  ∃ parts,
    load_data env 0 images masks (2 # 10) seeded_state = (seeded_state, Ok parts) ∧
    let pairs (part : list string * list string) := zip part.1 part.2 in
    length (train_part parts).1 = length (train_part parts).2 ∧
    length (valid_part parts).1 = length (valid_part parts).2 ∧
    length (test_part parts).1 = length (test_part parts).2 ∧
    pairs (train_part parts) ++ pairs (valid_part parts) ++ pairs (test_part parts)
      ≡ₚ zip images masks.
Proof.
  intros env images masks.
  assert (H1 : attr_of seeded_state 0 "seed" = Some (VInt 42)) by reflexivity.
  assert (H2 : length masks = length images) by reflexivity.
  assert (H3 : 5 ≤ length images) by (vm_compute; lia).
  split; [exact H1|]. split; [exact H2|]. split; [exact H3|].
  exact (load_data_keeps_pairs env (example_env_draws_permutations 10 10)
           seeded_state 0 images masks 42 H1 H2 H3).
Defined.

(** The theorem on four images and four masks. *)
Lemma load_data_too_few_witness :
  let env := example_env 4 4 in
  let images := numbered "data/images/" 4 in
  let masks := numbered "data/masks/" 4 in
  attr_of seeded_state 0 "seed" = Some (VInt 42) ∧
  length images < 5 ∧
  load_data env 0 images masks (2 # 10) seeded_state
  = (seeded_state, Raise (ValueError
       "test_size should be positive and smaller than the number of samples")).
Proof.
  intros env images masks.
  assert (H1 : attr_of seeded_state 0 "seed" = Some (VInt 42)) by reflexivity.
  assert (H2 : length images < 5) by (vm_compute; lia).
  split; [exact H1|]. split; [exact H2|].
  exact (load_data_too_few env seeded_state 0 images masks 42 H1 H2).
Defined.

(** ** What the constructors establish *)

(** The outcome of [Dataset.__init__] on an object without an attribute
    [num_images], by the listing of the directory and the shape of its
    first image. *)
Lemma Dataset_init_outcome env σ self (path : string) attrs :
  heap σ !! self = Some attrs →
  attrs !! "num_images" = None →
  let out := Dataset_init env self path σ in
  match list_dir env path with
  | [] => out = (σ, Raise (TypeError "can only concatenate str (not list) to str"))
  | first :: _ =>
      match stored_dims (imread_shape env first) with
      | None => ∃ msg, out.2 = Raise (ValueError msg)
      | Some dims =>
          out = (mkState (<[self := Dataset_attrs attrs path (list_dir env path) dims]> (heap σ))
                         (files σ) (seeded env 42) (fit_calls σ), Ok tt)
      end
  end.
Proof.
  intros Hattrs Hnone out. subst out. unfold Dataset_init.
  destruct (list_dir env path) as [|first rest] eqn:Hdir.
  { unfold make_image_dirs, get_image_list. rewrite Hdir. by mstep. }
  rewrite bind_unfold, (make_image_dirs_unchecked env σ self path attrs Hattrs Hnone)
    by (by rewrite Hdir).
  rewrite Hdir. cbv beta iota. cbn [fst snd].
  do 2 mstep. unfold set_image_dims_original. do 2 mstep.
  change ((first :: rest) !! 0) with (Some first). mstep. cbv zeta.
  destruct (imread_shape env first) as [|h [|w [|c [|d dims]]]] eqn:Hshape;
    cbn [stored_dims length Nat.ltb Nat.leb orb].
  - eexists. by mstep.
  - eexists. by mstep.
  - unfold set_seed. repeat mstep. reflexivity.
  - unfold set_seed. repeat mstep. reflexivity.
  - eexists. by mstep.
Qed.

(** X21. When [Dataset.__init__] returns, the directory was not empty and
    the object holds its listing, the number of images listed, target
    dimensions equal to the original ones, of three entries, a batch size
    of 16 and the seed 42, with which numpy's global generator has been
    seeded; the files are as they were. *)
Theorem Dataset_init_establishes env σ self (path : string) :
  is_Some (heap σ !! self) →
  attr_of σ self "num_images" = None →
  let out := Dataset_init env self path σ in
  out.2 = Ok tt →
  ∃ dims,
    list_dir env path ≠ [] ∧
    attr_of out.1 self "images" = Some (VStrs (list_dir env path)) ∧
    attr_of out.1 self "path_images" = Some (VStr path) ∧
    attr_of out.1 self "num_examples"
      = Some (VInt (Z.of_nat (length (list_dir env path)))) ∧
    attr_of out.1 self "image_dims_original" = Some (VInts dims) ∧
    attr_of out.1 self "image_dims_target" = Some (VInts dims) ∧
    length dims = 3 ∧
    attr_of out.1 self "batch_size" = Some (VInt 16) ∧
    attr_of out.1 self "seed" = Some (VInt 42) ∧
    np_random out.1 = seeded env 42 ∧
    files out.1 = files σ.
Proof.
  intros [attrs Hattrs] Hnone out.
  rewrite (attr_of_lookup _ _ _ _ Hattrs) in Hnone.
  pose proof (Dataset_init_outcome env σ self path attrs Hattrs Hnone) as Hout.
  cbv zeta in Hout. fold out in Hout.
  destruct (list_dir env path) as [|first rest] eqn:Hdir; [by rewrite Hout|].
  destruct (stored_dims (imread_shape env first)) as [dims|] eqn:Hdims.
  2:{ destruct Hout as [msg Hmsg]. by rewrite Hmsg. }
  intros _. exists dims. rewrite Hout. cbn [fst np_random files].
  assert (Hthree : length dims = 3).
  { destruct (imread_shape env first) as [|h [|w [|c [|d more]]]]; try done;
      by injection Hdims as <-. }
  unfold Dataset_attrs. repeat split; try done; solve_attr.
Qed.

(** The theorem for a new object over the directory of ten images. *)
Lemma Dataset_init_establishes_witness :
  let env := example_env 10 10 in
  let σ := fresh_object in
  let out := Dataset_init env 0 "data/images" σ in
  is_Some (heap σ !! 0) ∧
  attr_of σ 0 "num_images" = None ∧
  out.2 = Ok tt ∧
  ∃ dims,
    list_dir env "data/images" ≠ [] ∧
    attr_of out.1 0 "images" = Some (VStrs (list_dir env "data/images")) ∧
    attr_of out.1 0 "path_images" = Some (VStr "data/images") ∧
    attr_of out.1 0 "num_examples"
      = Some (VInt (Z.of_nat (length (list_dir env "data/images")))) ∧
    attr_of out.1 0 "image_dims_original" = Some (VInts dims) ∧
    attr_of out.1 0 "image_dims_target" = Some (VInts dims) ∧
    length dims = 3 ∧
    attr_of out.1 0 "batch_size" = Some (VInt 16) ∧
    attr_of out.1 0 "seed" = Some (VInt 42) ∧
    np_random out.1 = seeded env 42 ∧
    files out.1 = files σ.
Proof.
  assert (H1 : is_Some (heap fresh_object !! 0)) by (by eexists).
  assert (H2 : attr_of fresh_object 0 "num_images" = None) by reflexivity.
  assert (H3 : (Dataset_init (example_env 10 10) 0 "data/images" fresh_object).2 = Ok tt)
    by (vm_compute; reflexivity).
  split; [exact H1|]. split; [exact H2|]. split; [exact H3|].
  exact (Dataset_init_establishes (example_env 10 10) fresh_object 0 "data/images" H1 H2 H3).
Defined.

(** A name is none of those listed. *)
Ltac not_listed :=
  let Hin := fresh in
  intros Hin;
  repeat (apply elem_of_cons in Hin as [Hin|Hin]; [discriminate Hin|]);
  by apply not_elem_of_nil in Hin.

Lemma shuffle_keeps env (x y : list string) o a (v : option pyval) :
  preserves (λ σ, attr_of σ o a = v) (shuffle env x y).
Proof.
  intros σ Hσ. unfold shuffle.
  destruct (negb _); [by mstep|]. do 3 mstep.
  match goal with |- attr_of (?rest ?s).1 o a = v =>
    enough (Hrest : preserves (λ σ, attr_of σ o a = v) rest) by (by apply Hrest)
  end.
  unfold take_indices. method_inv.
Qed.

Lemma load_data_keeps env self (images masks : list string) (split : Q) o a
    (v : option pyval) :
  preserves (λ σ, attr_of σ o a = v) (load_data env self images masks split).
Proof. unfold load_data, train_test_split, take_indices. method_inv. Qed.

Lemma tf_dataset_keeps self (xs ys : list string) o a (v : option pyval) :
  preserves (λ σ, attr_of σ o a = v) (tf_dataset self xs ys).
Proof. unfold tf_dataset. method_inv. Qed.

(** The preparation of the pipelines assigns the two pipelines and the
    two step counts only. *)
Lemma prep_data_keeps env self a (v : option pyval) :
  a ∉ ["train_dataset"; "valid_dataset"; "train_steps"; "valid_steps"] →
  preserves (λ σ, attr_of σ self a = v) (prep_data_img_labels env self).
Proof.
  intros Ha.
  assert (a ≠ "train_dataset" ∧ a ≠ "valid_dataset" ∧ a ≠ "train_steps" ∧ a ≠ "valid_steps")
    as (H1 & H2 & H3 & H4).
  { repeat split; intros ->; apply Ha; repeat constructor. }
  unfold prep_data_img_labels.
  repeat first
    [ apply load_data_keeps | apply shuffle_keeps | apply tf_dataset_keeps
    | apply calc_train_steps_keeps; [done|done]
    | apply preserves_setattr_other; [congruence]
    | method_inv_step ].
Qed.

Section mask_dataset.
Context (env : Env) (Hperm : draws_permutations env).

(** The sizes of the training part when [load_data] returns. *)
Lemma load_data_lengths σ σ' self (images masks : list string) (seed : Z) parts :
  attr_of σ self "seed" = Some (VInt seed) →
  load_data env self images masks (2 # 10) σ = (σ', Ok parts) →
  ∃ size,
    size = Z.to_nat (Z.of_nat (length images) / 5) ∧
    5 ≤ length images ∧ 2 * size < length images ∧ 2 * size < length masks ∧
    length (train_part parts).1 = length images - 2 * size ∧
    length (train_part parts).2 = length masks - 2 * size ∧
    length (valid_part parts).1 = size ∧ length (valid_part parts).2 = size.
Proof.
  intros Hseed. unfold load_data. rewrite py_int_fifth.
  set (size := (Z.of_nat (length images) / 5)%Z). do 2 mstep.
  rewrite bind_unfold.
  destruct (train_test_split env images size seed σ) as [σa [[tx vx]|e]] eqn:Hx; [|done].
  apply (train_test_split_lengths env Hperm) in Hx as (Hsx & Hvx & Htx).
  rewrite bind_unfold.
  destruct (train_test_split env masks size seed σa) as [σb [[ty vy]|e]] eqn:Hy; [|done].
  apply (train_test_split_lengths env Hperm) in Hy as (Hsy & Hvy & Hty).
  cbn [fst snd]. rewrite bind_unfold.
  destruct (train_test_split env tx size seed σb) as [σc [[tx' ex]|e]] eqn:Hx'; [|done].
  apply (train_test_split_lengths env Hperm) in Hx' as (Hsx' & Hex & Htx').
  rewrite bind_unfold.
  destruct (train_test_split env ty size seed σc) as [σd [[ty' ey]|e]] eqn:Hy'; [|done].
  apply (train_test_split_lengths env Hperm) in Hy' as (Hsy' & Hey & Hty').
  intros [= _ <-]. cbn [train_part valid_part fst snd]. exists (Z.to_nat size).
  split; [done|]. split; [|lia].
  destruct (decide (length images < 5)) as [Hfew|?]; [|lia].
  subst size. rewrite Z.div_small in Hsx by lia. lia.
Qed.

(** The step counts [prep_data_img_labels] stores: those of
    [calc_train_steps] for the numbers of batches of the two pipelines. *)
Lemma prep_data_counts σ self (images masks : list string) (seed b : Z) parts :
  attr_of σ self "images" = Some (VStrs images) →
  attr_of σ self "masks" = Some (VStrs masks) →
  attr_of σ self "seed" = Some (VInt seed) →
  attr_of σ self "batch_size" = Some (VInt b) →
  load_data env self images masks (2 # 10) σ = (σ, Ok parts) →
  length (train_part parts).1 = length (train_part parts).2 →
  length (valid_part parts).1 = length (valid_part parts).2 →
  (0 < b)%Z →
  let out := prep_data_img_labels env self σ in
  attr_of out.1 self "train_steps"
    = Some (VInt (steps_stored
                    (ceil_steps (Z.of_nat (length (train_part parts).1)) b) b)) ∧
  attr_of out.1 self "valid_steps"
    = Some (VInt (steps_stored
                    (ceil_steps (Z.of_nat (length (valid_part parts).1)) b) b)).
Proof.
  intros Himages Hmasks Hseed Hbatch Hload Hlt Hlv Hb out. subst out.
  destruct (attr_of_object _ _ _ _ Himages) as [attrs Hattrs].
  unfold prep_data_img_labels. do 4 mstep.
  rewrite bind_unfold, Hload. cbv beta iota.
  destruct (train_part parts) as [tx ty]. destruct (valid_part parts) as [vx vy].
  cbn [fst snd] in *.
  destruct (shuffle_ok env Hperm tx ty σ Hlt) as (tx' & ty' & Hshuffle & Hlt' & Hpairs).
  rewrite bind_unfold, Hshuffle. cbv beta iota. cbn [fst snd].
  set (σ1 := with_np_random _ σ).
  assert (Hbatch1 : attr_of σ1 self "batch_size" = Some (VInt b)) by exact Hbatch.
  rewrite bind_unfold, (tf_dataset_ok σ1 self tx' ty' b Hbatch1 Hlt' Hb).
  cbv beta iota. subst σ1. mstep.
  pose proof Hbatch as Hbatch'. rewrite (attr_of_lookup _ _ _ _ Hattrs) in Hbatch'.
  match goal with |- context [(_ ≫= _) ?s] => set (σ2 := s) end.
  assert (Hbatch2 : attr_of σ2 self "batch_size" = Some (VInt b)) by (subst σ2; solve_attr).
  rewrite bind_unfold, (tf_dataset_ok σ2 self vx vy b Hbatch2 Hlv Hb).
  cbv beta iota. subst σ2. mstep.
  match goal with |- context [calc_train_steps self ?s] => set (σ3 := s) end.
  assert (Hb3 : attr_of σ3 self "batch_size" = Some (VInt b)) by (subst σ3; solve_attr).
  assert (Ht3 : attr_of σ3 self "train_dataset"
                = Some (VTfData (batch_scan (Z.to_nat b) [] (zip tx' ty'))))
    by (subst σ3; solve_attr).
  assert (Hv3 : attr_of σ3 self "valid_dataset"
                = Some (VTfData (batch_scan (Z.to_nat b) [] (zip vx vy))))
    by (subst σ3; solve_attr).
  destruct (calc_train_steps_stores σ3 self _ _ b Ht3 Hv3 Hb3 Hb) as (_ & Hts & Hvs).
  assert (Hcount : ∀ xs ys : list string, length xs = length ys →
            Z.of_nat (@length batch (batch_scan (Z.to_nat b) [] (zip xs ys)))
            = ceil_steps (Z.of_nat (length xs)) b).
  { intros xs ys Hlen.
    etrans; [apply (batch_scan_count (Z.to_nat b) [] (zip xs ys)); cbn [length]; lia|].
    cbn [length]. rewrite Nat.add_0_l, length_zip, <- Hlen, Nat.min_id.
    by rewrite Z2Nat.id by lia. }
  rewrite (Hcount tx' ty' Hlt') in Hts. rewrite (Hcount vx vy Hlv) in Hvs.
  assert (Hsame : length tx' = length tx).
  { apply Permutation_length in Hpairs. rewrite !length_zip in Hpairs. lia. }
  rewrite Hsame in Hts. by split.
Qed.

(** X22. [ImgMaskDataset.__init__] on a new object returns only when both
    paths are given and the two directories hold the same number of files,
    five at least.  The object then holds the two listings, that number as
    its number of examples, and the batch size 16; and its step counts are
    those of [calc_train_steps] for the numbers of batches (not of
    samples) of the two pipelines.  So a dataset whose counts differ is
    never built, though not by the count check of [make_image_dirs]. *)
Theorem mask_dataset_needs_equal_counts σ self (paths_training : dict string) :
  is_Some (heap σ !! self) →
  attr_of σ self "num_images" = None →
  let out := ImgMaskDataset_init env self paths_training σ in
  out.2 = Ok tt →
  ∃ path_images path_masks,
    dict_get paths_training "path_images" = Some path_images ∧
    dict_get paths_training "path_masks" = Some path_masks ∧
    let n := Z.of_nat (length (list_dir env path_images)) in
    length (list_dir env path_masks) = length (list_dir env path_images) ∧
    (5 ≤ n)%Z ∧
    attr_of out.1 self "images" = Some (VStrs (list_dir env path_images)) ∧
    attr_of out.1 self "masks" = Some (VStrs (list_dir env path_masks)) ∧
    attr_of out.1 self "num_examples" = Some (VInt n) ∧
    attr_of out.1 self "batch_size" = Some (VInt 16) ∧
    attr_of out.1 self "train_steps"
      = Some (VInt (steps_stored (ceil_steps (n - 2 * (n / 5)) 16) 16)) ∧
    attr_of out.1 self "valid_steps"
      = Some (VInt (steps_stored (ceil_steps (n / 5) 16) 16)).
Proof.
  intros [attrs Hattrs] Hnone out. subst out.
  rewrite (attr_of_lookup _ _ _ _ Hattrs) in Hnone.
  unfold ImgMaskDataset_init, require_keys, dict_item. cbn [for_each].
  destruct (dict_get paths_training "path_images") as [path_images|];
    [|mstep; intros [=]].
  destruct (dict_get paths_training "path_masks") as [path_masks|];
    [|repeat mstep; intros [=]].
  do 4 mstep.
  pose proof (Dataset_init_outcome env σ self path_images attrs Hattrs Hnone) as Hinit.
  cbv zeta in Hinit. rewrite bind_unfold.
  destruct (list_dir env path_images) as [|first rest] eqn:Hdir;
    [rewrite Hinit; intros [=]|].
  destruct (stored_dims (imread_shape env first)) as [dims|].
  2:{ destruct Hinit as [msg Hmsg].
      destruct (Dataset_init env self path_images σ) as [σ1 r]. cbn [snd] in Hmsg.
      subst r. intros [=]. }
  rewrite Hinit. cbv beta iota. mstep.
  set (σ1 := mkState _ _ _ _).
  set (attrs1 := Dataset_attrs attrs path_images (first :: rest) dims).
  assert (Hattrs1 : heap σ1 !! self = Some attrs1) by apply lookup_insert_eq.
  assert (Hnone1 : attrs1 !! "num_images" = None).
  { subst attrs1. unfold Dataset_attrs. by rewrite !lookup_insert_ne by done. }
  rewrite bind_unfold.
  destruct (list_dir env path_masks) as [|mask masks] eqn:Hmasks.
  { unfold make_image_dirs, get_image_list. rewrite Hmasks. mstep. intros [=]. }
  rewrite (make_image_dirs_unchecked env σ1 self path_masks attrs1 Hattrs1 Hnone1)
    by (by rewrite Hmasks).
  rewrite Hmasks. cbv beta iota. cbn [fst snd]. subst σ1. do 2 mstep.
  match goal with |- (prep_data_img_labels env self ?s).2 = _ → _ => set (σ4 := s) end.
  subst attrs1. unfold Dataset_attrs in σ4.
  assert (Himgs : attr_of σ4 self "images" = Some (VStrs (first :: rest)))
    by (subst σ4; solve_attr).
  assert (Hmsks : attr_of σ4 self "masks" = Some (VStrs (mask :: masks)))
    by (subst σ4; solve_attr).
  assert (Hseed : attr_of σ4 self "seed" = Some (VInt 42)) by (subst σ4; solve_attr).
  assert (Hbatch : attr_of σ4 self "batch_size" = Some (VInt 16)) by (subst σ4; solve_attr).
  assert (Hcount : attr_of σ4 self "num_examples"
                   = Some (VInt (Z.of_nat (length (mask :: masks)))))
    by (subst σ4; solve_attr).
  destruct (load_data_from_seed env (first :: rest) (mask :: masks) (2 # 10) 42) as [r Hr].
  specialize (Hr σ4 self Hseed).
  pose proof (prep_data_outcome env Hperm σ4 self _ _ 42 16 r Himgs Hmsks Hseed Hbatch Hr)
    as Hprep.
  cbv zeta in Hprep.
  destruct r as [parts|e]; [|rewrite Hprep; intros [=]].
  destruct (load_data_lengths σ4 σ4 self _ _ 42 parts Hseed Hr)
    as (size & Hsize & Hfive & Himages & Hmany & Htx & Hty & Hvx & Hvy).
  pose proof (prep_data_counts σ4 self _ _ 42 16 parts Himgs Hmsks Hseed Hbatch Hr)
    as Hsteps.
  cbv zeta in Hsteps.
  destruct (train_part parts) as [tx ty]. destruct (valid_part parts) as [vx vy].
  cbn [fst snd] in *.
  destruct (Nat.eqb_spec (length tx) (length ty)) as [Heq|Hne]; cbn [negb] in Hprep;
    [|rewrite Hprep; intros [=]].
  intros _. exists path_images, path_masks. rewrite Hdir, Hmasks.
  assert (Hsame : length (mask :: masks) = length (first :: rest)) by lia.
  destruct Hsteps as [Hts Hvs]; [done|congruence|lia|].
  set (n := Z.of_nat (length (first :: rest))) in *.
  assert (Hshare : Z.of_nat size = (n / 5)%Z).
  { rewrite Hsize, Z2Nat.id; [done|]. apply Z.div_pos; lia. }
  assert (Htrain : Z.of_nat (length tx) = (n - 2 * (n / 5))%Z) by lia.
  rewrite Htrain in Hts. rewrite Hvx, Hshare in Hvs.
  split; [done|]. split; [done|]. cbv zeta. fold n.
  split; [done|]. split; [lia|].
  split; [by apply prep_data_keeps; [not_listed|]|].
  split; [by apply prep_data_keeps; [not_listed|]|].
  split; [|split; [by apply prep_data_keeps; [not_listed|]|by split]].
  subst n. rewrite <- Hsame. by apply prep_data_keeps; [not_listed|].
Qed.

End mask_dataset.

(** The theorem for a new object over ten images and ten masks. *)
Lemma mask_dataset_needs_equal_counts_witness :
  let env := example_env 10 10 in
  let out := ImgMaskDataset_init env 0 example_paths fresh_object in
  is_Some (heap fresh_object !! 0) ∧
  attr_of fresh_object 0 "num_images" = None ∧
  out.2 = Ok tt ∧
  ∃ path_images path_masks,
    dict_get example_paths "path_images" = Some path_images ∧
    dict_get example_paths "path_masks" = Some path_masks ∧
    let n := Z.of_nat (length (list_dir env path_images)) in
    length (list_dir env path_masks) = length (list_dir env path_images) ∧
    (5 ≤ n)%Z ∧
    attr_of out.1 0 "images" = Some (VStrs (list_dir env path_images)) ∧
    attr_of out.1 0 "masks" = Some (VStrs (list_dir env path_masks)) ∧
    attr_of out.1 0 "num_examples" = Some (VInt n) ∧
    attr_of out.1 0 "batch_size" = Some (VInt 16) ∧
    attr_of out.1 0 "train_steps"
      = Some (VInt (steps_stored (ceil_steps (n - 2 * (n / 5)) 16) 16)) ∧
    attr_of out.1 0 "valid_steps"
      = Some (VInt (steps_stored (ceil_steps (n / 5) 16) 16)).
Proof.
  assert (H1 : is_Some (heap fresh_object !! 0)) by (by eexists).
  assert (H2 : attr_of fresh_object 0 "num_images" = None) by reflexivity.
  assert (H3 : (ImgMaskDataset_init (example_env 10 10) 0 example_paths fresh_object).2
               = Ok tt) by (vm_compute; reflexivity).
  split; [exact H1|]. split; [exact H2|]. split; [exact H3|].
  exact (mask_dataset_needs_equal_counts (example_env 10 10)
           (example_env_draws_permutations 10 10) fresh_object 0 example_paths H1 H2 H3).
Defined.

(** A dataset of 200 images trains on 120 samples in 8 batches of 16, and
    the count stored for an epoch is one step. *)
Example steps_of_two_hundred :
  steps_stored (ceil_steps (200 - 2 * (200 / 5)) 16) 16 = 1%Z ∧
  ceil_steps (200 - 2 * (200 / 5)) 16 = 8%Z.
Proof. split; reflexivity. Qed.

(** ** How the constructors fail *)

(** X23. Both constructors check their two keys before anything else: a
    missing key raises [OSError] naming it, the first one missing if both
    are, and the object is left as it was. *)
Theorem constructors_require_keys env σ self (paths_training : dict string) :
  (dict_get paths_training "path_images" = None →
     ImgMaskDataset_init env self paths_training σ
       = (σ, Raise (OSError "Required key missing path_images")) ∧
     ImgLabelDataset_init env self paths_training σ
       = (σ, Raise (OSError "Required key missing path_images"))) ∧
  (is_Some (dict_get paths_training "path_images") →
     (dict_get paths_training "path_masks" = None →
        ImgMaskDataset_init env self paths_training σ
          = (σ, Raise (OSError "Required key missing path_masks"))) ∧
     (dict_get paths_training "path_labels" = None →
        ImgLabelDataset_init env self paths_training σ
          = (σ, Raise (OSError "Required key missing path_labels")))).
Proof.
  unfold ImgMaskDataset_init, ImgLabelDataset_init, require_keys. cbn [for_each].
  split.
  - intros ->. split; by mstep.
  - intros [path_images ->]. split; intros ->; by repeat mstep.
Qed.

(** X24. Over a directory without files both constructors raise
    [TypeError] (the message of the intended [FileNotFoundError] adds a
    list to a string), and the object is left as it was. *)
Theorem constructors_reject_empty_directory env σ self (paths_training : dict string)
    (path_images : string) :
  dict_get paths_training "path_images" = Some path_images →
  list_dir env path_images = [] →
  (is_Some (dict_get paths_training "path_masks") →
     ImgMaskDataset_init env self paths_training σ
       = (σ, Raise (TypeError "can only concatenate str (not list) to str"))) ∧
  (is_Some (dict_get paths_training "path_labels") →
     ImgLabelDataset_init env self paths_training σ
       = (σ, Raise (TypeError "can only concatenate str (not list) to str"))).
Proof.
  intros Himages Hdir.
  unfold ImgMaskDataset_init, ImgLabelDataset_init, require_keys, dict_item,
    Dataset_init, make_image_dirs, get_image_list.
  cbn [for_each]. rewrite Himages.
  split; intros [other ->]; repeat mstep; rewrite Hdir; by mstep.
Qed.

(** The theorem for a directory that is not listed by the environment. *)
Lemma constructors_reject_empty_directory_witness :
  let env := example_env 10 10 in
  let paths := [("path_images", "data/empty"); ("path_masks", "data/masks");
                ("path_labels", "labels.csv")] in
  dict_get paths "path_images" = Some "data/empty" ∧
  list_dir env "data/empty" = [] ∧
  (is_Some (dict_get paths "path_masks") →
     ImgMaskDataset_init env 0 paths fresh_object
       = (fresh_object, Raise (TypeError "can only concatenate str (not list) to str"))) ∧
  (is_Some (dict_get paths "path_labels") →
     ImgLabelDataset_init env 0 paths fresh_object
       = (fresh_object, Raise (TypeError "can only concatenate str (not list) to str"))).
Proof.
  intros env paths.
  assert (H1 : dict_get paths "path_images" = Some "data/empty") by reflexivity.
  assert (H2 : list_dir env "data/empty" = []) by reflexivity.
  split; [exact H1|]. split; [exact H2|].
  exact (constructors_reject_empty_directory env fresh_object 0 paths "data/empty" H1 H2).
Defined.

(** ** The label dataset *)

(** [calc_train_steps] on the iterators of a label dataset. *)
Lemma calc_train_steps_iterators σ self (train valid : list batch) (b : Z) :
  attr_of σ self "train_dataset" = Some (VIterator train) →
  attr_of σ self "valid_dataset" = Some (VIterator valid) →
  attr_of σ self "batch_size" = Some (VInt b) →
  (0 < b)%Z →
  let out := calc_train_steps self σ in
  out.2 = Ok tt ∧
  attr_of out.1 self "train_steps" = Some (VInt (steps_stored (Z.of_nat (length train)) b)) ∧
  attr_of out.1 self "valid_steps" = Some (VInt (steps_stored (Z.of_nat (length valid)) b)).
Proof.
  intros Htrain Hvalid Hbatch Hb out. subst out.
  destruct (attr_of_object _ _ _ _ Htrain) as [attrs Hattrs].
  unfold calc_train_steps, steps_stored.
  rewrite <- !py_round_div by done.
  do 5 mstep.
  destruct (Z.eqb_spec b 0) as [->|_]; [lia|].
  do 4 mstep.
  destruct (Z.eqb_spec (Z.of_nat (length train) mod b) 0) as [Ht|Ht];
    destruct (Z.eqb_spec (Z.of_nat (length valid) mod b) 0) as [Hv|Hv];
    cbn [negb]; repeat mstep; try mlast; cbn [fst snd mret M_ret];
    rewrite ?Z.add_0_r; (split; [done|split; solve_attr]).
Qed.

(** The outcome of [ImgLabelDataset.__init__] on a new object. *)
Lemma label_init_outcome env σ self (paths_training : dict string) :
  is_Some (heap σ !! self) →
  attr_of σ self "num_images" = None →
  let out := ImgLabelDataset_init env self paths_training σ in
  (out.2 = Ok tt ↔
     ∃ path_images path_labels first,
       dict_get paths_training "path_images" = Some path_images ∧
       dict_get paths_training "path_labels" = Some path_labels ∧
       head (list_dir env path_images) = Some first ∧
       is_Some (stored_dims (imread_shape env first)) ∧
       length (read_csv env path_labels) = length (list_dir env path_images)) ∧
  (out.2 = Ok tt →
     ∃ path_images path_labels,
       dict_get paths_training "path_images" = Some path_images ∧
       dict_get paths_training "path_labels" = Some path_labels ∧
       let table := (λ row : string * string, (row.1 +:+ ".tif", row.2))
                      <$> read_csv env path_labels in
       let parts := stratified_split env 42 table in
       let train := flow_from_dataframe env parts.1 path_images 16 in
       let valid := flow_from_dataframe env parts.2 path_images 16 in
       attr_of out.1 self "data_labels" = Some (VTable table) ∧
       attr_of out.1 self "train_dataset" = Some (VIterator train) ∧
       attr_of out.1 self "valid_dataset" = Some (VIterator valid) ∧
       attr_of out.1 self "train_steps"
         = Some (VInt (steps_stored (Z.of_nat (length train)) 16)) ∧
       attr_of out.1 self "valid_steps"
         = Some (VInt (steps_stored (Z.of_nat (length valid)) 16))).
Proof.
  intros [attrs Hattrs] Hnone out. subst out.
  rewrite (attr_of_lookup _ _ _ _ Hattrs) in Hnone.
  unfold ImgLabelDataset_init, require_keys, dict_item. cbn [for_each].
  destruct (dict_get paths_training "path_images") as [path_images|].
  2:{ mstep. cbn [snd]. split; [split; [done|]|done]. by intros (? & ? & ? & ? & _). }
  destruct (dict_get paths_training "path_labels") as [path_labels|].
  2:{ repeat mstep. cbn [snd]. split; [split; [done|]|done].
      by intros (? & ? & ? & _ & ? & _). }
  do 4 mstep.
  pose proof (Dataset_init_outcome env σ self path_images attrs Hattrs Hnone) as Hinit.
  cbv zeta in Hinit. rewrite bind_unfold.
  destruct (list_dir env path_images) as [|first rest] eqn:Hdir.
  { rewrite Hinit. cbn [snd]. split; [split; [done|]|done].
    intros (? & ? & ? & [= <-] & _ & Hhead & _). by rewrite Hdir in Hhead. }
  destruct (stored_dims (imread_shape env first)) as [dims|] eqn:Hdims.
  2:{ destruct Hinit as [msg Hmsg].
      destruct (Dataset_init env self path_images σ) as [σ1 r]. cbn [snd] in Hmsg.
      subst r. cbn [snd]. split; [split; [done|]|done].
      intros (? & ? & ? & [= <-] & _ & Hhead & Hshape & _).
      rewrite Hdir in Hhead. injection Hhead as <-. rewrite Hdims in Hshape.
      by destruct Hshape. }
  rewrite Hinit. cbv beta iota. mstep.
  unfold read_labels_from_excel, Dataset_attrs. do 3 mstep. rewrite length_fmap.
  destruct (Nat.eqb_spec (length (read_csv env path_labels)) (length (first :: rest)))
    as [Hrows|Hrows]; cbn [negb].
  2:{ mstep. cbn [snd]. split; [split; [done|]|done].
      intros (? & ? & ? & [= <-] & [= <-] & _ & _ & Heq). by rewrite Hdir in Heq. }
  unfold train_val_split, make_random_data_generator. repeat mstep.
  match goal with |- context [calc_train_steps self ?s] => set (σ5 := s) end.
  set (table := (λ row : string * string, (row.1 +:+ ".tif", row.2))
                  <$> read_csv env path_labels) in *.
  set (parts := stratified_split env 42 table) in *.
  destruct (calc_train_steps_iterators σ5 self
              (flow_from_dataframe env parts.1 path_images 16)
              (flow_from_dataframe env parts.2 path_images 16) 16)
    as (Hok & Htrain & Hvalid); [subst σ5; solve_attr..|lia|].
  split.
  - split; [|done]. intros _. exists path_images, path_labels, first.
    rewrite Hdir, Hdims. by repeat split.
  - intros _. exists path_images, path_labels. split; [done|]. split; [done|].
    cbv zeta. fold table parts.
    split; [apply calc_train_steps_keeps; [done|done|subst σ5; solve_attr]|].
    split; [apply calc_train_steps_keeps; [done|done|subst σ5; solve_attr]|].
    split; [apply calc_train_steps_keeps; [done|done|subst σ5; solve_attr]|].
    by split.
Qed.



Example label_dataset_example :
  let out := ImgLabelDataset_init label_env 0 label_paths fresh_object in
  out.2 = Ok tt ∧
  attr_of out.1 0 "data_labels"
    = Some (VTable [("a.tif", "0"); ("b.tif", "1"); ("c.tif", "0")]) ∧
  attr_of out.1 0 "train_dataset" = Some (VIterator [[("a.tif", "0"); ("b.tif", "1")]]) ∧
  attr_of out.1 0 "train_steps" = Some (VInt 1).
Proof. vm_compute. done. Qed.

(** X26. Debug mode cannot be used with a label dataset: its training
    pipeline is a Keras iterator, which has no [take], so on an
    orchestrator over a label dataset that was constructed
    [set_run_debug] raises [AttributeError] and truncates nothing. *)
Theorem debug_fails_on_label_dataset env σ dataset o (paths_training : dict string) :
  is_Some (heap σ !! dataset) →
  attr_of σ dataset "num_images" = None →
  let built := ImgLabelDataset_init env dataset paths_training σ in
  built.2 = Ok tt →
  attr_of built.1 o "dataset" = Some (VRef dataset) →
  set_run_debug o built.1 = (built.1, Raise (AttributeError "take")).
Proof.
  intros Hobj Hnone built Hok Href.
  destruct (label_init_outcome env σ dataset paths_training Hobj Hnone) as [_ Hpost].
  destruct (Hpost Hok) as (path_images & path_labels & _ & _ & Hpost').
  cbv zeta in Hpost'. destruct Hpost' as (_ & Htrain & _).
  fold built in Htrain. unfold set_run_debug.
  rewrite bind_assoc, bind_unfold, (getattr_ok _ _ _ _ Href). cbn [as_ref].
  rewrite ret_bind, bind_unfold, (getattr_ok _ _ _ _ Htrain). cbn [tf_take].
  by rewrite raise_bind.
Qed.

(** The theorem for the dataset of three labelled images. *)
Lemma debug_fails_on_label_dataset_witness :
  let built := ImgLabelDataset_init label_env 0 label_paths label_world in
  is_Some (heap label_world !! 0) ∧
  attr_of label_world 0 "num_images" = None ∧
  built.2 = Ok tt ∧
  attr_of built.1 1 "dataset" = Some (VRef 0) ∧
  set_run_debug 1 built.1 = (built.1, Raise (AttributeError "take")).
Proof.
  assert (H1 : is_Some (heap label_world !! 0)) by (by eexists).
  assert (H2 : attr_of label_world 0 "num_images" = None) by reflexivity.
  assert (H3 : (ImgLabelDataset_init label_env 0 label_paths label_world).2 = Ok tt)
    by (vm_compute; reflexivity).
  assert (H4 : attr_of (ImgLabelDataset_init label_env 0 label_paths label_world).1 1
                 "dataset" = Some (VRef 0)) by (vm_compute; reflexivity).
  split; [exact H1|]. split; [exact H2|]. split; [exact H3|]. split; [exact H4|].
  exact (debug_fails_on_label_dataset label_env label_world 0 1 label_paths H1 H2 H3 H4).
Defined.

(** ** Decoding an image *)

Section yields.
Context {A B : Type}.

Lemma yields_bind (m : M A) (f : A → M B) (Q1 : A → Prop) (Q2 : B → Prop) :
  yields m Q1 → (∀ a, Q1 a → yields (f a) Q2) → yields (m ≫= f) Q2.
Proof.
  intros Hm Hf σ σ' b. rewrite bind_unfold.
  destruct (m σ) as [σ1 [a|e]] eqn:Hrun; [|done].
  destruct (Hm σ σ1 a Hrun) as [-> Ha]. by apply Hf.
Qed.

Lemma yields_ret (a : A) (Q : A → Prop) : Q a → yields (mret a) Q.
Proof. by intros Ha σ σ' a' [= <- <-]. Qed.

Lemma yields_raise (e : exn) (Q : A → Prop) : yields (raise e) Q.
Proof. by intros σ σ' a. Qed.

Lemma yields_from_option (e : exn) (o : option A) (Q : A → Prop) :
  (∀ a, o = Some a → Q a) → yields (from_option e o) Q.
Proof. intros HQ. destruct o; [apply yields_ret; by apply HQ|apply yields_raise]. Qed.
End yields.

Lemma yields_getattr o a : yields (getattr o a) (λ _, True).
Proof.
  intros σ σ' v. unfold getattr. destruct (heap σ !! o ≫= _); [|done].
  by intros [= <- _].
Qed.

Lemma yields_as_ints v : yields (as_ints v) (λ _, True).
Proof. destruct v; try apply yields_raise. by apply yields_ret. Qed.


Lemma scaled_normalized (p : Byte.byte) : normalized (scaled p).
Proof.
  unfold normalized, scaled, pixel_value.
  pose proof (Byte.to_N_bounded p) as Hp.
  assert (Hz : (0 ≤ Z.of_N (Byte.to_N p) ≤ 255)%Z) by lia.
  revert Hz. generalize (Z.of_N (Byte.to_N p)). intros z Hz.
  unfold Qle, Qdiv, Qmult, Qinv, inject_Z. simpl. lia.
Qed.

Lemma divide_255_normalized (x : uint8_array) :
  Forall normalized (entries (divide_255 x)).
Proof.
  destruct x as [rows|rows]; cbn [divide_255 entries].
  - apply Forall_concat, List.Forall_map, Forall_forall. intros row _.
    apply List.Forall_map, Forall_forall. intros p _. apply scaled_normalized.
  - apply Forall_concat, Forall_concat, List.Forall_map, Forall_forall. intros row _.
    apply List.Forall_map, Forall_forall. intros pixel _.
    apply List.Forall_map, Forall_forall. intros p _. apply scaled_normalized.
Qed.

Lemma expand_dims_last_entries (rows : list (list Q)) :
  concat (concat (expand_dims_last rows)) = concat rows.
Proof.
  unfold expand_dims_last. induction rows as [|row rows IH]; [done|].
  cbn [map concat]. rewrite concat_app, IH. f_equal.
  clear. induction row as [|p row IH]; [done|]. cbn [map concat]. by rewrite IH.
Qed.

(** X27. Whatever [read_image] returns is an array of three dimensions
    whose entries lie between 0 and 1, for an image as for a mask, and
    reading leaves the dataset as it is. *)
Theorem read_image_normalized (cv : Cv2) σ σ' self (path image_type : string)
    (x : float_array) :
  read_image cv self path image_type σ = (σ', Ok x) →
  σ' = σ ∧ (∃ rows, x = F_3d rows) ∧ Forall normalized (entries x).
Proof.
  revert σ σ' x.
  change (yields (read_image cv self path image_type)
            (λ x, (∃ rows, x = F_3d rows) ∧ Forall normalized (entries x))).
  unfold read_image.
  apply (yields_bind _ _ (λ _, True)).
  { destruct (String.eqb image_type "image"); [by apply yields_ret|].
    destruct (String.eqb image_type "mask"); [by apply yields_ret|apply yields_raise]. }
  intros x0 _.
  apply (yields_bind _ _ (λ _, True)).
  { apply (yields_bind _ _ (λ _, True)); [apply yields_getattr|intros; apply yields_as_ints]. }
  intros original _.
  apply (yields_bind _ _ (λ _, True)).
  { apply (yields_bind _ _ (λ _, True)); [apply yields_getattr|intros; apply yields_as_ints]. }
  intros target _.
  apply (yields_bind _ _ (λ _, True)).
  { destruct (negb _); [|by apply yields_ret].
    apply (yields_bind _ _ (λ _, True)).
    { apply (yields_bind _ _ (λ _, True)); [apply yields_getattr|intros; apply yields_as_ints]. }
    intros dims _.
    repeat (apply (yields_bind _ _ (λ _, True)); [by apply yields_from_option|intros ? _]).
    by apply yields_ret. }
  intros x1 _.
  apply (yields_bind _ _ (λ _, True)); [by apply yields_from_option|].
  intros u _.
  pose proof (divide_255_normalized u) as Hunit.
  destruct (divide_255 u) as [rows|rows]; apply yields_ret; cbn [entries] in *.
  - split; [by eexists|]. by rewrite expand_dims_last_entries.
  - split; [by eexists|done].
Qed.

(** The theorem for the mask of two pixels, read by the dataset of ten
    samples. *)
Lemma read_image_normalized_witness :
  let σ := constructed 10 in
  let x := F_3d [[[scaled Byte.x00]; [scaled Byte.xff]]] in
  read_image example_cv2 0 "mask.png" "mask" σ = (σ, Ok x) ∧
  σ = σ ∧ (∃ rows, x = F_3d rows) ∧ Forall normalized (entries x).
Proof.
  assert (H1 : read_image example_cv2 0 "mask.png" "mask" (constructed 10)
               = (constructed 10, Ok (F_3d [[[scaled Byte.x00]; [scaled Byte.xff]]])))
    by (vm_compute; reflexivity).
  split; [exact H1|].
  exact (read_image_normalized example_cv2 (constructed 10) (constructed 10) 0
           "mask.png" "mask" _ H1).
Defined.

(** X28. Target dimensions other than the original ones make every read
    fail: the resize reads an attribute [dims], which no method of the
    class assigns.  After [set_image_target_dims] with such dimensions,
    which returns and stores them, [read_image] raises [AttributeError]
    for an image as for a mask. *)
Theorem resize_needs_dims (cv : Cv2) σ self (original target : list Z)
    (path image_type : string) :
  attr_of σ self "image_dims_original" = Some (VInts original) →
  attr_of σ self "dims" = None →
  length target = 3 → target ≠ original →
  image_type = "image" ∨ image_type = "mask" →
  let changed := set_image_target_dims self target σ in
  changed.2 = Ok tt ∧
  attr_of changed.1 self "image_dims_target" = Some (VInts target) ∧
  read_image cv self path image_type changed.1
    = (changed.1, Raise (AttributeError "dims")).
Proof.
  intros Horiginal Hdims Hlen Hne Htype changed. subst changed.
  destruct (attr_of_object _ _ _ _ Horiginal) as [attrs Hattrs].
  rewrite (attr_of_lookup _ _ _ _ Hattrs) in Horiginal.
  rewrite (attr_of_lookup _ _ _ _ Hattrs) in Hdims.
  destruct target as [|h [|w [|c [|d more]]]]; try done.
  unfold set_image_target_dims. cbn [length Nat.eqb negb lookup list_lookup].
  do 3 mstep.
  assert (Hread : ∀ σ1 attrs1,
            heap σ1 !! self = Some attrs1 →
            attrs1 !! "image_dims_original" = Some (VInts original) →
            attrs1 !! "image_dims_target" = Some (VInts [h; w; c]) →
            attrs1 !! "dims" = None →
            read_image cv self path image_type σ1 = (σ1, Raise (AttributeError "dims"))).
  { intros σ1 attrs1 Hattrs1 Ho Ht Hd. unfold read_image.
    assert (Hfirst : ∀ (k : option uint8_array → M float_array) r,
              (∀ x0, k x0 σ1 = r) →
              ((if String.eqb image_type "image"
                then mret (U8_3d <$> imread_color cv path)
                else if String.eqb image_type "mask"
                     then mret (U8_2d <$> imread_grayscale cv path)
                     else raise (ValueError
                       "Trying to read unrecognized image type. Should be 'image' or 'mask'"))
               ≫= k) σ1 = r).
    { intros k r Hk. destruct Htype as [-> | ->]; cbn [String.eqb Ascii.eqb Bool.eqb];
        by rewrite ret_bind. }
    apply Hfirst. intros x0.
    rewrite bind_assoc, bind_unfold, (getattr_ok σ1 self _ (VInts original))
      by (by rewrite (attr_of_lookup _ _ _ _ Hattrs1)).
    cbn [as_ints]. rewrite ret_bind.
    rewrite bind_assoc, bind_unfold, (getattr_ok σ1 self _ (VInts [h; w; c]))
      by (by rewrite (attr_of_lookup _ _ _ _ Hattrs1)).
    cbn [as_ints]. rewrite ret_bind.
    rewrite bool_decide_eq_false_2 by done. cbn [negb].
    rewrite !bind_assoc, bind_unfold, (getattr_fail σ1 self "dims")
      by (by rewrite (attr_of_lookup _ _ _ _ Hattrs1)).
    done. }
  destruct (_ && _).
  - mstep. mlast. cbn [fst snd].
    split; [done|]. split; [solve_attr|].
    eapply Hread; [apply lookup_insert_eq|..]; solve_lookup.
  - mstep. mlast. cbn [fst snd].
    split; [done|]. split; [solve_attr|].
    eapply Hread; [apply lookup_insert_eq|..]; solve_lookup.
Qed.

(** The theorem for the dataset of ten samples, whose images are 256 by
    256, asked for 128 by 128. *)
Lemma resize_needs_dims_witness :
  let σ := constructed 10 in
  let changed := set_image_target_dims 0 [128; 128; 3]%Z σ in
  attr_of σ 0 "image_dims_original" = Some (VInts [256; 256; 3]%Z) ∧
  attr_of σ 0 "dims" = None ∧
  length [128; 128; 3]%Z = 3 ∧ [128; 128; 3]%Z ≠ [256; 256; 3]%Z ∧
  ("image" = "image" ∨ "image" = "mask") ∧
  changed.2 = Ok tt ∧
  attr_of changed.1 0 "image_dims_target" = Some (VInts [128; 128; 3]%Z) ∧
  read_image example_cv2 0 "image.png" "image" changed.1
    = (changed.1, Raise (AttributeError "dims")).
Proof.
  assert (H1 : attr_of (constructed 10) 0 "image_dims_original"
               = Some (VInts [256; 256; 3]%Z)) by (vm_compute; reflexivity).
  assert (H2 : attr_of (constructed 10) 0 "dims" = None) by (vm_compute; reflexivity).
  assert (H3 : length [128; 128; 3]%Z = 3) by reflexivity.
  assert (H4 : [128; 128; 3]%Z ≠ [256; 256; 3]%Z) by discriminate.
  assert (H5 : "image" = "image" ∨ "image" = "mask") by (by left).
  do 5 (split; [assumption|]).
  exact (resize_needs_dims example_cv2 (constructed 10) 0 _ _ "image.png" "image"
           H1 H2 H3 H4 H5).
Defined.

(** ** The training script of the EfficientNet experiment *)

Lemma foldl_min_spec (x : Z) (r : list Z) :
  foldl Z.min x r ∈ x :: r ∧ ∀ y, y ∈ x :: r → (foldl Z.min x r ≤ y)%Z.
Proof.
  revert x. induction r as [|z r IH]; intros x; cbn [foldl].
  - split; [by left|]. intros y Hy. apply list_elem_of_singleton in Hy. lia.
  - destruct (IH (Z.min x z)) as [Hin Hle]. split.
    + apply elem_of_cons in Hin as [Heq|Hin]; [|by do 2 right].
      rewrite Heq. destruct (Z.min_spec x z) as [[_ ->]|[_ ->]]; [by left|right; by left].
    + intros y Hy.
      assert (Hmin : (foldl Z.min (Z.min x z) r ≤ Z.min x z)%Z) by (apply Hle; by left).
      apply elem_of_cons in Hy as [->|Hy]; [lia|].
      apply elem_of_cons in Hy as [->|Hy]; [lia|].
      apply Hle. by right.
Qed.

Lemma amin_spec (l : list Z) (m : Z) :
  amin l = Some m → m ∈ l ∧ ∀ y, y ∈ l → (m ≤ y)%Z.
Proof. destruct l as [|x r]; [done|]. intros [= <-]. apply foldl_min_spec. Qed.

Lemma where_equal_filter (f : Z → Z) (sizes : list Z) (m : Z) :
  where_equal sizes (f <$> sizes) m = List.filter (λ s, (f s =? m)%Z) sizes.
Proof.
  unfold where_equal. induction sizes as [|s sizes IH]; [done|].
  cbn [fmap list_fmap zip zip_with List.filter snd].
  destruct (f s =? m)%Z; cbn [fmap list_fmap fst]; by rewrite <- IH.
Qed.

(** The first element that passes a test, in a sorted list, is the least
    one that passes. *)
Lemma filter_first_least (P : Z → bool) (l : list Z) (h : Z) :
  ascending l →
  List.filter P l !! 0 = Some h →
  h ∈ l ∧ P h = true ∧ ∀ s, s ∈ l → P s = true → (h ≤ s)%Z.
Proof.
  induction l as [|x l IH]; [done|]. intros [Hall Hsorted]. cbn [List.filter].
  destruct (P x) eqn:HPx.
  - intros [= <-]. split; [by left|]. split; [done|].
    intros s Hs _. apply elem_of_cons in Hs as [->|Hs]; [lia|].
    rewrite Forall_forall in Hall. by apply Hall.
  - intros Hh. destruct (IH Hsorted Hh) as (Hin & HPh & Hleast).
    split; [by right|]. split; [done|].
    intros s Hs HPs. apply elem_of_cons in Hs as [->|Hs]; [congruence|]. by apply Hleast.
Qed.

Lemma efficient_net_sizes_ascending : ascending efficient_net_sizes.
Proof. unfold efficient_net_sizes. cbn [ascending]. repeat split; repeat constructor; lia. Qed.

(** X29. [get_closest_network_size] gives the same height and width, an
    input size of the EfficientNet family than which no other is closer
    to the height of the first image; of two sizes equally close it gives
    the smaller.  It changes nothing. *)
Theorem closest_network_size env σ σ' (image_path : string) (H W : Z) :
  get_closest_network_size env image_path σ = (σ', Ok (H, W)) →
  ∃ image sze,
    list_dir env (os_path_join image_path "images") !! 0 = Some image ∧
    imread_shape env image !! 0 = Some sze ∧
    σ' = σ ∧ W = H ∧ H ∈ efficient_net_sizes ∧
    (∀ s, s ∈ efficient_net_sizes → (Z.abs (sze - H) ≤ Z.abs (sze - s))%Z) ∧
    (∀ s, s ∈ efficient_net_sizes → Z.abs (sze - s) = Z.abs (sze - H) → (H ≤ s)%Z).
Proof.
  unfold get_closest_network_size. cbv zeta.
  destruct (list_dir env _ !! 0) as [image|] eqn:Himage; [|mstep; intros [=]]. mstep.
  destruct (imread_shape env image !! 0) as [sze|] eqn:Hsze; [|mstep; intros [=]]. mstep.
  destruct (amin _) as [m|] eqn:Hmin; [|mstep; intros [=]]. mstep.
  rewrite (where_equal_filter (λ s, Z.abs (sze - s))).
  destruct (List.filter _ _ !! 0) as [h|] eqn:Hfirst; [|mstep; intros [=]]. mstep.
  intros [= <- <- <-].
  apply amin_spec in Hmin as [_ Hleast].
  apply (filter_first_least _ _ _ efficient_net_sizes_ascending) in Hfirst
    as (Hin & Hdiff & Hsmallest).
  apply Z.eqb_eq in Hdiff.
  exists image, sze. do 5 (split; [done|]). split.
  - intros s Hs. rewrite Hdiff. apply Hleast.
    apply (list_elem_of_fmap_2 (λ s, Z.abs (sze - s))), Hs.
  - intros s Hs Hsame. apply Hsmallest; [done|]. apply Z.eqb_eq. congruence.
Qed.

(** The theorem for the directory of images of 256 by 256. *)
Lemma closest_network_size_witness :
  let env := example_env 10 10 in
  get_closest_network_size env "data" fresh_object = (fresh_object, Ok (260, 260)%Z) ∧
  ∃ image sze,
    list_dir env (os_path_join "data" "images") !! 0 = Some image ∧
    imread_shape env image !! 0 = Some sze ∧
    fresh_object = fresh_object ∧ 260%Z = 260%Z ∧ 260%Z ∈ efficient_net_sizes ∧
    (∀ s, s ∈ efficient_net_sizes → (Z.abs (sze - 260) ≤ Z.abs (sze - s))%Z) ∧
    (∀ s, s ∈ efficient_net_sizes → Z.abs (sze - s) = Z.abs (sze - 260) → (260 ≤ s)%Z).
Proof.
  assert (H1 : get_closest_network_size (example_env 10 10) "data" fresh_object
               = (fresh_object, Ok (260, 260)%Z)) by (vm_compute; reflexivity).
  split; [exact H1|].
  exact (closest_network_size (example_env 10 10) fresh_object fresh_object "data"
           260 260 H1).
Defined.

(** Between two sizes the smaller is taken: 250 is as far from 240 as
    from 260. *)
Example closest_of_two :
  where_equal efficient_net_sizes ((λ s, Z.abs (250 - s)) <$> efficient_net_sizes) 10 !! 0
    = Some 240%Z.
Proof. reflexivity. Qed.

(** X30. The script counts its steps as the number of samples over its
    batch size of 8, rounded up, for every number of samples; the count
    that [calc_train_steps] of the library stores for the same numbers is
    never smaller and at most one larger. *)
Theorem main_steps_ceiling (n : Z) :
  main_steps n = ceil_steps n 8 ∧
  (main_steps n ≤ steps_stored n 8 ≤ main_steps n + 1)%Z.
Proof.
  assert (Hceil : main_steps n = ceil_steps n 8).
  { rewrite ceil_steps_div by lia. unfold main_steps. cbv zeta.
    destruct (n mod 8 =? 0)%Z; cbn [negb]; lia. }
  split; [done|]. rewrite Hceil, (steps_stored_ceiling n 8) by lia.
  destruct (2 * (n mod 8) ?= 8)%Z; [destruct (Z.even (n / 8))| |]; lia.
Qed.
